(** * Exam attempt lifecycle: the [ExamLayout] screen

    A shallow embedding of [frontend/src/screens/ExamLayout.tsx]: the
    per-question palette state, the countdown, the fullscreen watchdog and
    the two submission paths, together with the scoring rule of the attempt
    service.

    The component is a React function component.  Its [useState] cells are
    the fields of [State]; each browser event (a click, an interval
    callback, a settled [fetch], a change of the address) is an [Event];
    [step] runs the handler of the event, then renders and runs the
    [useEffect] bodies whose dependencies changed, so that the handler of
    the next event reads the state this one committed.  The handlers of the
    fullscreen watchdog are closures of the tracking effect and keep the
    values of the render that created them: one [Detections] event hands
    several detections of a fullscreen change to the closures of one
    render, before React renders again.  An [await] ends the event: the rest
    of the handler runs as the event that settles the request, with the
    values the handler had captured.  The environment the component talks
    to (the document's fullscreen flag, the requests handed to [fetch], the
    suspended [async] continuations, the armed timers) is part of the state
    as well, and so is the prop [examId], which the router changes when the
    address goes from one exam to another. *)

From stdpp Require Import base list strings pretty.
From Stdlib Require Import ZArith Lia.

(** ** Palette status of one question *)

Inductive QuestionStatus :=
  | notVisited
  | notAnswered
  | answered
  | marked
  | answeredMarked.

#[export] Instance QuestionStatus_eq_dec : EqDecision QuestionStatus.
Proof. solve_decision. Defined.

(** [selectedOptionIndex] is [number | null]: the 0-based index of the
    radio button, or [None]. *)
Record QuestionState := mkQuestionState {
  selectedOptionIndex : option nat;
  status : QuestionStatus
}.

#[export] Instance QuestionState_eq_dec : EqDecision QuestionState.
Proof. solve_decision. Defined.

(** ** The state updaters of the answer handlers

    Every handler calls [setQuestionState] with an updater over the
    previous array.  The updaters index the copy [next] at [currentIndex].
    The screen renders the handlers' buttons only while
    [questions[currentIndex]] exists, and as long as the exam is loaded
    once [questionState] has one entry per question, so that the index is
    in range whenever a handler runs.  Out of range, which takes a second
    exam loaded over a running attempt, the JavaScript array would grow by
    an object built from [undefined], which this model does not represent:
    there the updaters below return the array as it is, and the statements
    about palette entries carry the range condition. *)

(** [handleSelectOption], lines 477-488. *)
Definition handleSelectOption (currentIndex optionIndex : nat)
    (prev : list QuestionState) : list QuestionState :=
  match prev !! currentIndex with
  | Some entry =>
      let current := mkQuestionState (Some optionIndex) (status entry) in
      let current :=
        match status current with
        | notVisited | notAnswered =>
            mkQuestionState (selectedOptionIndex current) answered
        | _ => current
        end in
      <[currentIndex := current]> prev
  | None => prev
  end.

(** The two guarded writes of [moveToQuestion]: an entry that exists and is
    still [notVisited] becomes [notAnswered]. *)
Definition seen (i : nat) (next : list QuestionState) : list QuestionState :=
  match next !! i with
  | Some entry =>
      match status entry with
      | notVisited =>
          <[i := mkQuestionState (selectedOptionIndex entry) notAnswered]> next
      | _ => next
      end
  | None => next
  end.

(** [moveToQuestion], lines 490-503: the updater, then
    [setCurrentIndex(index)]. *)
Definition moveToQuestion (currentIndex index : nat)
    (prev : list QuestionState) : nat * list QuestionState :=
  (index, seen index (seen currentIndex prev)).

(** [handleClear], lines 511-521. *)
Definition handleClear (currentIndex : nat)
    (prev : list QuestionState) : list QuestionState :=
  match prev !! currentIndex with
  | Some _ => <[currentIndex := mkQuestionState None notAnswered]> prev
  | None => prev
  end.

(** [handleSaveAndMarkForReview], lines 523-532: the status is overwritten
    without looking at the selection. *)
Definition handleSaveAndMarkForReview (currentIndex : nat)
    (prev : list QuestionState) : list QuestionState :=
  match prev !! currentIndex with
  | Some entry =>
      <[currentIndex :=
          mkQuestionState (selectedOptionIndex entry) answeredMarked]> prev
  | None => prev
  end.

(** The updater of [handleMarkForReviewAndNext], lines 535-546. *)
Definition markForReview (currentIndex : nat)
    (prev : list QuestionState) : list QuestionState :=
  match prev !! currentIndex with
  | Some entry =>
      let current :=
        match selectedOptionIndex entry with
        | Some _ => mkQuestionState (selectedOptionIndex entry) answeredMarked
        | None => mkQuestionState (selectedOptionIndex entry) marked
        end in
      <[currentIndex := current]> prev
  | None => prev
  end.

(** [currentIndex < questions.length - 1], computed on integers as the
    source does ([questions.length - 1] is [-1] for an empty exam). *)
Definition has_next (currentIndex nquestions : nat) : bool :=
  (Z.of_nat currentIndex <? Z.of_nat nquestions - 1)%Z.

(** [handleSaveAndNext], lines 505-509. *)
Definition handleSaveAndNext (nquestions currentIndex : nat)
    (prev : list QuestionState) : nat * list QuestionState :=
  if has_next currentIndex nquestions
  then moveToQuestion currentIndex (currentIndex + 1) prev
  else (currentIndex, prev).

(** [handleMarkForReviewAndNext], lines 534-550: the marking updater is
    queued first; [moveToQuestion] then queues its own updater, which still
    reads the [currentIndex] of the same render. *)
Definition handleMarkForReviewAndNext (nquestions currentIndex : nat)
    (prev : list QuestionState) : nat * list QuestionState :=
  let next := markForReview currentIndex prev in
  if has_next currentIndex nquestions
  then moveToQuestion currentIndex (currentIndex + 1) next
  else (currentIndex, next).

(** The controls of the exam screen that touch the palette. *)
Inductive Action :=
  | SelectOption (optionIndex : nat)
  | SaveAndNext
  | Clear
  | SaveAndMarkForReview
  | MarkForReviewAndNext
  | Back
  | Next
  | Palette (index : nat).

(** What each control's [onClick] does to [(currentIndex, questionState)].
    [Back] is [moveToQuestion(Math.max(0, currentIndex - 1))], [Next] is
    [moveToQuestion(Math.min(questions.length - 1, currentIndex + 1))].
    For an exam without questions the source computes the target [-1] for
    [Next], which addresses no entry; the index is a natural number here
    and the controls are not rendered for such an exam. *)
Definition apply_action (nquestions : nat) (a : Action)
    (m : nat * list QuestionState) : nat * list QuestionState :=
  let '(currentIndex, prev) := m in
  match a with
  | SelectOption optionIndex =>
      (currentIndex, handleSelectOption currentIndex optionIndex prev)
  | SaveAndNext => handleSaveAndNext nquestions currentIndex prev
  | Clear => (currentIndex, handleClear currentIndex prev)
  | SaveAndMarkForReview =>
      (currentIndex, handleSaveAndMarkForReview currentIndex prev)
  | MarkForReviewAndNext =>
      handleMarkForReviewAndNext nquestions currentIndex prev
  | Back =>
      moveToQuestion currentIndex
        (Z.to_nat (Z.max 0 (Z.of_nat currentIndex - 1)%Z)) prev
  | Next =>
      moveToQuestion currentIndex
        (Z.to_nat (Z.min (Z.of_nat nquestions - 1) (Z.of_nat currentIndex + 1))%Z)
        prev
  | Palette index => moveToQuestion currentIndex index prev
  end.

(** Whether the control is rendered and enabled on the exam screen (where
    [timeOver] is false): [Back] is disabled on the first question, [Next]
    on the last, and the palette has one button per question. *)
Definition action_enabled (nquestions currentIndex : nat) (a : Action) : bool :=
  match a with
  | Back => negb (currentIndex =? 0)
  | Next => negb (Z.of_nat currentIndex =? Z.of_nat nquestions - 1)%Z
  | Palette index => index <? nquestions
  | _ => true
  end.

Definition run_actions (nquestions : nat) (acts : list Action)
    (m : nat * list QuestionState) : nat * list QuestionState :=
  foldl (fun m a => apply_action nquestions a m) m acts.

(** A status other than [notVisited]. *)
Definition visited (st : QuestionStatus) : Prop := st ≠ notVisited.

(** An updater keeps every visited entry visited. *)
Definition keeps_visited (f : list QuestionState → list QuestionState) : Prop :=
  ∀ prev j q, prev !! j = Some q → visited (status q) →
    ∃ q', f prev !! j = Some q' ∧ visited (status q').

(** The entry at [currentIndex] after [handleSelectOption]. *)
Definition selected_entry (v : nat) (q : QuestionState) : QuestionState :=
  mkQuestionState (Some v)
    match status q with
    | notVisited | notAnswered => answered
    | st => st
    end.

(** ** Scoring at submission *)

(** Modelled from the spec: the attempt service (the FastAPI backend behind
    [POST /attempts/{id}/submit]) is not among the sources, only its callers
    are.  A question carries its answer key, the marks awarded and the marks
    deducted; an answer record holds the selected option (1-based) or no
    selection. *)
Record ScoredQuestion := mkScoredQuestion {
  correct_option : Z;
  marks : Z;
  negative_marks : Z
}.

(** The result object; the client reads the same six fields from
    [GET /attempts/{id}/results] (lines 55-62). *)
Record Results := mkResults {
  total_score : Z;
  total_questions : nat;
  attempted : nat;
  correct : nat;
  wrong : nat;
  not_attempted : nat
}.

Inductive Verdict := IsCorrect | IsWrong | IsNotAttempted.

#[export] Instance Verdict_eq_dec : EqDecision Verdict.
Proof. solve_decision. Defined.

(** Modelled from the spec: [correct] if the selected option equals the
    answer key, [wrong] if a different option was selected, [not_attempted]
    if no option was selected. *)
Definition judge (q : ScoredQuestion) (selected : option Z) : Verdict :=
  match selected with
  | None => IsNotAttempted
  | Some o => if (o =? correct_option q)%Z then IsCorrect else IsWrong
  end.

(** Modelled from the spec: the contribution of one question, [+marks],
    [-negative_marks] or [0]. *)
Definition contribution (q : ScoredQuestion) (selected : option Z) : Z :=
  match judge q selected with
  | IsCorrect => marks q
  | IsWrong => (- negative_marks q)%Z
  | IsNotAttempted => 0%Z
  end.

(** Modelled from the spec: one step of the scoring pass over the answer
    records, which are aligned with the exam's questions. *)
Definition tally (acc : Results) (slot : ScoredQuestion * option Z) : Results :=
  let '(q, selected) := slot in
  match judge q selected with
  | IsCorrect =>
      mkResults (total_score acc + marks q) (S (total_questions acc))
        (S (attempted acc)) (S (correct acc)) (wrong acc) (not_attempted acc)
  | IsWrong =>
      mkResults (total_score acc - negative_marks q) (S (total_questions acc))
        (S (attempted acc)) (correct acc) (S (wrong acc)) (not_attempted acc)
  | IsNotAttempted =>
      mkResults (total_score acc) (S (total_questions acc))
        (attempted acc) (correct acc) (wrong acc) (S (not_attempted acc))
  end.

(** Modelled from the spec: the Result computed by [submit]. *)
Definition compute_result (slots : list (ScoredQuestion * option Z)) : Results :=
  foldl tally (mkResults 0 0 0 0 0 0) slots.

Definition count_verdict (v : Verdict)
    (slots : list (ScoredQuestion * option Z)) : nat :=
  length (filter (fun slot => judge slot.1 slot.2 = v) slots).

(** The sum of the contributions of all questions. *)
Definition sum_contributions (slots : list (ScoredQuestion * option Z)) : Z :=
  foldr (fun slot acc => (contribution slot.1 slot.2 + acc)%Z) 0%Z slots.

(** ** The data of the screen *)

Record Question := mkQuestion {
  question_ident : Z;
  question_text : string;
  question_options : list string
}.

#[export] Instance Question_eq_dec : EqDecision Question.
Proof. solve_decision. Defined.

Record StudentDetails := mkStudentDetails {
  student_name : string;
  rollNumber : string;
  className : string;
  student_section : string
}.

#[export] Instance StudentDetails_eq_dec : EqDecision StudentDetails.
Proof. solve_decision. Defined.

(** One element of the [answers] array of a submit request;
    [selected_option] is 1-based or [null]. *)
Record Answer := mkAnswer {
  question_id : Z;
  selected_option : option nat
}.

(** The requests the screen hands to [fetch]. *)
Inductive Request :=
  | ReqCreateAttempt (exam_id : Z) (details : StudentDetails)
  | ReqSubmit (attempt : Z) (answers : list Answer)
  | ReqResults (attempt : Z)
  | ReqFullscreenExit (attempt : Z).

(** An [async] handler suspended at an [await fetch(...)], with what it
    captured and still uses: [handleStudentDetailsSubmit] builds the palette
    from the [questions] of the render in which the form was sent. *)
Inductive Pending :=
  | AwaitCreate (details : StudentDetails) (captured : list Question)
  | AwaitManualSubmit (attempt : Z)
  | AwaitManualResults (attempt : Z)
  | AwaitAutoSubmit (attempt : Z)
  | AwaitAutoResults (attempt : Z)
  | AwaitExitReport.

#[export] Instance Pending_eq_dec : EqDecision Pending.
Proof. solve_decision. Defined.

(** How a request settles: [fetch] rejects, or the response has [ok] false
    (with the [detail] of its body, possibly empty), or it is [ok] and
    carries a body. *)
Inductive Body :=
  | AttemptBody (ident : option Z)
  | ResultsBody (r : Results)
  | OtherBody.

Inductive Reply :=
  | NetworkError (message : string)
  | HttpError (detail : string)
  | HttpOk (body : Body).

(** ** The state of the screen

    [examId] is the component's prop.  [loading] to [results] are the
    [useState] cells (lines 35-62; the display-only cells [examTitle] and
    [examMeta] are left out).  The rest is the environment:
    [docFullscreen] says whether the document has a fullscreen element,
    [sent] lists the requests in the order they were issued, [pending] the
    suspended continuations, [startTimer] and [retryTimers] the armed
    [setTimeout(requestFullscreen)] calls, [isHandlingExit] the flag of the
    live instance of the tracking effect, [expired] counts the runs of the
    time-expiry branch, and [loads] the calls of [fetchExam] that still wait
    for their response. *)
Record State := mkState {
  examId : Z;
  loading : bool;
  error : option string;
  studentDetails : option StudentDetails;
  questions : list Question;
  currentIndex : nat;
  questionState : list QuestionState;
  timeRemaining : Z;
  timeOver : bool;
  attemptId : option Z;
  submitted : bool;
  submitting : bool;
  isFullscreen : bool;
  results : option Results;
  docFullscreen : bool;
  sent : list Request;
  pending : list Pending;
  startTimer : bool;
  retryTimers : nat;
  isHandlingExit : bool;
  expired : nat;
  loads : nat
}.

Definition set_examId (v : Z) (s : State) : State :=
  {| examId := v;
     loading := loading s;
     error := error s;
     studentDetails := studentDetails s;
     questions := questions s;
     currentIndex := currentIndex s;
     questionState := questionState s;
     timeRemaining := timeRemaining s;
     timeOver := timeOver s;
     attemptId := attemptId s;
     submitted := submitted s;
     submitting := submitting s;
     isFullscreen := isFullscreen s;
     results := results s;
     docFullscreen := docFullscreen s;
     sent := sent s;
     pending := pending s;
     startTimer := startTimer s;
     retryTimers := retryTimers s;
     isHandlingExit := isHandlingExit s;
     expired := expired s;
     loads := loads s |}.

Definition set_loading (v : bool) (s : State) : State :=
  {| examId := examId s;
     loading := v;
     error := error s;
     studentDetails := studentDetails s;
     questions := questions s;
     currentIndex := currentIndex s;
     questionState := questionState s;
     timeRemaining := timeRemaining s;
     timeOver := timeOver s;
     attemptId := attemptId s;
     submitted := submitted s;
     submitting := submitting s;
     isFullscreen := isFullscreen s;
     results := results s;
     docFullscreen := docFullscreen s;
     sent := sent s;
     pending := pending s;
     startTimer := startTimer s;
     retryTimers := retryTimers s;
     isHandlingExit := isHandlingExit s;
     expired := expired s;
     loads := loads s |}.

Definition set_error (v : option string) (s : State) : State :=
  {| examId := examId s;
     loading := loading s;
     error := v;
     studentDetails := studentDetails s;
     questions := questions s;
     currentIndex := currentIndex s;
     questionState := questionState s;
     timeRemaining := timeRemaining s;
     timeOver := timeOver s;
     attemptId := attemptId s;
     submitted := submitted s;
     submitting := submitting s;
     isFullscreen := isFullscreen s;
     results := results s;
     docFullscreen := docFullscreen s;
     sent := sent s;
     pending := pending s;
     startTimer := startTimer s;
     retryTimers := retryTimers s;
     isHandlingExit := isHandlingExit s;
     expired := expired s;
     loads := loads s |}.

Definition set_studentDetails (v : option StudentDetails) (s : State) : State :=
  {| examId := examId s;
     loading := loading s;
     error := error s;
     studentDetails := v;
     questions := questions s;
     currentIndex := currentIndex s;
     questionState := questionState s;
     timeRemaining := timeRemaining s;
     timeOver := timeOver s;
     attemptId := attemptId s;
     submitted := submitted s;
     submitting := submitting s;
     isFullscreen := isFullscreen s;
     results := results s;
     docFullscreen := docFullscreen s;
     sent := sent s;
     pending := pending s;
     startTimer := startTimer s;
     retryTimers := retryTimers s;
     isHandlingExit := isHandlingExit s;
     expired := expired s;
     loads := loads s |}.

Definition set_questions (v : list Question) (s : State) : State :=
  {| examId := examId s;
     loading := loading s;
     error := error s;
     studentDetails := studentDetails s;
     questions := v;
     currentIndex := currentIndex s;
     questionState := questionState s;
     timeRemaining := timeRemaining s;
     timeOver := timeOver s;
     attemptId := attemptId s;
     submitted := submitted s;
     submitting := submitting s;
     isFullscreen := isFullscreen s;
     results := results s;
     docFullscreen := docFullscreen s;
     sent := sent s;
     pending := pending s;
     startTimer := startTimer s;
     retryTimers := retryTimers s;
     isHandlingExit := isHandlingExit s;
     expired := expired s;
     loads := loads s |}.

Definition set_currentIndex (v : nat) (s : State) : State :=
  {| examId := examId s;
     loading := loading s;
     error := error s;
     studentDetails := studentDetails s;
     questions := questions s;
     currentIndex := v;
     questionState := questionState s;
     timeRemaining := timeRemaining s;
     timeOver := timeOver s;
     attemptId := attemptId s;
     submitted := submitted s;
     submitting := submitting s;
     isFullscreen := isFullscreen s;
     results := results s;
     docFullscreen := docFullscreen s;
     sent := sent s;
     pending := pending s;
     startTimer := startTimer s;
     retryTimers := retryTimers s;
     isHandlingExit := isHandlingExit s;
     expired := expired s;
     loads := loads s |}.

Definition set_questionState (v : list QuestionState) (s : State) : State :=
  {| examId := examId s;
     loading := loading s;
     error := error s;
     studentDetails := studentDetails s;
     questions := questions s;
     currentIndex := currentIndex s;
     questionState := v;
     timeRemaining := timeRemaining s;
     timeOver := timeOver s;
     attemptId := attemptId s;
     submitted := submitted s;
     submitting := submitting s;
     isFullscreen := isFullscreen s;
     results := results s;
     docFullscreen := docFullscreen s;
     sent := sent s;
     pending := pending s;
     startTimer := startTimer s;
     retryTimers := retryTimers s;
     isHandlingExit := isHandlingExit s;
     expired := expired s;
     loads := loads s |}.

Definition set_timeRemaining (v : Z) (s : State) : State :=
  {| examId := examId s;
     loading := loading s;
     error := error s;
     studentDetails := studentDetails s;
     questions := questions s;
     currentIndex := currentIndex s;
     questionState := questionState s;
     timeRemaining := v;
     timeOver := timeOver s;
     attemptId := attemptId s;
     submitted := submitted s;
     submitting := submitting s;
     isFullscreen := isFullscreen s;
     results := results s;
     docFullscreen := docFullscreen s;
     sent := sent s;
     pending := pending s;
     startTimer := startTimer s;
     retryTimers := retryTimers s;
     isHandlingExit := isHandlingExit s;
     expired := expired s;
     loads := loads s |}.

Definition set_timeOver (v : bool) (s : State) : State :=
  {| examId := examId s;
     loading := loading s;
     error := error s;
     studentDetails := studentDetails s;
     questions := questions s;
     currentIndex := currentIndex s;
     questionState := questionState s;
     timeRemaining := timeRemaining s;
     timeOver := v;
     attemptId := attemptId s;
     submitted := submitted s;
     submitting := submitting s;
     isFullscreen := isFullscreen s;
     results := results s;
     docFullscreen := docFullscreen s;
     sent := sent s;
     pending := pending s;
     startTimer := startTimer s;
     retryTimers := retryTimers s;
     isHandlingExit := isHandlingExit s;
     expired := expired s;
     loads := loads s |}.

Definition set_attemptId (v : option Z) (s : State) : State :=
  {| examId := examId s;
     loading := loading s;
     error := error s;
     studentDetails := studentDetails s;
     questions := questions s;
     currentIndex := currentIndex s;
     questionState := questionState s;
     timeRemaining := timeRemaining s;
     timeOver := timeOver s;
     attemptId := v;
     submitted := submitted s;
     submitting := submitting s;
     isFullscreen := isFullscreen s;
     results := results s;
     docFullscreen := docFullscreen s;
     sent := sent s;
     pending := pending s;
     startTimer := startTimer s;
     retryTimers := retryTimers s;
     isHandlingExit := isHandlingExit s;
     expired := expired s;
     loads := loads s |}.

Definition set_submitted (v : bool) (s : State) : State :=
  {| examId := examId s;
     loading := loading s;
     error := error s;
     studentDetails := studentDetails s;
     questions := questions s;
     currentIndex := currentIndex s;
     questionState := questionState s;
     timeRemaining := timeRemaining s;
     timeOver := timeOver s;
     attemptId := attemptId s;
     submitted := v;
     submitting := submitting s;
     isFullscreen := isFullscreen s;
     results := results s;
     docFullscreen := docFullscreen s;
     sent := sent s;
     pending := pending s;
     startTimer := startTimer s;
     retryTimers := retryTimers s;
     isHandlingExit := isHandlingExit s;
     expired := expired s;
     loads := loads s |}.

Definition set_submitting (v : bool) (s : State) : State :=
  {| examId := examId s;
     loading := loading s;
     error := error s;
     studentDetails := studentDetails s;
     questions := questions s;
     currentIndex := currentIndex s;
     questionState := questionState s;
     timeRemaining := timeRemaining s;
     timeOver := timeOver s;
     attemptId := attemptId s;
     submitted := submitted s;
     submitting := v;
     isFullscreen := isFullscreen s;
     results := results s;
     docFullscreen := docFullscreen s;
     sent := sent s;
     pending := pending s;
     startTimer := startTimer s;
     retryTimers := retryTimers s;
     isHandlingExit := isHandlingExit s;
     expired := expired s;
     loads := loads s |}.

Definition set_isFullscreen (v : bool) (s : State) : State :=
  {| examId := examId s;
     loading := loading s;
     error := error s;
     studentDetails := studentDetails s;
     questions := questions s;
     currentIndex := currentIndex s;
     questionState := questionState s;
     timeRemaining := timeRemaining s;
     timeOver := timeOver s;
     attemptId := attemptId s;
     submitted := submitted s;
     submitting := submitting s;
     isFullscreen := v;
     results := results s;
     docFullscreen := docFullscreen s;
     sent := sent s;
     pending := pending s;
     startTimer := startTimer s;
     retryTimers := retryTimers s;
     isHandlingExit := isHandlingExit s;
     expired := expired s;
     loads := loads s |}.

Definition set_results (v : option Results) (s : State) : State :=
  {| examId := examId s;
     loading := loading s;
     error := error s;
     studentDetails := studentDetails s;
     questions := questions s;
     currentIndex := currentIndex s;
     questionState := questionState s;
     timeRemaining := timeRemaining s;
     timeOver := timeOver s;
     attemptId := attemptId s;
     submitted := submitted s;
     submitting := submitting s;
     isFullscreen := isFullscreen s;
     results := v;
     docFullscreen := docFullscreen s;
     sent := sent s;
     pending := pending s;
     startTimer := startTimer s;
     retryTimers := retryTimers s;
     isHandlingExit := isHandlingExit s;
     expired := expired s;
     loads := loads s |}.

Definition set_docFullscreen (v : bool) (s : State) : State :=
  {| examId := examId s;
     loading := loading s;
     error := error s;
     studentDetails := studentDetails s;
     questions := questions s;
     currentIndex := currentIndex s;
     questionState := questionState s;
     timeRemaining := timeRemaining s;
     timeOver := timeOver s;
     attemptId := attemptId s;
     submitted := submitted s;
     submitting := submitting s;
     isFullscreen := isFullscreen s;
     results := results s;
     docFullscreen := v;
     sent := sent s;
     pending := pending s;
     startTimer := startTimer s;
     retryTimers := retryTimers s;
     isHandlingExit := isHandlingExit s;
     expired := expired s;
     loads := loads s |}.

Definition set_sent (v : list Request) (s : State) : State :=
  {| examId := examId s;
     loading := loading s;
     error := error s;
     studentDetails := studentDetails s;
     questions := questions s;
     currentIndex := currentIndex s;
     questionState := questionState s;
     timeRemaining := timeRemaining s;
     timeOver := timeOver s;
     attemptId := attemptId s;
     submitted := submitted s;
     submitting := submitting s;
     isFullscreen := isFullscreen s;
     results := results s;
     docFullscreen := docFullscreen s;
     sent := v;
     pending := pending s;
     startTimer := startTimer s;
     retryTimers := retryTimers s;
     isHandlingExit := isHandlingExit s;
     expired := expired s;
     loads := loads s |}.

Definition set_pending (v : list Pending) (s : State) : State :=
  {| examId := examId s;
     loading := loading s;
     error := error s;
     studentDetails := studentDetails s;
     questions := questions s;
     currentIndex := currentIndex s;
     questionState := questionState s;
     timeRemaining := timeRemaining s;
     timeOver := timeOver s;
     attemptId := attemptId s;
     submitted := submitted s;
     submitting := submitting s;
     isFullscreen := isFullscreen s;
     results := results s;
     docFullscreen := docFullscreen s;
     sent := sent s;
     pending := v;
     startTimer := startTimer s;
     retryTimers := retryTimers s;
     isHandlingExit := isHandlingExit s;
     expired := expired s;
     loads := loads s |}.

Definition set_startTimer (v : bool) (s : State) : State :=
  {| examId := examId s;
     loading := loading s;
     error := error s;
     studentDetails := studentDetails s;
     questions := questions s;
     currentIndex := currentIndex s;
     questionState := questionState s;
     timeRemaining := timeRemaining s;
     timeOver := timeOver s;
     attemptId := attemptId s;
     submitted := submitted s;
     submitting := submitting s;
     isFullscreen := isFullscreen s;
     results := results s;
     docFullscreen := docFullscreen s;
     sent := sent s;
     pending := pending s;
     startTimer := v;
     retryTimers := retryTimers s;
     isHandlingExit := isHandlingExit s;
     expired := expired s;
     loads := loads s |}.

Definition set_retryTimers (v : nat) (s : State) : State :=
  {| examId := examId s;
     loading := loading s;
     error := error s;
     studentDetails := studentDetails s;
     questions := questions s;
     currentIndex := currentIndex s;
     questionState := questionState s;
     timeRemaining := timeRemaining s;
     timeOver := timeOver s;
     attemptId := attemptId s;
     submitted := submitted s;
     submitting := submitting s;
     isFullscreen := isFullscreen s;
     results := results s;
     docFullscreen := docFullscreen s;
     sent := sent s;
     pending := pending s;
     startTimer := startTimer s;
     retryTimers := v;
     isHandlingExit := isHandlingExit s;
     expired := expired s;
     loads := loads s |}.

Definition set_isHandlingExit (v : bool) (s : State) : State :=
  {| examId := examId s;
     loading := loading s;
     error := error s;
     studentDetails := studentDetails s;
     questions := questions s;
     currentIndex := currentIndex s;
     questionState := questionState s;
     timeRemaining := timeRemaining s;
     timeOver := timeOver s;
     attemptId := attemptId s;
     submitted := submitted s;
     submitting := submitting s;
     isFullscreen := isFullscreen s;
     results := results s;
     docFullscreen := docFullscreen s;
     sent := sent s;
     pending := pending s;
     startTimer := startTimer s;
     retryTimers := retryTimers s;
     isHandlingExit := v;
     expired := expired s;
     loads := loads s |}.

Definition set_expired (v : nat) (s : State) : State :=
  {| examId := examId s;
     loading := loading s;
     error := error s;
     studentDetails := studentDetails s;
     questions := questions s;
     currentIndex := currentIndex s;
     questionState := questionState s;
     timeRemaining := timeRemaining s;
     timeOver := timeOver s;
     attemptId := attemptId s;
     submitted := submitted s;
     submitting := submitting s;
     isFullscreen := isFullscreen s;
     results := results s;
     docFullscreen := docFullscreen s;
     sent := sent s;
     pending := pending s;
     startTimer := startTimer s;
     retryTimers := retryTimers s;
     isHandlingExit := isHandlingExit s;
     expired := v;
     loads := loads s |}.

Definition set_loads (v : nat) (s : State) : State :=
  {| examId := examId s;
     loading := loading s;
     error := error s;
     studentDetails := studentDetails s;
     questions := questions s;
     currentIndex := currentIndex s;
     questionState := questionState s;
     timeRemaining := timeRemaining s;
     timeOver := timeOver s;
     attemptId := attemptId s;
     submitted := submitted s;
     submitting := submitting s;
     isFullscreen := isFullscreen s;
     results := results s;
     docFullscreen := docFullscreen s;
     sent := sent s;
     pending := pending s;
     startTimer := startTimer s;
     retryTimers := retryTimers s;
     isHandlingExit := isHandlingExit s;
     expired := expired s;
     loads := v |}.

(** ** JavaScript tests *)

(** [attemptId] used as a condition: [null] and [0] are falsy. *)
Definition truthy (a : option Z) : bool :=
  match a with
  | Some i => negb (i =? 0)%Z
  | None => false
  end.

(** A [string | null] used as a condition: [null] and the empty string are
    falsy. *)
Definition nonempty (e : option string) : bool :=
  match e with
  | Some EmptyString => false
  | Some _ => true
  | None => false
  end.

(** [detail || fallback]. *)
Definition or_else (detail fallback : string) : string :=
  match detail with
  | EmptyString => fallback
  | _ => detail
  end.

Definition is_some {A} (o : option A) : bool :=
  match o with
  | Some _ => true
  | None => false
  end.

(** ** What is on screen (lines 636-931) *)

Inductive Screen :=
  | LoadingScreen
  | DetailsForm
  | NoQuestions
  | ErrorScreen
  | FinishedScreen
  | ExamScreen.

Definition render (s : State) : Screen :=
  if loading s then LoadingScreen
  else if negb (is_some (studentDetails s)) then DetailsForm
  else match questions s !! currentIndex s with
       | None => NoQuestions
       | Some _ =>
           if nonempty (error s) then ErrorScreen
           else if timeOver s || submitted s then FinishedScreen
           else ExamScreen
       end.

(** The submit button's [disabled] attribute, negated (line 864). *)
Definition submit_button_enabled (s : State) : bool :=
  negb (submitted s || submitting s || negb (truthy (attemptId s))).

(** ** Network *)

(** [fetch(request)] followed by [await]: the request leaves at once and the
    rest of the handler is parked until the request settles. *)
Definition fetch (r : Request) (k : Pending) (s : State) : State :=
  set_pending (pending s ++ [k]) (set_sent (sent s ++ [r]) s).

(** The [answers] array built by both submission paths (lines 384-390 and
    589-595). *)
Definition build_answers (qs : list Question)
    (st : list QuestionState) : list Answer :=
  imap (fun index q =>
          mkAnswer (question_ident q)
            match st !! index with
            | Some entry =>
                match selectedOptionIndex entry with
                | Some i => Some (i + 1)
                | None => None
                end
            | None => None
            end) qs.

Fixpoint remove_first (k : Pending) (l : list Pending) : option (list Pending) :=
  match l with
  | [] => None
  | x :: rest =>
      if decide (x = k) then Some rest
      else match remove_first k rest with
           | Some rest' => Some (x :: rest')
           | None => None
           end
  end.

(** ** Starting the attempt (lines 203-266) *)

(** [handleStudentDetailsSubmit] up to its [await fetch]. *)
Definition handleStudentDetailsSubmit (details : StudentDetails)
    (s : State) : State :=
  fetch (ReqCreateAttempt (examId s) details)
    (AwaitCreate details (questions s))
    (set_error None s).

(** The initial palette: the first question [notAnswered], the others
    [notVisited] (lines 252-255). *)
Definition initialState (qs : list Question) : list QuestionState :=
  imap (fun index _ =>
          mkQuestionState None
            (if (index =? 0) then notAnswered else notVisited)) qs.

(** The rest of [handleStudentDetailsSubmit] once the request settled;
    [captured] is the [questions] array the handler closed over. *)
Definition resume_create (details : StudentDetails)
    (captured : list Question) (reply : Reply) (s : State) : State :=
  match reply with
  | NetworkError _ =>
      set_error (Some "Cannot connect to server. Please make sure the backend server is running on http://127.0.0.1:4000"%string) s
  | HttpError detail =>
      set_error (Some (or_else detail "Server error"%string)) s
  | HttpOk body =>
      let ident := match body with AttemptBody i => i | _ => None end in
      if truthy ident then
        set_currentIndex 0
          (set_questionState (initialState captured)
             (set_studentDetails (Some details)
                (set_attemptId ident s)))
      else
        set_error (Some "Failed to get attempt ID from server"%string) s
  end.

(** ** Submission by the student (lines 567-634) *)

(** [handleSubmit] up to its [await fetch]; [confirmed] is the answer to the
    [confirm] dialog. *)
Definition handleSubmit (confirmed : bool) (s : State) : State :=
  match attemptId s with
  | Some attempt =>
      if negb (truthy (attemptId s)) then
        set_error (Some "Attempt not started. Please refresh the page and try again."%string) s
      else if submitted s then s
      else if negb confirmed then s
      else
        fetch (ReqSubmit attempt (build_answers (questions s) (questionState s)))
          (AwaitManualSubmit attempt)
          (set_error None (set_submitting true s))
  | None =>
      set_error (Some "Attempt not started. Please refresh the page and try again."%string) s
  end.

Definition resume_manual_submit (attempt : Z) (reply : Reply)
    (s : State) : State :=
  match reply with
  | NetworkError message =>
      set_submitting false (set_error (Some message) s)
  | HttpError detail =>
      set_submitting false
        (set_error (Some (or_else detail "Failed to submit answers"%string)) s)
  | HttpOk _ =>
      fetch (ReqResults attempt) (AwaitManualResults attempt)
        (set_submitted true s)
  end.

(** The body of a results reply; for a body of another shape the source
    would store an object with undefined fields, which is left out. *)
Definition store_results (reply : Reply) (s : State) : State :=
  match reply with
  | HttpOk (ResultsBody r) => set_results (Some r) s
  | _ => s
  end.

Definition resume_manual_results (reply : Reply) (s : State) : State :=
  set_submitting false (store_results reply s).

(** ** Submission on time expiry (lines 378-426) *)

Definition expiry_condition (s : State) : bool :=
  (timeRemaining s =? 0)%Z && negb (timeOver s) && negb (submitted s)
  && truthy (attemptId s).

(** The effect body: [setTimeOver(true)], then [autoSubmit()] up to its
    [await fetch]. *)
Definition time_expiry (s : State) : State :=
  if expiry_condition s then
    match attemptId s with
    | Some attempt =>
        fetch (ReqSubmit attempt (build_answers (questions s) (questionState s)))
          (AwaitAutoSubmit attempt)
          (set_expired (S (expired s)) (set_timeOver true s))
    | None => s
    end
  else s.

Definition resume_auto_submit (attempt : Z) (reply : Reply)
    (s : State) : State :=
  match reply with
  | HttpOk _ =>
      fetch (ReqResults attempt) (AwaitAutoResults attempt)
        (set_submitted true s)
  | _ => s
  end.

(** ** The countdown (lines 429-442) *)

(** The interval is armed exactly when the effect's guard lets it through. *)
Definition countdown_running (s : State) : bool :=
  negb ((timeRemaining s <=? 0)%Z || timeOver s || submitted s).

(** The updater passed to [setTimeRemaining] by the interval callback. *)
Definition tick (prev : Z) : Z :=
  let newTime := (prev - 1)%Z in
  if (newTime <? 0)%Z then 0%Z else newTime.

(** ** Fullscreen (lines 118-200 and 269-375) *)

(** [requestFullscreen]: [granted] says whether one of the four vendor
    calls resolved.  On success the document is fullscreen and
    [setIsFullscreen(true)] runs; otherwise the alert is shown and the call
    re-arms itself with [setTimeout]. *)
Definition requestFullscreen (granted : bool) (s : State) : State :=
  if granted then set_isFullscreen true (set_docFullscreen true s)
  else set_retryTimers (S (retryTimers s)) s.

(** [exitFullscreen]: [document.exitFullscreen()] rejects when the document
    has no fullscreen element, and the [catch] then skips
    [setIsFullscreen(false)]. *)
Definition exitFullscreen (s : State) : State :=
  if docFullscreen s then set_isFullscreen false (set_docFullscreen false s)
  else s.

(** The guard shared by the start effect (line 270) and the tracking effect
    (line 293). *)
Definition attempt_running (s : State) : bool :=
  is_some (studentDetails s) && truthy (attemptId s)
  && negb (submitted s) && negb (timeOver s).

(** [handleFullscreenChange] up to its [await fetch] (lines 297-318).  The
    function is a closure of the tracking effect: [isFullscreen] and
    [attemptId] are those of the render that created it, [closure]; the
    fullscreen element is read from the document and the state is written
    through its setter, both in [s]. *)
Definition handleFullscreenChange (closure s : State) : State :=
  if negb (docFullscreen s) && isFullscreen closure then
    let s := set_isFullscreen false s in
    match attemptId closure with
    | Some attempt =>
        if truthy (attemptId closure)
        then fetch (ReqFullscreenExit attempt) AwaitExitReport s
        else set_retryTimers (S (retryTimers s)) s
    | None => set_retryTimers (S (retryTimers s)) s
    end
  else if docFullscreen s then set_isFullscreen true s
  else s.

(** The rest of [handleFullscreenChange] (lines 320-327): whatever became
    of the report, the warning is shown, and once the student dismisses it
    [requestFullscreen] is armed. *)
Definition resume_exit_report (s : State) : State :=
  set_retryTimers (S (retryTimers s)) s.

(** The callback of the 500 ms check (lines 342-359), a closure of the
    same effect; [isHandlingExit] is a variable of the effect instance,
    read and written as it is now.  The reset of the flag two seconds later
    writes to the variable of the instance that made the call; by then that
    instance has been replaced, since the call changed [isFullscreen]. *)
Definition poll (closure s : State) : State :=
  if negb (docFullscreen s) && isFullscreen closure && negb (submitted closure)
     && negb (timeOver closure) && negb (isHandlingExit s)
  then handleFullscreenChange closure (set_isHandlingExit true s)
  else s.

(** A fullscreen change is noticed by a change event, for which the effect
    registers [handleFullscreenChange] under four event names (lines
    334-337), or by the 500 ms check. *)
Inductive Detection := ByEvent | ByPoll.

Definition detection (closure : State) (d : Detection) (s : State) : State :=
  match d with
  | ByEvent => handleFullscreenChange closure s
  | ByPoll => poll closure s
  end.

(** ** Events *)

(** [ExamLoaded] and [ExamLoadFailed] settle a call of [fetchExam];
    [ExamIdChanged] is the router rendering the screen with another
    [examId] (the screen has no [key], so it is the same instance);
    [Detections] hands its detections, in their order, to the closures of
    the current render. *)
Inductive Event :=
  | ExamLoaded (qs : list Question) (duration_minutes : Z)
  | ExamLoadFailed (message : string)
  | SubmitStudentDetails (details : StudentDetails)
  | Settle (k : Pending) (reply : Reply)
  | IntervalTick
  | Click (a : Action)
  | ClickSubmit (confirmed : bool)
  | FullscreenLost
  | Detections (ds : list Detection)
  | StartTimerFires (granted : bool)
  | RetryTimerFires (granted : bool)
  | ExamIdChanged (exam : Z).

(** One detection on a render of its own. *)
Definition detect (d : Detection) : Event := Detections [d].

(** The continuation of a settled request. *)
Definition resume (k : Pending) (reply : Reply) (s : State) : State :=
  match k with
  | AwaitCreate details captured => resume_create details captured reply s
  | AwaitManualSubmit attempt => resume_manual_submit attempt reply s
  | AwaitManualResults _ => resume_manual_results reply s
  | AwaitAutoSubmit attempt => resume_auto_submit attempt reply s
  | AwaitAutoResults _ => store_results reply s
  | AwaitExitReport => resume_exit_report s
  end.

(** The handler of one event.  An event that cannot happen in the state (a
    click on a control that is not rendered, a callback of a timer that is
    not armed, a reply to a request that is not pending) leaves it as it
    is.  The rest of [fetchExam] (lines 72-112) stores the questions and the
    duration, or the error, and ends with [setLoading(false)]. *)
Definition handle (e : Event) (s : State) : State :=
  match e with
  | ExamLoaded qs duration_minutes =>
      match loads s with
      | S n =>
          set_loads n
            (set_loading false
               (set_timeRemaining (duration_minutes * 60)%Z
                  (set_questions qs s)))
      | O => s
      end
  | ExamLoadFailed message =>
      match loads s with
      | S n => set_loads n (set_loading false (set_error (Some message) s))
      | O => s
      end
  | SubmitStudentDetails details =>
      match render s with
      | DetailsForm => handleStudentDetailsSubmit details s
      | _ => s
      end
  | Settle k reply =>
      match remove_first k (pending s) with
      | Some rest => resume k reply (set_pending rest s)
      | None => s
      end
  | IntervalTick =>
      if countdown_running s
      then set_timeRemaining (tick (timeRemaining s)) s
      else s
  | Click a =>
      match render s with
      | ExamScreen =>
          if action_enabled (length (questions s)) (currentIndex s) a then
            let m := apply_action (length (questions s)) a
                       (currentIndex s, questionState s) in
            set_currentIndex m.1 (set_questionState m.2 s)
          else s
      | _ => s
      end
  | ClickSubmit confirmed =>
      match render s with
      | ExamScreen =>
          if submit_button_enabled s then handleSubmit confirmed s else s
      | _ => s
      end
  | FullscreenLost => set_docFullscreen false s
  | Detections ds =>
      if attempt_running s
      then foldl (fun acc d => detection s d acc) s ds
      else s
  | StartTimerFires granted =>
      if startTimer s
      then requestFullscreen granted (set_startTimer false s)
      else s
  | RetryTimerFires granted =>
      match retryTimers s with
      | S n => requestFullscreen granted (set_retryTimers n s)
      | O => s
      end
  | ExamIdChanged exam => set_examId exam s
  end.

(** ** Effects

    After a handler returned React renders and runs, in the order of the
    source, the effects whose dependencies changed; [old] is the state of
    the previous render, [cur] the one just rendered, whose values the
    effect bodies close over, and [acc] the state they write to.  State set
    by an effect causes one more render, hence the second pass in [step];
    a third pass finds nothing left to do. *)

Definition exam_deps_changed (old cur : State) : bool :=
  negb (examId old =? examId cur)%Z.

(** The loading effect (lines 65-115) up to its [await fetch]. *)
Definition fetchExam (old cur acc : State) : State :=
  if exam_deps_changed old cur
  then set_loads (S (loads acc)) (set_error None (set_loading true acc))
  else acc.

Definition start_deps_changed (old cur : State) : bool :=
  negb (bool_decide (studentDetails old = studentDetails cur)
        && bool_decide (attemptId old = attemptId cur)
        && Bool.eqb (submitted old) (submitted cur)
        && Bool.eqb (timeOver old) (timeOver cur)).

(** The start effect (lines 269-289): its cleanup disarms the timer of the
    previous run. *)
Definition fullscreen_on_start (old cur acc : State) : State :=
  if start_deps_changed old cur then
    let acc := set_startTimer false acc in
    if attempt_running cur then
      if docFullscreen acc then set_isFullscreen true acc
      else set_startTimer true acc
    else acc
  else acc.

(** The tracking effect (lines 292-368) is re-created, with a fresh
    [isHandlingExit], when one of its dependencies changed. *)
Definition fullscreen_tracking (old cur acc : State) : State :=
  if start_deps_changed old cur
     || negb (Bool.eqb (isFullscreen old) (isFullscreen cur))
  then set_isHandlingExit false acc
  else acc.

Definition release_deps_changed (old cur : State) : bool :=
  negb (Bool.eqb (submitted old) (submitted cur)
        && Bool.eqb (timeOver old) (timeOver cur)
        && Bool.eqb (isFullscreen old) (isFullscreen cur)).

(** The release effect (lines 371-375). *)
Definition fullscreen_release (old cur acc : State) : State :=
  if release_deps_changed old cur
     && ((submitted cur || timeOver cur) && isFullscreen cur)
  then exitFullscreen acc
  else acc.

(** One render.  The time-expiry effect comes last; the values its guard
    and its request read are written by no effect before it.  Its guard is
    tested at every render: it is false after every pass, so that it holds
    at a render only if one of the dependencies it tests has changed. *)
Definition effects_pass (old cur : State) : State :=
  time_expiry
    (fullscreen_release old cur
       (fullscreen_tracking old cur
          (fullscreen_on_start old cur (fetchExam old cur cur)))).

(** One event: its handler, then the effects until nothing changes. *)
Definition step (e : Event) (s : State) : State :=
  let cur := handle e s in
  let cur' := effects_pass s cur in
  effects_pass cur cur'.

Definition run (t : list Event) (s : State) : State :=
  foldl (fun s e => step e s) s t.

(** The state at mount: [fetchExam] is in flight, once (the repeated mount
    of [React.StrictMode] in development builds is left out). *)
Definition init (exam : Z) (fullscreen : bool) : State :=
  mkState exam true None None [] 0 [] 0 false None false false false None
    fullscreen [] [] false 0 false 0 1.

(** ** Observations on a run *)

Definition is_submit (r : Request) : bool :=
  match r with
  | ReqSubmit _ _ => true
  | _ => false
  end.

Definition is_exit_report (r : Request) : bool :=
  match r with
  | ReqFullscreenExit _ => true
  | _ => false
  end.

(** The number of submit requests handed to [fetch] so far. *)
Definition submit_requests (s : State) : nat :=
  length (List.filter is_submit (sent s)).

(** The number of fullscreen-exit reports handed to [fetch] so far; each
    one increments the attempt's counter at the service. *)
Definition exit_reports (s : State) : nat :=
  length (List.filter is_exit_report (sent s)).

(** The loss, if any, that event [e] is in state [s]: a [FullscreenLost]
    that hits a document in fullscreen while the attempt is running. *)
Definition loss (e : Event) (s : State) : nat :=
  match e with
  | FullscreenLost => if docFullscreen s && attempt_running s then 1 else 0
  | _ => 0
  end.

(** The fullscreen losses of a run. *)
Fixpoint losses (t : list Event) (s : State) : nat :=
  match t with
  | [] => 0
  | e :: t' => loss e s + losses t' (step e s)
  end.



(** ** Sample data *)

Definition sample_questions : list Question :=
  [mkQuestion 11 "first" ["a"; "b"; "c"; "d"];
   mkQuestion 12 "second" ["a"; "b"; "c"; "d"]].

Definition sample_details : StudentDetails :=
  mkStudentDetails "Asha" "42" "XII" "B".

(** A one-minute exam is loaded, the student sends the details form and the
    service answers with attempt 7. *)
Definition sample_start : list Event :=
  [ExamLoaded sample_questions 1;
   SubmitStudentDetails sample_details;
   Settle (AwaitCreate sample_details sample_questions)
     (HttpOk (AttemptBody (Some 7%Z)))].

(** ** Invariants of the screen *)

Definition is_create (k : Pending) : bool :=
  match k with
  | AwaitCreate _ _ => true
  | _ => false
  end.

(** A submit request or an exit report names a non-zero attempt. *)
Definition carries_id (r : Request) : bool :=
  match r with
  | ReqSubmit attempt _ | ReqFullscreenExit attempt => negb (attempt =? 0)%Z
  | _ => true
  end.

(** What holds after every handler and every effect. *)
Record Sound (s : State) : Prop := mkSound {
  snd_id : attemptId s = None ∨ truthy (attemptId s) = true;
  snd_details : is_some (studentDetails s) = truthy (attemptId s);
  snd_idle :
    truthy (attemptId s) = false →
    timeOver s = false ∧ submitted s = false ∧ submit_requests s = 0
    ∧ isFullscreen s = false ∧ startTimer s = false ∧ retryTimers s = 0
    ∧ forallb is_create (pending s) = true;
  snd_expired : expired s = if timeOver s then 1 else 0;
  snd_ids : forallb carries_id (sent s) = true;
  snd_palette :
    truthy (attemptId s) = false → questionState s = [] ∧ currentIndex s = 0
}.



(** *** One fullscreen loss and its acknowledgement *)

Definition is_poll (d : Detection) : bool :=
  match d with
  | ByPoll => true
  | ByEvent => false
  end.

(** The reports that the detections handed to one render send for a loss
    the screen has not noticed yet: one for every change event, and one for
    all the checks together, which [isHandlingExit] holds back. *)
Definition burst_reports (ds : list Detection) : nat :=
  length (List.filter (fun d => negb (is_poll d)) ds)
  + (if existsb is_poll ds then 1 else 0).

(** The document leaves fullscreen; the loss is noticed, possibly several
    times over, each time on a render of its own; the report settles and
    the student dismisses the warning; fullscreen is granted again.
    Detections may also arrive between these steps. *)
Record Episode := mkEpisode {
  first_detection : Detection;
  before_ack : list Detection;
  report_reply : Reply;
  after_ack : list Detection;
  after_regain : list Detection
}.

Definition episode_events (ep : Episode) : list Event :=
  [FullscreenLost; detect (first_detection ep)]
  ++ map detect (before_ack ep)
  ++ [Settle AwaitExitReport (report_reply ep)]
  ++ map detect (after_ack ep)
  ++ [RetryTimerFires true]
  ++ map detect (after_regain ep).

(** The attempt runs in fullscreen, the countdown has not reached zero and
    the 500 ms check is not in the middle of a call. *)
Definition in_fullscreen (s : State) : Prop :=
  attempt_running s = true ∧ docFullscreen s = true
  ∧ isFullscreen s = true ∧ timeRemaining s ≠ 0%Z
  ∧ isHandlingExit s = false.

(** The document has left fullscreen and the screen has not noticed yet. *)
Definition lost (s : State) : Prop :=
  attempt_running s = true ∧ docFullscreen s = false
  ∧ isFullscreen s = true ∧ timeRemaining s ≠ 0%Z
  ∧ isHandlingExit s = false.

(** The loss was noticed and its report is on the way. *)
Definition reported (s : State) : Prop :=
  attempt_running s = true ∧ docFullscreen s = false
  ∧ isFullscreen s = false ∧ timeRemaining s ≠ 0%Z
  ∧ isHandlingExit s = false
  ∧ remove_first AwaitExitReport (pending s) ≠ None.

(** The warning was dismissed and [requestFullscreen] is armed. *)
Definition acknowledged (s : State) : Prop :=
  attempt_running s = true ∧ docFullscreen s = false
  ∧ isFullscreen s = false ∧ timeRemaining s ≠ 0%Z
  ∧ isHandlingExit s = false
  ∧ retryTimers s ≠ 0.

(** ** Sample runs *)

(** The student confirms the submit dialog one second before the end; the
    request is still on its way when the countdown reaches zero. *)
Definition race_trace : list Event :=
  sample_start ++ replicate 59 IntervalTick ++ [ClickSubmit true; IntervalTick].

(** The exam is loaded and the countdown ticks while the details form is
    still on screen. *)
Definition early_tick_trace : list Event :=
  [ExamLoaded sample_questions 1; IntervalTick].

(** The service cannot be reached when the student sends the details. *)
Definition failed_start_trace : list Event :=
  [ExamLoaded sample_questions 1;
   SubmitStudentDetails sample_details;
   Settle (AwaitCreate sample_details sample_questions)
     (NetworkError "Failed to fetch");
   IntervalTick].

(** Three losses in a row, each noticed more than once. *)
Definition sample_episodes : list Episode :=
  [mkEpisode ByEvent [ByPoll; ByEvent] (HttpOk OtherBody) [ByPoll] [ByEvent];
   mkEpisode ByPoll [ByEvent] (NetworkError "Failed to fetch") [] [ByPoll];
   mkEpisode ByEvent [ByEvent; ByEvent] (HttpError "gone") [ByPoll] []].

(** ** Display helpers of the screen *)

(** [padStart(2, '0')] on a string. *)
Definition padStart2 (s : string) : string :=
  match String.length s with
  | 0 => "00"
  | 1 => "0" +:+ s
  | _ => s
  end.

(** The three numbers [formatTime] prints (lines 444-449, and again lines
    94-99): [Math.floor(seconds / 3600)],
    [Math.floor((seconds % 3600) / 60)] and [seconds % 60], for an integer
    number of seconds; [%] is the remainder that takes the sign of the
    dividend. *)
Definition time_fields (seconds : Z) : Z * Z * Z :=
  let hours := (seconds `div` 3600)%Z in
  let minutes := ((seconds `rem` 3600) `div` 60)%Z in
  let secs := (seconds `rem` 60)%Z in
  (hours, minutes, secs).

(** [formatTime]: the template string over the three padded numbers. *)
Definition formatTime (seconds : Z) : string :=
  let '(hours, minutes, secs) := time_fields seconds in
  padStart2 (pretty hours) +:+ ":" +:+ padStart2 (pretty minutes)
  +:+ ":" +:+ padStart2 (pretty secs).

(** The accumulator of [statusCounts] (lines 461-475). *)
Record StatusCounts := mkStatusCounts {
  count_notVisited : nat;
  count_notAnswered : nat;
  count_answered : nat;
  count_marked : nat;
  count_answeredMarked : nat
}.

(** The reducer: [acc[q.status] += 1]. *)
Definition count_status (acc : StatusCounts) (q : QuestionState) : StatusCounts :=
  match status q with
  | notVisited =>
      mkStatusCounts (S (count_notVisited acc)) (count_notAnswered acc)
        (count_answered acc) (count_marked acc) (count_answeredMarked acc)
  | notAnswered =>
      mkStatusCounts (count_notVisited acc) (S (count_notAnswered acc))
        (count_answered acc) (count_marked acc) (count_answeredMarked acc)
  | answered =>
      mkStatusCounts (count_notVisited acc) (count_notAnswered acc)
        (S (count_answered acc)) (count_marked acc) (count_answeredMarked acc)
  | marked =>
      mkStatusCounts (count_notVisited acc) (count_notAnswered acc)
        (count_answered acc) (S (count_marked acc)) (count_answeredMarked acc)
  | answeredMarked =>
      mkStatusCounts (count_notVisited acc) (count_notAnswered acc)
        (count_answered acc) (count_marked acc) (S (count_answeredMarked acc))
  end.

Definition statusCounts (questionState : list QuestionState) : StatusCounts :=
  foldl count_status (mkStatusCounts 0 0 0 0 0) questionState.

(** The counter [statusCounts] keeps for a status. *)
Definition count_of (st : QuestionStatus) (c : StatusCounts) : nat :=
  match st with
  | notVisited => count_notVisited c
  | notAnswered => count_notAnswered c
  | answered => count_answered c
  | marked => count_marked c
  | answeredMarked => count_answeredMarked c
  end.

(** The number of entries with a given status. *)
Definition with_status (st : QuestionStatus)
    (questionState : list QuestionState) : nat :=
  length (filter (fun q => status q = st) questionState).

(** [paletteClassForStatus] (lines 552-565), applied to
    [questionState[index]?.status]: [None] is the [undefined] of a missing
    entry, which falls into the [default] branch. *)
Definition paletteClassForStatus (st : option QuestionStatus) : string :=
  match st with
  | Some answered => "answered"
  | Some notAnswered => "not-answered"
  | Some marked => "marked"
  | Some answeredMarked => "answered-marked"
  | _ => "not-visited"
  end.

(** The class of palette button [index]. *)
Definition palette_class (questionState : list QuestionState)
    (index : nat) : string :=
  paletteClassForStatus (status <$> questionState !! index).

(** Two palettes with the same selection at every index. *)
Definition same_selections (st1 st2 : list QuestionState) : Prop :=
  ∀ i, selectedOptionIndex <$> st1 !! i = selectedOptionIndex <$> st2 !! i.

(** ** Further invariants of the screen *)

(** The controls that write a selection. *)
Definition writes_selection (a : Action) : bool :=
  match a with
  | SelectOption _ | Clear => true
  | _ => false
  end.

(** Once the attempt exists the palette has one entry per question and the
    current index addresses one of them (or is 0 for an exam without
    questions). *)
Definition palette_aligned (s : State) : Prop :=
  truthy (attemptId s) = true →
  length (questionState s) = length (questions s)
  ∧ (currentIndex s = 0 ∨ currentIndex s < length (questions s)).

(** A submit request lists the questions [qs] in order, and its selected
    options are absent or at least 1. *)
Definition answers_match (qs : list Question) (r : Request) : Prop :=
  match r with
  | ReqSubmit _ answers =>
      map question_id answers = map question_ident qs
      ∧ Forall (fun a => selected_option a ≠ Some 0) answers
  | _ => True
  end.

Definition is_results_wait (k : Pending) : bool :=
  match k with
  | AwaitManualResults _ | AwaitAutoResults _ => true
  | _ => false
  end.

Definition is_results_request (r : Request) : bool :=
  match r with
  | ReqResults _ => true
  | _ => false
  end.

(** Before a submit request was accepted no result is stored, requested or
    awaited. *)
Definition results_wait_for_submit (s : State) : Prop :=
  submitted s = false →
  results s = None
  ∧ forallb (fun k => negb (is_results_wait k)) (pending s) = true
  ∧ length (List.filter is_results_request (sent s)) = 0.

(** The log [l'] continues the log [l] with requests whose answers match
    the questions [qs]. *)
Definition extends_log (qs : list Question) (l l' : list Request) : Prop :=
  ∃ rs, l' = l ++ rs ∧ Forall (answers_match qs) rs.

(** The number of interval callbacks in a run. *)
Definition is_tick (e : Event) : bool :=
  match e with
  | IntervalTick => true
  | _ => false
  end.

Definition ticks (t : list Event) : nat := length (List.filter is_tick t).

(** What a state has reached and cannot lose. *)
Definition persists (s s' : State) : Prop :=
  (submitted s = true → submitted s' = true)
  ∧ (timeOver s = true → timeOver s' = true)
  ∧ (truthy (attemptId s) = true → truthy (attemptId s') = true).

(** The address goes to another exam. *)
Definition is_reload (e : Event) : bool :=
  match e with
  | ExamIdChanged _ => true
  | _ => false
  end.

(** The screen stays on the exam it was opened for. *)
Definition one_exam (t : list Event) : bool :=
  forallb (fun e => negb (is_reload e)) t.

(** A continuation of [handleStudentDetailsSubmit] that captured [qs]. *)
Definition captures (qs : list Question) (k : Pending) : Prop :=
  match k with
  | AwaitCreate _ captured => captured = qs
  | _ => True
  end.

(** While the only call of [fetchExam] is on its way the loading screen is
    shown and nothing else has happened; and the forms that were sent saw
    the questions that are still on screen. *)
Definition single_load (s : State) : Prop :=
  (loads s = 0
   ∨ (loads s = 1 ∧ loading s = true ∧ attemptId s = None ∧ pending s = []))
  ∧ Forall (captures (questions s)) (pending s).

(** The response of [fetchExam] arrives. *)
Definition is_load (e : Event) : bool :=
  match e with
  | ExamLoaded _ _ => true
  | _ => false
  end.

(** No exam arrives during the run. *)
Definition no_exam_arrives (t : list Event) : bool :=
  forallb (fun e => negb (is_load e)) t.

(** The attempt is over: submitted or out of time. *)
Definition finished (s : State) : bool := submitted s || timeOver s.

(** A reply to the create request that does not start the attempt. *)
Definition creation_failed (reply : Reply) : bool :=
  match reply with
  | HttpOk (AttemptBody ident) => negb (truthy ident)
  | _ => true
  end.

(** The clicks of the student on the exam screen. *)
Inductive Press :=
  | PressControl (a : Action)
  | PressSubmit (confirmed : bool).

Definition press (p : Press) : Event :=
  match p with
  | PressControl a => Click a
  | PressSubmit confirmed => ClickSubmit confirmed
  end.

(** ** Sample states *)

(** The attempt has just started. *)
Definition started_state : State := run sample_start (init 1 false).

(** The student submitted and the service accepted. *)
Definition submitted_state : State :=
  run [ClickSubmit true; Settle (AwaitManualSubmit 7) (HttpOk OtherBody)]
    started_state.

(** Fullscreen was granted, lost, noticed, and the warning dismissed. *)
Definition acknowledged_state : State :=
  run [StartTimerFires true; FullscreenLost; detect ByEvent;
       Settle AwaitExitReport (HttpOk OtherBody)]
    started_state.

(** The details were sent and the create request is on its way. *)
Definition creating_trace : list Event :=
  [ExamLoaded sample_questions 1; SubmitStudentDetails sample_details].

(** The same, and the address goes to exam 2 before the reply arrives. *)
Definition reloading_trace : list Event :=
  creating_trace ++ [ExamIdChanged 2].

(** The form is sent twice; the first start request for fullscreen is
    refused, the one armed by the second reply is granted; the document
    then leaves fullscreen unnoticed, the student submits, and the retry of
    the refused request is granted after the end. *)
Definition late_grant_trace : list Event :=
  [ExamLoaded sample_questions 1;
   SubmitStudentDetails sample_details;
   SubmitStudentDetails sample_details;
   Settle (AwaitCreate sample_details sample_questions)
     (HttpOk (AttemptBody (Some 7%Z)));
   StartTimerFires false;
   Settle (AwaitCreate sample_details sample_questions)
     (HttpOk (AttemptBody (Some 8%Z)));
   StartTimerFires true;
   FullscreenLost;
   ClickSubmit true;
   Settle (AwaitManualSubmit 8) (HttpOk OtherBody);
   RetryTimerFires true].

(** A second exam, of three questions, is loaded over the running attempt
    on the sample exam. *)
Definition second_exam_trace : list Event :=
  sample_start
  ++ [ExamIdChanged 2;
      ExamLoaded (sample_questions ++ [mkQuestion 13 "third" ["a"; "b"]]) 2].

(** The student submits the sample exam, and a second exam of no duration
    is loaded over the submitted attempt. *)
Definition zero_minutes_trace : list Event :=
  sample_start
  ++ [ClickSubmit true; Settle (AwaitManualSubmit 7) (HttpOk OtherBody);
      ExamIdChanged 2; ExamLoaded sample_questions 0].

(** * Properties of the palette *)

Section Palette.

Implicit Types (prev : list QuestionState) (q : QuestionState).

Lemma lookup_insert_visited prev i new j q :
  prev !! j = Some q → visited (status q) → visited (status new) →
  ∃ q', <[i := new]> prev !! j = Some q' ∧ visited (status q').
Proof.
  intros Hj Hq Hnew. destruct (decide (i = j)) as [->|Hne].
  - rewrite list_lookup_insert_eq by (eapply lookup_lt_Some; eassumption).
    eauto.
  - rewrite list_lookup_insert_ne by assumption. eauto.
Qed.

Lemma handleSelectOption_keeps_visited ci v :
  keeps_visited (handleSelectOption ci v).
Proof.
  intros prev j q Hj Hq. unfold handleSelectOption.
  destruct (prev !! ci) as [entry|] eqn:Hci; [|eauto].
  apply (lookup_insert_visited _ _ _ _ q); [assumption..|].
  unfold visited. destruct entry as [sel []]; simpl; congruence.
Qed.

Lemma seen_keeps_visited i : keeps_visited (seen i).
Proof.
  intros prev j q Hj Hq. unfold seen.
  destruct (prev !! i) as [entry|] eqn:Hi; [|eauto].
  destruct (status entry); eauto.
  apply (lookup_insert_visited _ _ _ _ q); [assumption..|]. unfold visited; simpl; congruence.
Qed.

Lemma handleClear_keeps_visited ci : keeps_visited (handleClear ci).
Proof.
  intros prev j q Hj Hq. unfold handleClear.
  destruct (prev !! ci) as [entry|] eqn:Hci; [|eauto].
  apply (lookup_insert_visited _ _ _ _ q); [assumption..|]. unfold visited; simpl; congruence.
Qed.

Lemma handleSaveAndMarkForReview_keeps_visited ci :
  keeps_visited (handleSaveAndMarkForReview ci).
Proof.
  intros prev j q Hj Hq. unfold handleSaveAndMarkForReview.
  destruct (prev !! ci) as [entry|] eqn:Hci; [|eauto].
  apply (lookup_insert_visited _ _ _ _ q); [assumption..|]. unfold visited; simpl; congruence.
Qed.

Lemma markForReview_keeps_visited ci : keeps_visited (markForReview ci).
Proof.
  intros prev j q Hj Hq. unfold markForReview.
  destruct (prev !! ci) as [entry|] eqn:Hci; [|eauto].
  apply (lookup_insert_visited _ _ _ _ q); [assumption..|].
  unfold visited. destruct (selectedOptionIndex entry); simpl; congruence.
Qed.

Lemma moveToQuestion_keeps_visited ci index :
  keeps_visited (λ prev, (moveToQuestion ci index prev).2).
Proof.
  intros prev j q Hj Hq. simpl.
  destruct (seen_keeps_visited ci prev j q Hj Hq) as (q1 & H1 & Hq1).
  exact (seen_keeps_visited index _ j q1 H1 Hq1).
Qed.

Lemma apply_action_keeps_visited n a ci :
  keeps_visited (λ prev, (apply_action n a (ci, prev)).2).
Proof.
  intros prev j q Hj Hq.
  destruct a; simpl; unfold handleSaveAndNext, handleMarkForReviewAndNext.
  - by apply handleSelectOption_keeps_visited with q.
  - destruct (has_next ci n); [|eauto].
    by apply (moveToQuestion_keeps_visited ci _ prev j q).
  - by apply handleClear_keeps_visited with q.
  - by apply handleSaveAndMarkForReview_keeps_visited with q.
  - destruct (markForReview_keeps_visited ci prev j q Hj Hq)
      as (q1 & H1 & Hq1).
    destruct (has_next ci n); [|eauto].
    by apply (moveToQuestion_keeps_visited ci _ _ j q1).
  - by apply (moveToQuestion_keeps_visited ci _ prev j q).
  - by apply (moveToQuestion_keeps_visited ci _ prev j q).
  - by apply (moveToQuestion_keeps_visited ci _ prev j q).
Qed.

Lemma handleSelectOption_lookup ci v prev q :
  prev !! ci = Some q →
  handleSelectOption ci v prev !! ci = Some (selected_entry v q).
Proof.
  intros Hci. unfold handleSelectOption. rewrite Hci.
  rewrite list_lookup_insert_eq by (eapply lookup_lt_Some; eassumption).
  by destruct q as [sel []].
Qed.

Lemma handleSelectOption_other ci v prev j :
  j ≠ ci → handleSelectOption ci v prev !! j = prev !! j.
Proof.
  intros Hne. unfold handleSelectOption.
  destruct (prev !! ci); [|done]. by rewrite list_lookup_insert_ne.
Qed.

Lemma handleClear_lookup ci prev :
  (ci < length prev)%nat →
  handleClear ci prev !! ci = Some (mkQuestionState None notAnswered).
Proof.
  intros Hlt. unfold handleClear.
  destruct (lookup_lt_is_Some_2 prev ci Hlt) as [q ->].
  by rewrite list_lookup_insert_eq.
Qed.

Lemma handleSelectOption_length ci v prev :
  length (handleSelectOption ci v prev) = length prev.
Proof.
  unfold handleSelectOption. destruct (prev !! ci); [|done].
  by rewrite length_insert.
Qed.

(** The updater of "Mark for Review & Next" looks at the selection. *)
Lemma markForReview_lookup ci prev q :
  prev !! ci = Some q →
  markForReview ci prev !! ci =
    Some (mkQuestionState (selectedOptionIndex q)
            (match selectedOptionIndex q with
             | Some _ => answeredMarked
             | None => marked
             end)).
Proof.
  intros Hci. unfold markForReview. rewrite Hci.
  rewrite list_lookup_insert_eq by (eapply lookup_lt_Some; eassumption).
  by destruct (selectedOptionIndex q).
Qed.

(** C5, as stated, fails: selecting an option on a question whose status is
    [marked] leaves the status [marked]; it does not become
    [answeredMarked]. *)
Lemma C5_select_on_marked_stays_marked :
  ¬ (∀ ci v prev q,
       prev !! ci = Some q →
       status q = marked ∨ status q = answeredMarked →
       ∃ q', handleSelectOption ci v prev !! ci = Some q'
             ∧ selectedOptionIndex q' = Some v
             ∧ status q' = answeredMarked).
Proof.
  intros H.
  destruct (H 0%nat 2%nat [mkQuestionState None marked]
              (mkQuestionState None marked) eq_refl (or_introl eq_refl))
    as (q' & Hq' & _ & Hst).
  vm_compute in Hq'. injection Hq' as <-. discriminate Hst.
Qed.

(** C5, amended: [handleSelectOption] records the chosen option on the
    current question; a status of [notVisited] or [notAnswered] becomes
    [answered], and any other status ([answered], [marked],
    [answeredMarked]) is left as it was.  The other questions are not
    touched. *)
Theorem C5_selectOption_status ci v prev q :
  prev !! ci = Some q →
  (∃ q', handleSelectOption ci v prev !! ci = Some q'
         ∧ selectedOptionIndex q' = Some v
         ∧ (status q = notVisited ∨ status q = notAnswered →
            status q' = answered)
         ∧ (status q = answered ∨ status q = marked
            ∨ status q = answeredMarked → status q' = status q))
  ∧ (∀ j, j ≠ ci → handleSelectOption ci v prev !! j = prev !! j).
Proof.
  intros Hci. split.
  - exists (selected_entry v q). split; [by apply handleSelectOption_lookup|].
    split; [done|]. unfold selected_entry; simpl.
    split.
    + intros [Hst|Hst]; rewrite Hst; reflexivity.
    + intros [Hst|[Hst|Hst]]; rewrite Hst; reflexivity.
  - intros j Hne. by apply handleSelectOption_other.
Qed.

Lemma C5_selectOption_status_witness :
  [mkQuestionState None marked; mkQuestionState None notVisited] !! 1%nat
    = Some (mkQuestionState None notVisited)
  ∧ ∃ q', handleSelectOption 1 3
            [mkQuestionState None marked; mkQuestionState None notVisited]
            !! 1%nat = Some q'
          ∧ selectedOptionIndex q' = Some 3%nat
          ∧ (status (mkQuestionState None notVisited) = notVisited
             ∨ status (mkQuestionState None notVisited) = notAnswered →
             status q' = answered)
          ∧ (status (mkQuestionState None notVisited) = answered
             ∨ status (mkQuestionState None notVisited) = marked
             ∨ status (mkQuestionState None notVisited) = answeredMarked →
             status q' = status (mkQuestionState None notVisited)).
Proof.
  split; [reflexivity|].
  apply (C5_selectOption_status 1 3
           [mkQuestionState None marked; mkQuestionState None notVisited]
           (mkQuestionState None notVisited)).
  reflexivity.
Defined.

(** C7: on any question, with any prior status and selection, choosing an
    option and then pressing Clear leaves the question [notAnswered] with
    no selected option; Clear alone does so whatever the entry was. *)
Theorem C7_select_then_clear ci v prev :
  (ci < length prev)%nat →
  (run_actions (length prev) [SelectOption v; Clear] (ci, prev)).2 !! ci
    = Some (mkQuestionState None notAnswered)
  ∧ handleClear ci prev !! ci = Some (mkQuestionState None notAnswered).
Proof.
  intros Hlt. split; [|by apply handleClear_lookup].
  simpl. apply handleClear_lookup. by rewrite handleSelectOption_length.
Qed.

Lemma C7_select_then_clear_witness :
  (1 < length [mkQuestionState None notVisited;
               mkQuestionState (Some 0%nat) answeredMarked])%nat
  ∧ (run_actions 2 [SelectOption 3; Clear]
       (1%nat, [mkQuestionState None notVisited;
                mkQuestionState (Some 0%nat) answeredMarked])).2 !! 1%nat
    = Some (mkQuestionState None notAnswered).
Proof.
  split; [simpl; lia|].
  apply (C7_select_then_clear 1 3
           [mkQuestionState None notVisited;
            mkQuestionState (Some 0%nat) answeredMarked]).
  simpl; lia.
Defined.

(** C8: whatever controls are used, in whatever order, a question whose
    status is not [notVisited] never gets the status [notVisited] again. *)
Theorem C8_never_back_to_notVisited n acts ci prev j q :
  prev !! j = Some q → status q ≠ notVisited →
  ∃ q', (run_actions n acts (ci, prev)).2 !! j = Some q'
        ∧ status q' ≠ notVisited.
Proof.
  revert ci prev q. induction acts as [|a acts IH]; intros ci prev q Hj Hq.
  - simpl. eauto.
  - destruct (apply_action_keeps_visited n a ci prev j q Hj Hq)
      as (q1 & H1 & Hq1).
    destruct (apply_action n a (ci, prev)) as [ci1 prev1] eqn:Heq.
    unfold run_actions in *. cbn [foldl]. rewrite Heq.
    simpl in H1. exact (IH ci1 prev1 q1 H1 Hq1).
Qed.

Lemma C8_never_back_to_notVisited_witness :
  ∃ q', (run_actions 2 [Palette 1; Clear; Back; MarkForReviewAndNext]
           (0%nat, [mkQuestionState None notAnswered;
                    mkQuestionState None notVisited])).2 !! 0%nat = Some q'
        ∧ status q' ≠ notVisited.
Proof.
  apply (C8_never_back_to_notVisited 2
           [Palette 1; Clear; Back; MarkForReviewAndNext] 0
           [mkQuestionState None notAnswered; mkQuestionState None notVisited]
           0 (mkQuestionState None notAnswered)).
  - reflexivity.
  - simpl. congruence.
Defined.

End Palette.

(** * Properties of the scoring pass *)

Section Scoring.

Implicit Types (slots : list (ScoredQuestion * option Z)) (acc : Results).

Lemma count_verdict_cons v slot slots :
  count_verdict v (slot :: slots) =
    ((if decide (judge slot.1 slot.2 = v) then 1 else 0)
     + count_verdict v slots)%nat.
Proof.
  unfold count_verdict. rewrite filter_cons.
  destruct (decide (judge slot.1 slot.2 = v)); reflexivity.
Qed.

(** The scoring pass started from any accumulator adds, field by field, what
    the remaining slots contribute. *)
Lemma foldl_tally acc slots :
  let r := foldl tally acc slots in
  total_score r = (total_score acc + sum_contributions slots)%Z
  ∧ total_questions r = (total_questions acc + length slots)%nat
  ∧ correct r = (correct acc + count_verdict IsCorrect slots)%nat
  ∧ wrong r = (wrong acc + count_verdict IsWrong slots)%nat
  ∧ not_attempted r =
      (not_attempted acc + count_verdict IsNotAttempted slots)%nat
  ∧ attempted r =
      (attempted acc + count_verdict IsCorrect slots
       + count_verdict IsWrong slots)%nat.
Proof.
  revert acc. induction slots as [|[q sel] slots IH]; intros acc.
  - simpl. unfold count_verdict. simpl. repeat split; lia.
  - cbn [foldl]. specialize (IH (tally acc (q, sel))).
    cbv zeta in IH. destruct IH as (Ht & Hn & Hc & Hw & Hna & Ha).
    rewrite !count_verdict_cons. cbn [sum_contributions foldr fst snd].
    fold (sum_contributions slots).
    rewrite Ht, Hn, Hc, Hw, Hna, Ha. unfold contribution, tally.
    cbn [length].
    destruct (judge q sel); simpl; repeat split; lia.
Qed.

(** C4: each question contributes [+marks] when the selected option equals
    the answer key, [-negative_marks] when another option was selected and
    [0] when none was; the total score is the sum over all questions, the
    counters count the three verdicts, and the total may be negative.  The
    two-question exam with marks 4 and negative marks 1, answered correct
    then wrong, scores 3 with one correct, one wrong and none unattempted. *)
Theorem C4_scoring :
  (∀ q o, contribution q (Some o) =
            if (o =? correct_option q)%Z then marks q
            else (- negative_marks q)%Z)
  ∧ (∀ q, contribution q None = 0%Z)
  ∧ (∀ slots,
       total_score (compute_result slots) = sum_contributions slots
       ∧ total_questions (compute_result slots) = length slots
       ∧ correct (compute_result slots) = count_verdict IsCorrect slots
       ∧ wrong (compute_result slots) = count_verdict IsWrong slots
       ∧ not_attempted (compute_result slots)
         = count_verdict IsNotAttempted slots)
  ∧ compute_result [(mkScoredQuestion 2 4 1, Some 2%Z);
                    (mkScoredQuestion 3 4 1, Some 1%Z)]
    = mkResults 3 2 2 1 1 0
  ∧ (total_score (compute_result [(mkScoredQuestion 2 4 1, Some 1%Z)]) < 0)%Z.
Proof.
  split; [|split; [|split; [|split]]].
  - intros q o. unfold contribution, judge.
    by destruct (o =? correct_option q)%Z.
  - reflexivity.
  - intros slots.
    destruct (foldl_tally (mkResults 0 0 0 0 0 0) slots)
      as (Ht & Hn & Hc & Hw & Hna & _).
    unfold compute_result. rewrite Ht, Hn, Hc, Hw, Hna. simpl.
    repeat split; lia.
  - reflexivity.
  - vm_compute. reflexivity.
Qed.

End Scoring.

(** * Properties of the session *)

Ltac dstate s :=
  destruct s as [?exam ?ld ?err ?sd ?qs ?ci ?qst ?tr ?tov ?aid ?sub ?subm
                 ?isf ?res ?doc ?snt ?pnd ?stt ?rtt ?ihe ?exp ?lds].

(** Find a variable inside a boolean condition. *)
Ltac find_var c k :=
  lazymatch c with
  | negb ?a => find_var a k
  | andb ?a ?b => first [find_var a k | find_var b k]
  | orb ?a ?b => first [find_var a k | find_var b k]
  | _ => is_var c; k c
  end.

Ltac split_ifs :=
  repeat (cbn in *;
          match goal with
          | |- context [if ?c then _ else _] =>
              find_var c ltac:(fun v => destruct v)
          | |- context [truthy ?a] => is_var a; destruct a
          | |- context [is_some ?a] => is_var a; destruct a
          | |- context [(?a =? ?b)%Z] => destruct (Z.eqb_spec a b)
          | |- context [(?a <=? ?b)%Z] => destruct (Z.leb_spec a b)
          | |- context [(?a <? ?b)%Z] => destruct (Z.ltb_spec a b)
          | |- context [match ?c with _ => _ end] => is_var c; destruct c
          end).

Ltac use_hyps :=
  repeat (cbn in *;
          match goal with
          | H : ?a = ?a → _ |- _ => specialize (H eq_refl)
          | H : true = false → _ |- _ => clear H
          | H : false = true → _ |- _ => clear H
          | H : true = false |- _ => discriminate H
          | H : false = true |- _ => discriminate H
          | H : ?P → _, H' : ?P |- _ => specialize (H H')
          | H : _ ∧ _ |- _ => destruct H
          | H : _ ∨ _ |- _ => destruct H
          | H : ?v = _ → _ |- _ => is_var v; destruct v
          | H : context [truthy ?a] |- _ => is_var a; destruct a
          | |- context [truthy ?a] => is_var a; destruct a
          | H : context [is_some ?a] |- _ => is_var a; destruct a
          | H : context [(?a =? ?b)%Z] |- _ => destruct (Z.eqb_spec a b)
          | |- context [(?a =? ?b)%Z] => destruct (Z.eqb_spec a b)
          end).

Ltac finish :=
  use_hyps; subst; cbn in *;
  repeat split; intros; use_hyps;
  rewrite ?andb_true_r, ?Nat.add_0_r in *;
  try congruence; try lia; auto.

(** Case analysis on the conditions of the code, keeping them as
    equations. *)
Ltac case_ifs :=
  repeat match goal with
         | |- context [if ?c then _ else _] => destruct c eqn:?
         | |- context [match ?c with Some _ => _ | None => _ end] =>
             destruct c eqn:?
         end.

Ltac frame_done := cbn; repeat split; congruence.

Section Lists.

Lemma count_app (p : Request → bool) l1 l2 :
  length (List.filter p (l1 ++ l2)) =
    length (List.filter p l1) + length (List.filter p l2).
Proof. by rewrite List.filter_app, length_app. Qed.

Lemma remove_first_forallb (p : Pending → bool) k l rest :
  remove_first k l = Some rest → forallb p l = true →
  p k = true ∧ forallb p rest = true.
Proof.
  revert rest. induction l as [|x l IH]; intros rest; simpl; [done|].
  intros Hrm Hall. apply andb_prop in Hall as [Hx Hl].
  destruct (decide (x = k)) as [->|Hne].
  - injection Hrm as <-. done.
  - destruct (remove_first k l) as [rest'|]; [|done]. injection Hrm as <-.
    destruct (IH rest' eq_refl Hl) as [Hk Hrest]. simpl.
    by rewrite Hx, Hrest.
Qed.

Lemma remove_first_app k l : remove_first k (l ++ [k]) ≠ None.
Proof.
  induction l as [|x l IH]; simpl.
  - by destruct (decide (k = k)).
  - destruct (decide (x = k)); [done|].
    by destruct (remove_first k (l ++ [k])).
Qed.

(** A property that every detection keeps holds after all of them. *)
Lemma detections_ind (P : State → Prop) closure :
  (∀ d acc, P acc → P (detection closure d acc)) →
  ∀ ds acc, P acc → P (foldl (λ acc d, detection closure d acc) acc ds).
Proof.
  intros Hd ds. induction ds as [|d ds IH]; intros acc Hacc; [done|].
  cbn. apply IH, Hd, Hacc.
Qed.

End Lists.

Section Soundness.

(** The exam screen is only rendered once the details are stored. *)
Lemma render_exam s :
  render s = ExamScreen → is_some (studentDetails s) = true.
Proof.
  unfold render. destruct (loading s); [done|].
  by destruct (is_some (studentDetails s)).
Qed.

Lemma running_fields s :
  attempt_running s = true →
  ∃ d z, studentDetails s = Some d ∧ attemptId s = Some z ∧ z ≠ 0%Z
         ∧ submitted s = false ∧ timeOver s = false.
Proof.
  unfold attempt_running. intros H.
  apply andb_prop in H as [H Htov]. apply andb_prop in H as [H Hsub].
  apply andb_prop in H as [Hsd Hid].
  destruct (studentDetails s) as [d|]; [|done].
  destruct (attemptId s) as [z|]; [|done].
  exists d, z. cbn in Hid. destruct (Z.eqb_spec z 0); [done|].
  apply negb_true_iff in Htov, Hsub. done.
Qed.

Lemma init_sound exam fs : Sound (init exam fs).
Proof. constructor; finish. Qed.

Lemma time_expiry_sound x : Sound x → Sound (time_expiry x).
Proof.
  intros [H1 H2 H4 H5 H6 H7]. dstate x.
  unfold time_expiry, expiry_condition, fetch, submit_requests in *.
  split_ifs; constructor; cbn in *;
    rewrite ?forallb_app, ?count_app; finish.
Qed.

Lemma exitFullscreen_sound x : Sound x → Sound (exitFullscreen x).
Proof.
  intros [H1 H2 H4 H5 H6 H7]. dstate x.
  unfold exitFullscreen, submit_requests in *.
  split_ifs; constructor; finish.
Qed.

Lemma fullscreen_release_sound old cur x :
  Sound x → Sound (fullscreen_release old cur x).
Proof.
  intros Hx. unfold fullscreen_release.
  destruct (_ && _); [by apply exitFullscreen_sound|done].
Qed.

Lemma fullscreen_tracking_sound old cur x :
  Sound x → Sound (fullscreen_tracking old cur x).
Proof.
  intros [H1 H2 H4 H5 H6 H7]. unfold fullscreen_tracking.
  destruct (_ || _); [|by constructor]. dstate x. constructor; finish.
Qed.

Lemma fetchExam_sound old cur x : Sound x → Sound (fetchExam old cur x).
Proof.
  intros [H1 H2 H4 H5 H6 H7]. unfold fetchExam.
  destruct (exam_deps_changed old cur); [|by constructor].
  dstate x. constructor; finish.
Qed.

Lemma fetchExam_fields old cur x :
  let y := fetchExam old cur x in
  studentDetails y = studentDetails x ∧ attemptId y = attemptId x
  ∧ submitted y = submitted x ∧ timeOver y = timeOver x
  ∧ isFullscreen y = isFullscreen x ∧ docFullscreen y = docFullscreen x
  ∧ timeRemaining y = timeRemaining x ∧ sent y = sent x
  ∧ pending y = pending x ∧ retryTimers y = retryTimers x
  ∧ startTimer y = startTimer x ∧ isHandlingExit y = isHandlingExit x
  ∧ expired y = expired x ∧ questions y = questions x
  ∧ questionState y = questionState x ∧ currentIndex y = currentIndex x
  ∧ results y = results x ∧ submitting y = submitting x
  ∧ examId y = examId x.
Proof. unfold fetchExam. by destruct (exam_deps_changed old cur). Qed.

(** The start effect writes to a state that agrees with the rendered one on
    what the effect's guard reads. *)
Lemma fullscreen_on_start_sound old cur x :
  attemptId x = attemptId cur → studentDetails x = studentDetails cur →
  submitted x = submitted cur → timeOver x = timeOver cur →
  Sound x → Sound (fullscreen_on_start old cur x).
Proof.
  intros E1 E2 E3 E4 [H1 H2 H4 H5 H6 H7]. unfold fullscreen_on_start.
  destruct (start_deps_changed old cur); [|by constructor].
  unfold attempt_running. rewrite <- E1, <- E2, <- E3, <- E4. dstate x.
  unfold submit_requests in *.
  split_ifs; constructor; finish.
Qed.

Lemma effects_pass_sound old cur : Sound cur → Sound (effects_pass old cur).
Proof.
  intros H. unfold effects_pass.
  apply time_expiry_sound, fullscreen_release_sound,
    fullscreen_tracking_sound.
  destruct (fetchExam_fields old cur cur)
    as (F1 & F2 & F3 & F4 & _).
  apply fullscreen_on_start_sound; try done.
  by apply fetchExam_sound.
Qed.

Lemma resume_sound k reply rest x :
  Sound x → remove_first k (pending x) = Some rest →
  Sound (resume k reply (set_pending rest x)).
Proof.
  intros [H1 H2 H4 H5 H6 H7] Hrm. dstate x. cbn in Hrm.
  pose proof (remove_first_forallb is_create k pnd rest Hrm) as Hk.
  unfold submit_requests in *.
  destruct k, reply as [m|d|[i|r|]]; cbn;
    unfold resume_create, resume_manual_submit, resume_manual_results,
      resume_auto_submit, store_results, resume_exit_report, fetch,
      submit_requests in *;
    split_ifs; constructor; cbn in *; rewrite ?forallb_app, ?count_app;
    finish.
Qed.

(** One detection, handed to the closures of a render in which the attempt
    runs. *)
Lemma detection_sound c d x :
  attempt_running c = true → attemptId x = attemptId c →
  Sound x →
  Sound (detection c d x) ∧ attemptId (detection c d x) = attemptId c.
Proof.
  intros Hrun Hid [H1 H2 H4 H5 H6 H7].
  destruct (running_fields c Hrun) as (sd' & z & _ & Hz & Hnz & Hsub & Hto).
  pose proof (proj2 (Z.eqb_neq z 0) Hnz) as Hzb.
  rewrite Hz in Hid.
  unfold detection, poll, handleFullscreenChange, fetch.
  rewrite Hz, Hsub, Hto. cbn [truthy]. rewrite Hzb. cbn [negb].
  destruct (isFullscreen c); dstate x; cbn in Hid; subst;
    unfold submit_requests in *;
    destruct d; split_ifs; (split; [|done]); constructor; cbn in *;
    rewrite ?forallb_app, ?count_app; cbn; rewrite ?Hzb; finish.
Qed.

Lemma detections_sound s ds :
  attempt_running s = true → Sound s →
  Sound (foldl (λ acc d, detection s d acc) s ds).
Proof.
  intros Hrun Hs.
  apply (detections_ind
           (λ acc, Sound acc ∧ attemptId acc = attemptId s) s); [|done].
  intros d acc [Hacc Hid]. by apply detection_sound.
Qed.

Lemma handle_sound e s : Sound s → Sound (handle e s).
Proof.
  intros Hs. destruct e; cbn [handle].
  - destruct Hs as [H1 H2 H4 H5 H6 H7]. dstate s.
    unfold submit_requests in *. split_ifs; constructor; finish.
  - destruct Hs as [H1 H2 H4 H5 H6 H7]. dstate s.
    unfold submit_requests in *. split_ifs; constructor; finish.
  - destruct (render s) eqn:Hr; try done.
    destruct Hs as [H1 H2 H4 H5 H6 H7]. dstate s.
    unfold render, handleStudentDetailsSubmit, fetch, submit_requests in *.
    constructor; cbn in *; rewrite ?forallb_app, ?count_app; finish.
  - destruct (remove_first k (pending s)) eqn:Hrm; [|done].
    by apply resume_sound.
  - destruct Hs as [H1 H2 H4 H5 H6 H7]. dstate s.
    unfold countdown_running, submit_requests in *.
    split_ifs; constructor; finish.
  - destruct (render s) eqn:Hr; try done.
    destruct (action_enabled _ _ _); [|done].
    generalize (apply_action (length (questions s)) a
                  (currentIndex s, questionState s)).
    intros m. apply render_exam in Hr.
    destruct Hs as [H1 H2 H4 H5 H6 H7]. dstate s.
    constructor; finish.
  - destruct (render s); try done.
    destruct (submit_button_enabled s) eqn:Hb; [|done].
    destruct Hs as [H1 H2 H4 H5 H6 H7]. dstate s.
    unfold handleSubmit, submit_button_enabled, fetch, submit_requests in *.
    split_ifs; constructor; cbn in *; rewrite ?forallb_app, ?count_app;
      finish.
  - destruct Hs as [H1 H2 H4 H5 H6 H7]. dstate s. constructor; finish.
  - destruct (attempt_running s) eqn:Hrun; [|done].
    by apply detections_sound.
  - destruct Hs as [H1 H2 H4 H5 H6 H7]. dstate s.
    unfold requestFullscreen, submit_requests in *.
    split_ifs; constructor; finish.
  - destruct Hs as [H1 H2 H4 H5 H6 H7]. dstate s.
    unfold requestFullscreen, submit_requests in *.
    split_ifs; constructor; finish.
  - destruct Hs as [H1 H2 H4 H5 H6 H7]. dstate s. constructor; finish.
Qed.

Lemma step_sound e s : Sound s → Sound (step e s).
Proof.
  intros Hs. unfold step.
  auto using effects_pass_sound, handle_sound.
Qed.

End Soundness.

Section Effects.

(** What every effect of a pass keeps, the pass keeps. *)
Lemma effects_pass_ind (P : State → Prop) old cur :
  P cur →
  (∀ x, P x → P (fetchExam old cur x)) →
  (∀ x, P x → P (fullscreen_on_start old cur x)) →
  (∀ x, P x → P (fullscreen_tracking old cur x)) →
  (∀ x, P x → P (fullscreen_release old cur x)) →
  (∀ x, P x → P (time_expiry x)) →
  P (effects_pass old cur).
Proof.
  intros H0 H1 H2 H3 H4 H5. unfold effects_pass.
  apply H5, H4, H3, H2, H1, H0.
Qed.

(** An effect that leaves alone what the goal is about. *)
Ltac kept :=
  let x := fresh "x" in
  let Hx := fresh "Hx" in
  intros x Hx;
  unfold fetchExam, fullscreen_on_start, fullscreen_tracking,
    fullscreen_release, exitFullscreen, time_expiry, fetch;
  case_ifs; cbn;
  first [exact Hx | destruct_and? Hx; repeat split; congruence].

(** Fields no effect writes. *)
Lemma effects_pass_frame old cur :
  let s := effects_pass old cur in
  timeRemaining s = timeRemaining cur ∧ attemptId s = attemptId cur
  ∧ submitted s = submitted cur ∧ studentDetails s = studentDetails cur
  ∧ questions s = questions cur ∧ currentIndex s = currentIndex cur
  ∧ questionState s = questionState cur ∧ results s = results cur
  ∧ submitting s = submitting cur ∧ examId s = examId cur.
Proof. cbv zeta. apply effects_pass_ind; [done|kept..]. Qed.

(** Fields only the loading effect writes. *)
Lemma effects_pass_loading old cur :
  exam_deps_changed old cur = false →
  let s := effects_pass old cur in
  loading s = loading cur ∧ error s = error cur ∧ loads s = loads cur.
Proof.
  intros Hdeps. cbv zeta. apply effects_pass_ind; [done| |kept..].
  intros x Hx. unfold fetchExam. by rewrite Hdeps.
Qed.

(** Fields only the expiry effect writes. *)
Lemma effects_pass_expiry_fields old cur :
  expiry_condition cur = false →
  let s := effects_pass old cur in
  timeOver s = timeOver cur ∧ expired s = expired cur
  ∧ sent s = sent cur ∧ pending s = pending cur.
Proof.
  intros Hcond. cbv zeta.
  apply (effects_pass_ind
           (λ x, expiry_condition x = false
                 ∧ timeOver x = timeOver cur ∧ expired x = expired cur
                 ∧ sent x = sent cur ∧ pending x = pending cur));
    [done| | | | |].
  1-4: intros x Hx;
    unfold fetchExam, fullscreen_on_start, fullscreen_tracking,
      fullscreen_release, exitFullscreen; case_ifs; exact Hx.
  intros x (Hx & Hrest). unfold time_expiry. by rewrite Hx.
Qed.

Lemma time_expiry_done x : expiry_condition (time_expiry x) = false.
Proof.
  unfold time_expiry. destruct (expiry_condition x) eqn:Hc; [|done].
  unfold expiry_condition in *.
  destruct (attemptId x) eqn:Hid; [|by rewrite !andb_false_r in Hc].
  cbn. by rewrite !andb_false_r.
Qed.

Lemma effects_pass_done old cur :
  expiry_condition (effects_pass old cur) = false.
Proof. apply time_expiry_done. Qed.

Lemma time_expiry_idle x : expiry_condition x = false → time_expiry x = x.
Proof. intros H. unfold time_expiry. by rewrite H. Qed.

(** The guard of the expiry effect, false after the previous render, holds
    at a render only if one of its dependencies has changed: testing it at
    every render finds what the effect finds. *)
Lemma expiry_needs_change old cur :
  expiry_condition old = false → expiry_condition cur = true →
  timeRemaining old ≠ timeRemaining cur ∨ timeOver old ≠ timeOver cur
  ∨ submitted old ≠ submitted cur ∨ attemptId old ≠ attemptId cur.
Proof.
  unfold expiry_condition. intros Hold Hcur.
  destruct (decide (timeRemaining old = timeRemaining cur)) as [E1|]; [|auto].
  destruct (decide (timeOver old = timeOver cur)) as [E2|]; [|auto].
  destruct (decide (submitted old = submitted cur)) as [E3|]; [|auto].
  destruct (decide (attemptId old = attemptId cur)) as [E4|]; [|auto].
  rewrite E1, E2, E3, E4, Hcur in Hold. done.
Qed.

Lemma timeOver_effects_pass old cur :
  timeOver cur = true → timeOver (effects_pass old cur) = true.
Proof. apply effects_pass_ind; [done|kept..]. Qed.

(** What the effects before the expiry effect leave alone. *)
Lemma before_expiry_fields old cur x :
  let y := fullscreen_release old cur
             (fullscreen_tracking old cur
                (fullscreen_on_start old cur (fetchExam old cur x))) in
  expiry_condition y = expiry_condition x
  ∧ questions y = questions x ∧ questionState y = questionState x
  ∧ sent y = sent x ∧ pending y = pending x ∧ submitted y = submitted x
  ∧ results y = results x ∧ attemptId y = attemptId x
  ∧ timeOver y = timeOver x ∧ expired y = expired x.
Proof.
  cbv zeta. unfold expiry_condition,
    fetchExam, fullscreen_on_start, fullscreen_tracking,
    fullscreen_release, exitFullscreen.
  case_ifs; frame_done.
Qed.

End Effects.

Section Detected.

(** What no detection writes. *)
Lemma detection_frame c d x :
  let y := detection c d x in
  timeRemaining y = timeRemaining x ∧ attemptId y = attemptId x
  ∧ submitted y = submitted x ∧ timeOver y = timeOver x
  ∧ studentDetails y = studentDetails x ∧ questions y = questions x
  ∧ currentIndex y = currentIndex x ∧ questionState y = questionState x
  ∧ results y = results x ∧ submitting y = submitting x
  ∧ loading y = loading x ∧ error y = error x ∧ examId y = examId x
  ∧ loads y = loads x ∧ startTimer y = startTimer x
  ∧ docFullscreen y = docFullscreen x ∧ expired y = expired x.
Proof.
  cbv zeta. unfold detection, poll, handleFullscreenChange, fetch.
  destruct d; case_ifs; frame_done.
Qed.

Lemma detections_frame c ds x :
  let y := foldl (λ acc d, detection c d acc) x ds in
  timeRemaining y = timeRemaining x ∧ attemptId y = attemptId x
  ∧ submitted y = submitted x ∧ timeOver y = timeOver x
  ∧ studentDetails y = studentDetails x ∧ questions y = questions x
  ∧ currentIndex y = currentIndex x ∧ questionState y = questionState x
  ∧ results y = results x ∧ submitting y = submitting x
  ∧ loading y = loading x ∧ error y = error x ∧ examId y = examId x
  ∧ loads y = loads x ∧ startTimer y = startTimer x
  ∧ docFullscreen y = docFullscreen x ∧ expired y = expired x.
Proof.
  cbv zeta. apply detections_ind; [|done].
  intros d acc Hacc. pose proof (detection_frame c d acc) as Hd.
  cbv zeta in Hd. destruct_and? Hacc. destruct_and? Hd.
  repeat split; congruence.
Qed.

Lemma handle_detections_frame ds s :
  let y := handle (Detections ds) s in
  timeRemaining y = timeRemaining s ∧ attemptId y = attemptId s
  ∧ submitted y = submitted s ∧ timeOver y = timeOver s
  ∧ studentDetails y = studentDetails s ∧ questions y = questions s
  ∧ currentIndex y = currentIndex s ∧ questionState y = questionState s
  ∧ results y = results s ∧ submitting y = submitting s
  ∧ loading y = loading s ∧ error y = error s ∧ examId y = examId s
  ∧ loads y = loads s ∧ startTimer y = startTimer s
  ∧ docFullscreen y = docFullscreen s ∧ expired y = expired s.
Proof.
  cbv zeta. cbn [handle]. destruct (attempt_running s); [|done].
  apply detections_frame.
Qed.

(** A detection sends nothing but exit reports, and parks nothing but
    their continuations. *)
Lemma detection_sent c d x :
  ∃ rs ks, sent (detection c d x) = sent x ++ rs
           ∧ pending (detection c d x) = pending x ++ ks
           ∧ Forall (λ r, is_exit_report r = true) rs
           ∧ Forall (λ k, k = AwaitExitReport) ks.
Proof.
  unfold detection, poll, handleFullscreenChange, fetch.
  destruct d; case_ifs; cbn;
    first [ by (exists [], []; rewrite !app_nil_r)
          | (eexists [_], [_]; repeat split; by repeat constructor) ].
Qed.

Lemma detections_sent c ds x :
  ∃ rs ks, sent (foldl (λ acc d, detection c d acc) x ds) = sent x ++ rs
           ∧ pending (foldl (λ acc d, detection c d acc) x ds)
             = pending x ++ ks
           ∧ Forall (λ r, is_exit_report r = true) rs
           ∧ Forall (λ k, k = AwaitExitReport) ks.
Proof.
  apply (detections_ind
           (λ acc, ∃ rs ks, sent acc = sent x ++ rs
                            ∧ pending acc = pending x ++ ks
                            ∧ Forall (λ r, is_exit_report r = true) rs
                            ∧ Forall (λ k, k = AwaitExitReport) ks)).
  - intros d acc (rs & ks & Hs & Hp & Hrs & Hks).
    destruct (detection_sent c d acc) as (rs' & ks' & Hs' & Hp' & Hrs' & Hks').
    exists (rs ++ rs'), (ks ++ ks').
    rewrite Hs', Hp', Hs, Hp, !app_assoc. repeat split; by apply Forall_app.
  - exists [], []. by rewrite !app_nil_r.
Qed.

Lemma handle_detections_sent ds s :
  ∃ rs ks, sent (handle (Detections ds) s) = sent s ++ rs
           ∧ pending (handle (Detections ds) s) = pending s ++ ks
           ∧ Forall (λ r, is_exit_report r = true) rs
           ∧ Forall (λ k, k = AwaitExitReport) ks.
Proof.
  cbn [handle]. destruct (attempt_running s).
  - apply detections_sent.
  - exists [], []. by rewrite !app_nil_r.
Qed.

Lemma exit_reports_only (p : Request → bool) rs :
  (∀ r, is_exit_report r = true → p r = false) →
  Forall (λ r, is_exit_report r = true) rs → List.filter p rs = [].
Proof.
  intros Hp. induction 1 as [|r rs Hr _ IH]; [done|].
  cbn. by rewrite (Hp r Hr).
Qed.

Lemma handle_detections_submits ds s :
  submit_requests (handle (Detections ds) s) = submit_requests s.
Proof.
  destruct (handle_detections_sent ds s) as (rs & ks & Hs & _ & Hrs & _).
  unfold submit_requests. rewrite Hs, List.filter_app, length_app.
  rewrite (exit_reports_only is_submit rs); [cbn; lia| |done].
  by intros [].
Qed.

End Detected.

Section Quiescence.





End Quiescence.

Section Reachable.

Lemma run_cons e t s : run (e :: t) s = run t (step e s).
Proof. reflexivity. Qed.

Lemma run_app t1 t2 s : run (t1 ++ t2) s = run t2 (run t1 s).
Proof. unfold run. apply foldl_app. Qed.

Lemma run_sound t s : Sound s → Sound (run t s).
Proof.
  revert s. induction t as [|e t IH]; intros s Hs; [done|].
  rewrite run_cons. by apply IH, step_sound.
Qed.


Lemma reachable_sound t exam fs : Sound (run t (init exam fs)).
Proof. apply run_sound, init_sound. Qed.


End Reachable.

Section Clock.

Lemma resume_timeRemaining k reply rest x :
  timeRemaining (resume k reply (set_pending rest x)) = timeRemaining x.
Proof.
  destruct k, reply as [m|d|[i|r|]]; cbn;
    unfold resume_create, resume_manual_submit, resume_manual_results,
      resume_auto_submit, store_results, resume_exit_report, fetch;
    cbn; try done.
  by destruct (truthy i).
Qed.


Lemma tick_positive prev : (0 < prev)%Z → tick prev = (prev - 1)%Z.
Proof. intros H. unfold tick. destruct (Z.ltb_spec (prev - 1) 0); lia. Qed.


Lemma step_timeRemaining e s :
  timeRemaining (step e s) = timeRemaining (handle e s).
Proof.
  unfold step.
  destruct (effects_pass_frame (handle e s) (effects_pass s (handle e s)))
    as [-> _].
  by destruct (effects_pass_frame s (handle e s)) as [-> _].
Qed.



End Clock.

Section Episodes.

Lemma start_deps_same x y :
  studentDetails x = studentDetails y → attemptId x = attemptId y →
  submitted x = submitted y → timeOver x = timeOver y →
  start_deps_changed x y = false.
Proof.
  unfold start_deps_changed. intros -> -> -> ->.
  rewrite !bool_decide_eq_true_2 by done. by rewrite !Bool.eqb_reflx.
Qed.

Lemma exam_deps_same x y : examId x = examId y → exam_deps_changed x y = false.
Proof. unfold exam_deps_changed. intros ->. by rewrite Z.eqb_refl. Qed.

Lemma fullscreen_tracking_fields old cur x :
  let y := fullscreen_tracking old cur x in
  studentDetails y = studentDetails x ∧ attemptId y = attemptId x
  ∧ submitted y = submitted x ∧ timeOver y = timeOver x
  ∧ isFullscreen y = isFullscreen x ∧ docFullscreen y = docFullscreen x
  ∧ timeRemaining y = timeRemaining x ∧ sent y = sent x
  ∧ pending y = pending x ∧ retryTimers y = retryTimers x
  ∧ examId y = examId x ∧ submitting y = submitting x.
Proof. unfold fullscreen_tracking. by destruct (_ || _). Qed.

Lemma fullscreen_tracking_running old cur x :
  attempt_running (fullscreen_tracking old cur x) = attempt_running x.
Proof. unfold fullscreen_tracking. by destruct (_ || _). Qed.

Lemma fullscreen_tracking_reports old cur x :
  exit_reports (fullscreen_tracking old cur x) = exit_reports x.
Proof. unfold fullscreen_tracking. by destruct (_ || _). Qed.

Lemma running_no_expiry x :
  attempt_running x = true → timeRemaining x ≠ 0%Z →
  expiry_condition x = false.
Proof.
  intros _ Htr. unfold expiry_condition.
  by destruct (Z.eqb_spec (timeRemaining x) 0).
Qed.

Lemma running_not_finished x :
  attempt_running x = true → submitted x || timeOver x = false.
Proof.
  intros Hrun. destruct (running_fields x Hrun) as (_ & _ & _ & _ & _ & -> & ->).
  done.
Qed.

(** While the attempt runs with time left, a render from which the start
    effect and the loading effect stay away runs no effect other than the
    re-creation of the tracking effect. *)
Lemma pass_running old cur :
  attempt_running cur = true → timeRemaining cur ≠ 0%Z →
  start_deps_changed old cur = false → exam_deps_changed old cur = false →
  effects_pass old cur = fullscreen_tracking old cur cur.
Proof.
  intros Hrun Htr Hdeps Hexam.
  unfold effects_pass, fetchExam, fullscreen_on_start, fullscreen_release.
  rewrite Hexam, Hdeps, (running_not_finished cur Hrun), andb_false_r.
  apply time_expiry_idle, running_no_expiry.
  - by rewrite fullscreen_tracking_running.
  - by destruct (fullscreen_tracking_fields old cur cur)
      as (_ & _ & _ & _ & _ & _ & -> & _).
Qed.

Lemma step_running e s :
  attempt_running (handle e s) = true → timeRemaining (handle e s) ≠ 0%Z →
  start_deps_changed s (handle e s) = false →
  exam_deps_changed s (handle e s) = false →
  step e s = fullscreen_tracking s (handle e s) (handle e s).
Proof.
  intros Hrun Htr Hdeps Hexam. unfold step. set (cur := handle e s) in *.
  rewrite (pass_running s cur) by done.
  set (cur' := fullscreen_tracking s cur cur).
  destruct (fullscreen_tracking_fields s cur cur)
    as (F1 & F2 & F3 & F4 & F5 & F6 & F7 & _ & _ & _ & F11 & _).
  fold cur' in F1, F2, F3, F4, F5, F6, F7, F11.
  rewrite pass_running.
  - unfold fullscreen_tracking at 1.
    rewrite (start_deps_same cur cur') by done.
    by rewrite F5, Bool.eqb_reflx.
  - unfold cur'. by rewrite fullscreen_tracking_running.
  - by rewrite F7.
  - by apply start_deps_same.
  - by apply exam_deps_same.
Qed.

Lemma step_running_fields e s :
  attempt_running (handle e s) = true → timeRemaining (handle e s) ≠ 0%Z →
  start_deps_changed s (handle e s) = false →
  exam_deps_changed s (handle e s) = false →
  attempt_running (step e s) = attempt_running (handle e s)
  ∧ docFullscreen (step e s) = docFullscreen (handle e s)
  ∧ isFullscreen (step e s) = isFullscreen (handle e s)
  ∧ timeRemaining (step e s) = timeRemaining (handle e s)
  ∧ exit_reports (step e s) = exit_reports (handle e s)
  ∧ pending (step e s) = pending (handle e s)
  ∧ retryTimers (step e s) = retryTimers (handle e s)
  ∧ isHandlingExit (step e s) =
      Bool.eqb (isFullscreen s) (isFullscreen (handle e s))
      && isHandlingExit (handle e s).
Proof.
  intros Hrun Htr Hdeps Hexam. rewrite (step_running e s Hrun Htr Hdeps Hexam).
  rewrite fullscreen_tracking_running, fullscreen_tracking_reports.
  destruct (fullscreen_tracking_fields s (handle e s) (handle e s))
    as (_ & _ & _ & _ & -> & -> & -> & _ & -> & -> & _).
  repeat split. unfold fullscreen_tracking. rewrite Hdeps. cbn.
  by destruct (Bool.eqb _ _).
Qed.

(** Unpack a running state and compute the handler on it. *)
Ltac running s Hrun :=
  let d := fresh "d" in
  let z := fresh "z" in
  let Hz := fresh "Hz" in
  let Hzb := fresh "Hzb" in
  destruct (running_fields s Hrun) as (d & z & ? & ? & Hz & ? & ?);
  pose proof (proj2 (Z.eqb_neq z 0) Hz) as Hzb;
  dstate s; cbn in *; subst;
  unfold attempt_running, detection, poll, handleFullscreenChange, fetch,
    requestFullscreen, exit_reports;
  cbn; rewrite ?Hzb; cbn;
  repeat (match goal with
          | |- context [if ?c then _ else _] =>
              find_var c ltac:(fun v => destruct v)
          end; cbn; rewrite ?Hzb; cbn).

Ltac by_handler e s :=
  let Hf := fresh "Hf" in
  assert (Hf : attempt_running (handle e s) = true
               ∧ timeRemaining (handle e s) ≠ 0%Z
               ∧ start_deps_changed s (handle e s) = false
               ∧ exam_deps_changed s (handle e s) = false);
  [ | destruct Hf as (?Hf1 & ?Hf2 & ?Hf3 & ?Hf4);
      destruct (step_running_fields e s Hf1 Hf2 Hf3 Hf4)
        as (?E & ?E & ?E & ?E & ?E & ?E & ?E & ?E);
      repeat match goal with
             | E : _ (step e s) = _ |- _ => rewrite ?E; clear E
             end ].

Ltac deps_same :=
  repeat split; try done;
  first [by apply start_deps_same | by apply exam_deps_same].

Lemma step_lost s :
  in_fullscreen s →
  lost (step FullscreenLost s)
  ∧ exit_reports (step FullscreenLost s) = exit_reports s.
Proof.
  intros (Hrun & Hdoc & Hisf & Htr & Hflag). unfold lost.
  by_handler FullscreenLost s.
  - cbn. deps_same.
  - running s Hrun. by repeat split.
Qed.

Lemma step_first_detection d s :
  lost s →
  reported (step (detect d) s)
  ∧ exit_reports (step (detect d) s) = exit_reports s + 1.
Proof.
  intros (Hrun & Hdoc & Hisf & Htr & Hflag). unfold reported.
  by_handler (detect d) s.
  - destruct d; running s Hrun; deps_same.
  - destruct d; running s Hrun; rewrite ?count_app;
      (repeat split; try done); apply remove_first_app.
Qed.

Lemma step_later_detection d s :
  reported s →
  reported (step (detect d) s)
  ∧ exit_reports (step (detect d) s) = exit_reports s.
Proof.
  intros (Hrun & Hdoc & Hisf & Htr & Hflag & Hpend). unfold reported.
  by_handler (detect d) s.
  - destruct d; running s Hrun; deps_same.
  - destruct d; running s Hrun; by repeat split.
Qed.

Lemma step_acknowledge reply s :
  reported s →
  acknowledged (step (Settle AwaitExitReport reply) s)
  ∧ exit_reports (step (Settle AwaitExitReport reply) s) = exit_reports s.
Proof.
  intros (Hrun & Hdoc & Hisf & Htr & Hflag & Hpend). unfold acknowledged.
  by_handler (Settle AwaitExitReport reply) s.
  - cbn [handle]. destruct (remove_first _ _); [|done].
    running s Hrun. deps_same.
  - cbn [handle]. destruct (remove_first _ _); [|done].
    running s Hrun. by repeat split.
Qed.

Lemma step_detection_after_ack d s :
  acknowledged s →
  acknowledged (step (detect d) s)
  ∧ exit_reports (step (detect d) s) = exit_reports s.
Proof.
  intros (Hrun & Hdoc & Hisf & Htr & Hflag & Hpend). unfold acknowledged.
  by_handler (detect d) s.
  - destruct d; running s Hrun; deps_same.
  - destruct d; running s Hrun; by repeat split.
Qed.

Lemma step_regain s :
  acknowledged s →
  in_fullscreen (step (RetryTimerFires true) s)
  ∧ exit_reports (step (RetryTimerFires true) s) = exit_reports s.
Proof.
  intros (Hrun & Hdoc & Hisf & Htr & Hflag & Htimer). unfold in_fullscreen.
  by_handler (RetryTimerFires true) s.
  - cbn [handle]. destruct (retryTimers s) eqn:Hrt; [done|].
    running s Hrun. deps_same.
  - cbn [handle]. destruct (retryTimers s) eqn:Hrt; [done|].
    running s Hrun. by repeat split.
Qed.

Lemma step_detection_in_fullscreen d s :
  in_fullscreen s →
  in_fullscreen (step (detect d) s)
  ∧ exit_reports (step (detect d) s) = exit_reports s.
Proof.
  intros (Hrun & Hdoc & Hisf & Htr & Hflag). unfold in_fullscreen.
  by_handler (detect d) s.
  - destruct d; running s Hrun; deps_same.
  - destruct d; running s Hrun; by repeat split.
Qed.

Lemma run_detections (P : State → Prop) :
  (∀ d s, P s → P (step (detect d) s)
                ∧ exit_reports (step (detect d) s) = exit_reports s) →
  ∀ ds s, P s → P (run (map detect ds) s)
                ∧ exit_reports (run (map detect ds) s) = exit_reports s.
Proof.
  intros Hstep ds. induction ds as [|d ds IH]; intros s Hs; [done|].
  cbn [map]. rewrite run_cons.
  destruct (Hstep d s Hs) as [Hs' Hr'].
  destruct (IH _ Hs') as [Hs'' Hr'']. split; [done|]. by rewrite Hr'', Hr'.
Qed.

Lemma losses_app t1 t2 s :
  losses (t1 ++ t2) s = losses t1 s + losses t2 (run t1 s).
Proof.
  revert s. induction t1 as [|e t1 IH]; intros s; [done|].
  cbn [app losses]. rewrite run_cons, IH. lia.
Qed.

Lemma losses_detections ds s : losses (map detect ds) s = 0.
Proof.
  revert s. induction ds as [|d ds IH]; intros s; [done|].
  cbn [map losses]. by rewrite IH.
Qed.

(** One episode: one loss, one report, and the attempt is back in
    fullscreen. *)
Lemma run_episode ep s :
  in_fullscreen s →
  in_fullscreen (run (episode_events ep) s)
  ∧ exit_reports (run (episode_events ep) s) = exit_reports s + 1
  ∧ losses (episode_events ep) s = 1.
Proof.
  intros Hs. unfold episode_events.
  rewrite !losses_app, !run_app, !losses_detections. cbn [run foldl losses].
  destruct (step_lost s Hs) as [H1 R1].
  destruct (step_first_detection (first_detection ep) _ H1) as [H2 R2].
  destruct (run_detections reported step_later_detection
              (before_ack ep) _ H2) as [H3 R3].
  destruct (step_acknowledge (report_reply ep) _ H3) as [H4 R4].
  destruct (run_detections acknowledged step_detection_after_ack
              (after_ack ep) _ H4) as [H5 R5].
  destruct (step_regain _ H5) as [H6 R6].
  destruct (run_detections in_fullscreen step_detection_in_fullscreen
              (after_regain ep) _ H6) as [H7 R7].
  split; [exact H7|]. split.
  - unfold run in *. rewrite R7, R6, R5, R4, R3, R2, R1. done.
  - destruct Hs as (Hrun & Hdoc & _). cbn [loss].
    rewrite Hdoc, Hrun. cbn. lia.
Qed.

(** Losses that are noticed one render at a time are reported once each,
    however often each is noticed. *)
Lemma run_episodes eps s :
  in_fullscreen s →
  in_fullscreen (run (concat (map episode_events eps)) s)
  ∧ exit_reports (run (concat (map episode_events eps)) s)
    = exit_reports s + length eps
  ∧ losses (concat (map episode_events eps)) s = length eps.
Proof.
  revert s. induction eps as [|ep eps IH]; intros s Hs.
  - cbn. split; [done|]. split; lia.
  - cbn [map concat length]. rewrite run_app, losses_app.
    destruct (run_episode ep s Hs) as (H1 & R1 & L1).
    destruct (IH _ H1) as (H2 & R2 & L2).
    split; [done|]. split; lia.
Qed.

End Episodes.

(** * The claims about the session *)

Section Claims.

Lemma count_positive (p : Request → bool) r l :
  r ∈ l → p r = true → 0 < length (List.filter p l).
Proof.
  intros Hin Hp. apply list_elem_of_In in Hin.
  induction l as [|x l IH]; [done|]. cbn.
  destruct Hin as [->|Hin].
  - rewrite Hp. cbn. lia.
  - specialize (IH Hin). destruct (p x); cbn; lia.
Qed.

(** One detection of a loss, by closures that still believe in the
    fullscreen: a change event reports it, a check reports it unless a check
    of the same effect instance already did. *)
Lemma detection_lost c d acc :
  attempt_running c = true → isFullscreen c = true →
  docFullscreen acc = false →
  docFullscreen (detection c d acc) = false
  ∧ exit_reports (detection c d acc)
    = exit_reports acc
      + (if is_poll d then if isHandlingExit acc then 0 else 1 else 1)
  ∧ isHandlingExit (detection c d acc) = isHandlingExit acc || is_poll d.
Proof.
  intros Hrun Hisf Hdoc.
  destruct (running_fields c Hrun) as (sd' & z & _ & Hz & Hnz & Hsub & Hto).
  pose proof (proj2 (Z.eqb_neq z 0) Hnz) as Hzb.
  unfold detection, poll, handleFullscreenChange, fetch, exit_reports.
  rewrite Hz, Hsub, Hto, Hisf. cbn [truthy]. rewrite Hzb. cbn.
  rewrite Hdoc. cbn.
  destruct d; cbn; [|destruct (isHandlingExit acc) eqn:Hflag; cbn];
    rewrite ?count_app, ?orb_false_r; cbn; repeat split; try done; lia.
Qed.

Lemma burst_counts c ds acc :
  attempt_running c = true → isFullscreen c = true →
  docFullscreen acc = false →
  exit_reports (foldl (λ acc d, detection c d acc) acc ds)
  = exit_reports acc
    + length (List.filter (λ d, negb (is_poll d)) ds)
    + (if isHandlingExit acc then 0
       else if existsb is_poll ds then 1 else 0).
Proof.
  intros Hrun Hisf. revert acc.
  induction ds as [|d ds IH]; intros acc Hdoc.
  - cbn. destruct (isHandlingExit acc); lia.
  - destruct (detection_lost c d acc Hrun Hisf Hdoc) as (Hdoc' & Hr & Hf).
    cbn [foldl]. rewrite (IH _ Hdoc'), Hr, Hf.
    destruct d, (isHandlingExit acc); cbn; lia.
Qed.

(** C3: a loss of fullscreen is reported once for every change event that
    reaches the closures of one render, not once.  For an attempt that runs
    in fullscreen, one loss followed by the detections [ds], handed to the
    same closures, sends [burst_reports ds] fullscreen-exit reports: the
    change event under two of its names gives two reports for one loss.
    Only the 500 ms checks are held back, by [isHandlingExit]. *)
Theorem C3_duplicate_events_report_twice ds s :
  in_fullscreen s →
  losses [FullscreenLost; Detections ds] s = 1
  ∧ exit_reports (run [FullscreenLost; Detections ds] s)
    = exit_reports s + burst_reports ds.
Proof.
  intros Hs. split.
  - destruct Hs as (Hrun & Hdoc & _). cbn [losses loss].
    rewrite Hdoc, Hrun. cbn. lia.
  - destruct (step_lost s Hs) as [(Hrun & Hdoc & Hisf & Htr & Hflag) Hr].
    cbn [run foldl]. set (s1 := step FullscreenLost s) in *.
    destruct (handle_detections_frame ds s1)
      as (F1 & F2 & F3 & F4 & F5 & _ & _ & _ & _ & _ & _ & _ & F13 & _).
    destruct (step_running_fields (Detections ds) s1)
      as (_ & _ & _ & _ & -> & _).
    + unfold attempt_running. rewrite F2, F3, F4, F5. exact Hrun.
    + by rewrite F1.
    + by apply start_deps_same.
    + by apply exam_deps_same.
    + cbn [handle]. rewrite Hrun, (burst_counts s1 ds s1), Hflag, Hr by done.
      unfold burst_reports. lia.
Qed.


(** C10: a submit request is only ever sent for an existing attempt.  As
    long as no attempt id is set, whatever the countdown shows, no submit
    request has been sent and the session is neither time-over nor
    submitted; and every submit request names a non-zero attempt. *)
Theorem C10_submit_needs_attempt t exam fs :
  let s := run t (init exam fs) in
  (attemptId s = None →
   submit_requests s = 0 ∧ timeOver s = false ∧ submitted s = false)
  ∧ (∀ attempt answers,
       ReqSubmit attempt answers ∈ sent s →
       attempt ≠ 0%Z ∧ attemptId s ≠ None).
Proof.
  intros s. pose proof (reachable_sound t exam fs) as Hs. fold s in Hs.
  split.
  - intros Hnone. destruct (snd_idle s Hs) as (? & ? & ? & _); [|done].
    by rewrite Hnone.
  - intros attempt answers Hin. split.
    + pose proof (snd_ids s Hs) as Hids.
      rewrite forallb_forall in Hids.
      apply list_elem_of_In, Hids in Hin. cbn in Hin.
      by destruct (Z.eqb_spec attempt 0).
    + intros Hnone.
      destruct (snd_idle s Hs) as (_ & _ & Hcount & _);
        [by rewrite Hnone|].
      pose proof (count_positive is_submit _ _ Hin eq_refl) as Hpos.
      unfold submit_requests in Hcount. lia.
Qed.

Lemma C3_duplicate_events_report_twice_witness :
  in_fullscreen (run (sample_start ++ [StartTimerFires true]) (init 1 false))
  ∧ losses [FullscreenLost; Detections [ByEvent; ByEvent]]
      (run (sample_start ++ [StartTimerFires true]) (init 1 false)) = 1
  ∧ exit_reports
      (run [FullscreenLost; Detections [ByEvent; ByEvent]]
         (run (sample_start ++ [StartTimerFires true]) (init 1 false)))
    = exit_reports
        (run (sample_start ++ [StartTimerFires true]) (init 1 false)) + 2.
Proof.
  assert (H : in_fullscreen
                (run (sample_start ++ [StartTimerFires true]) (init 1 false))).
  { unfold in_fullscreen. vm_compute. repeat split; discriminate. }
  split; [exact H|].
  exact (C3_duplicate_events_report_twice [ByEvent; ByEvent] _ H).
Defined.


(** The sample losses, each noticed several times but on a render of its
    own each time, are reported once each. *)
Example coalesced_when_rendered_between :
  let s := run (sample_start ++ [StartTimerFires true]) (init 1 false) in
  exit_reports (run (concat (map episode_events sample_episodes)) s) = 3
  ∧ losses (concat (map episode_events sample_episodes)) s = 3.
Proof. vm_compute. done. Qed.

(** The countdown of the sample exam does reach zero, and the expiry branch
    has then run once. *)
Example clock_reaches_zero :
  let s := run (sample_start ++ replicate 60 IntervalTick) (init 1 false) in
  timeRemaining s = 0%Z ∧ expired s = 1 ∧ timeOver s = true.
Proof. vm_compute. done. Qed.

(** The countdown can reach zero with no attempt: nothing is sent. *)
Example zero_without_attempt :
  let s := run (ExamLoaded sample_questions 1 :: replicate 60 IntervalTick)
             (init 1 false) in
  timeRemaining s = 0%Z ∧ attemptId s = None ∧ sent s = []
  ∧ timeOver s = false.
Proof. vm_compute. done. Qed.

(** An exam of no duration, loaded over a submitted attempt, leaves the
    remaining time at zero with no expiry: the expiry effect stands back
    once [submitted] is set. *)
Example zero_minutes_after_submit :
  let s := run zero_minutes_trace (init 1 false) in
  timeRemaining s = 0%Z ∧ truthy (attemptId s) = true
  ∧ submitted s = true ∧ expired s = 0.
Proof. vm_compute. done. Qed.

(** Once [submitted] is set, no event sends another submit request. *)
Lemma no_submit_after_submitted e s :
  submitted s = true →
  submitted (step e s) = true ∧ submit_requests (step e s) = submit_requests s.
Proof.
  intros Hsub.
  assert (Hh : submitted (handle e s) = true
               ∧ submit_requests (handle e s) = submit_requests s).
  { destruct e; cbn [handle].
    - by destruct (loads s).
    - by destruct (loads s).
    - destruct (render s); try done.
      unfold handleStudentDetailsSubmit, fetch, submit_requests.
      cbn. rewrite count_app. cbn. split; [done|lia].
    - destruct (remove_first k (pending s)); [|done].
      destruct k, reply as [m|d|[i|r|]]; cbn;
        unfold resume_create, resume_manual_submit, resume_manual_results,
          resume_auto_submit, store_results, resume_exit_report, fetch,
          submit_requests;
        case_ifs; cbn; rewrite ?count_app; cbn; split; try done; lia.
    - by destruct (countdown_running s).
    - destruct (render s); try done. by destruct (action_enabled _ _ _).
    - destruct (render s); try done.
      unfold submit_button_enabled. by rewrite Hsub.
    - done.
    - split; [|apply handle_detections_submits].
      destruct (handle_detections_frame ds s) as (_ & _ & F3 & _).
      cbn [handle] in F3. by rewrite F3.
    - destruct (startTimer s); [|done]. by destruct granted.
    - destruct (retryTimers s); [done|]. by destruct granted.
    - done. }
  assert (He : ∀ old cur, submitted cur = true →
                 submitted (effects_pass old cur) = true
                 ∧ submit_requests (effects_pass old cur)
                   = submit_requests cur).
  { intros old cur Hc.
    destruct (effects_pass_frame old cur) as (_ & _ & F3 & _).
    destruct (effects_pass_expiry_fields old cur) as (_ & _ & F & _).
    - unfold expiry_condition. by rewrite Hc, !andb_false_r.
    - unfold submit_requests. by rewrite F3, F. }
  destruct Hh as [Hh1 Hh2]. unfold step.
  destruct (He s (handle e s) Hh1) as [He1 He2].
  destruct (He (handle e s) (effects_pass s (handle e s)) He1) as [He3 He4].
  split; [done|]. by rewrite He4, He2, Hh2.
Qed.

(** Without an attempt the palette is empty and nothing of the fullscreen
    watchdog is armed; of the three parts of a session only the countdown,
    which the invariant does not mention, is left out. *)
Lemma nothing_else_starts_without_attempt t exam fs :
  let s := run t (init exam fs) in
  attemptId s = None →
  studentDetails s = None ∧ questionState s = [] ∧ isFullscreen s = false
  ∧ startTimer s = false ∧ retryTimers s = 0.
Proof.
  intros s Hnone. pose proof (reachable_sound t exam fs) as Hs.
  fold s in Hs.
  assert (Hidle : truthy (attemptId s) = false) by (by rewrite Hnone).
  destruct (snd_idle s Hs Hidle) as (_ & _ & _ & ? & ? & ? & _).
  destruct (snd_palette s Hs Hidle) as [? _].
  pose proof (snd_details s Hs) as Hd. rewrite Hidle in Hd.
  by destruct (studentDetails s).
Qed.

(** C1, on the sample exam: the student confirms the submit dialog with one
    second left and the request is still pending when the countdown reaches
    zero.  The expiry effect then sends a second submit request for the
    same attempt; the session is not in the submitted state. *)
Theorem C1_expiry_during_manual_submit :
  let s := run race_trace (init 1 false) in
  submit_requests s = 2
  ∧ submitted s = false
  ∧ submitting s = true
  ∧ timeOver s = true
  ∧ pending s = [AwaitManualSubmit 7; AwaitAutoSubmit 7]
  ∧ List.filter is_submit (sent s)
    = [ReqSubmit 7 [mkAnswer 11 None; mkAnswer 12 None];
       ReqSubmit 7 [mkAnswer 11 None; mkAnswer 12 None]].
Proof. vm_compute. done. Qed.

(** C2, on the sample exam: the countdown runs from the moment the exam is
    loaded.  It has lost a second before any attempt exists, and it keeps
    running after the attempt could not be created, although the palette
    is not initialised and fullscreen is not requested. *)
Theorem C2_countdown_runs_without_attempt :
  (let s := run early_tick_trace (init 1 false) in
   attemptId s = None ∧ studentDetails s = None
   ∧ timeRemaining s = 59%Z)
  ∧ (let s := run failed_start_trace (init 1 false) in
     attemptId s = None ∧ studentDetails s = None ∧ questionState s = []
     ∧ isFullscreen s = false ∧ startTimer s = false ∧ retryTimers s = 0
     ∧ timeRemaining s = 59%Z ∧ countdown_running s = true).
Proof. vm_compute. done. Qed.

(** C6, on the sample exam: "Save & Mark for Review" on a question with
    no selected option sets the status [answeredMarked] all the same. *)
Theorem C6_save_and_mark_without_selection :
  let s := run (sample_start ++ [Click SaveAndMarkForReview]) (init 1 false) in
  questionState s !! 0 = Some (mkQuestionState None answeredMarked)
  ∧ handleSaveAndMarkForReview 0 [mkQuestionState None notAnswered]
    = [mkQuestionState None answeredMarked].
Proof. vm_compute. done. Qed.

End Claims.

(** * Further properties: display helpers and the answers array *)

Section Display.

Lemma time_fields_spec seconds :
  (0 ≤ seconds)%Z →
  let '(hours, minutes, secs) := time_fields seconds in
  (0 ≤ hours ∧ 0 ≤ minutes < 60 ∧ 0 ≤ secs < 60
   ∧ hours * 3600 + minutes * 60 + secs = seconds)%Z.
Proof.
  intros Hs. unfold time_fields.
  rewrite !Z.rem_mod_nonneg by lia.
  Z.to_euclidean_division_equations. lia.
Qed.

Lemma string_app_length (a b : string) :
  String.length (a +:+ b) = String.length a + String.length b.
Proof. induction a as [|c a IH]; simpl; [done|]. by f_equal. Qed.

Lemma string_app_split (a a' b b' : string) :
  String.length a = String.length a' → a +:+ b = a' +:+ b' →
  a = a' ∧ b = b'.
Proof.
  revert a'. induction a as [|c a IH]; intros [|c' a'] Hlen Heq;
    try discriminate; cbn in *.
  - done.
  - injection Heq as -> Heq. injection Hlen as Hlen.
    destruct (IH a' Hlen Heq) as [-> ->]. done.
Qed.

Lemma padded_width n :
  (0 ≤ n < 100)%Z → String.length (padStart2 (pretty n)) = 2.
Proof.
  intros Hn.
  assert (Hall : forallb (λ n, String.length (padStart2 (pretty n)) =? 2)
                   (seqZ 0 100) = true) by (vm_compute; reflexivity).
  rewrite forallb_forall in Hall.
  apply Nat.eqb_eq, Hall, list_elem_of_In, elem_of_seqZ. lia.
Qed.

Lemma padded_inj n m :
  (0 ≤ n < 100)%Z → (0 ≤ m < 100)%Z →
  padStart2 (pretty n) = padStart2 (pretty m) → n = m.
Proof.
  intros Hn Hm.
  assert (Hall : forallb (λ n, forallb (λ m,
                    implb (String.eqb (padStart2 (pretty n))
                             (padStart2 (pretty m))) (n =? m)%Z)
                    (seqZ 0 100)) (seqZ 0 100) = true)
    by (vm_compute; reflexivity).
  rewrite forallb_forall in Hall.
  assert (Hin : ∀ k, (0 ≤ k < 100)%Z → In k (seqZ 0 100)).
  { intros k Hk. apply list_elem_of_In, elem_of_seqZ. lia. }
  specialize (Hall n (Hin n Hn)). rewrite forallb_forall in Hall.
  specialize (Hall m (Hin m Hm)). intros Heq.
  rewrite Heq, String.eqb_refl in Hall. cbn in Hall. by apply Z.eqb_eq.
Qed.

(** X1: for a non-negative number of seconds the three numbers that
    [formatTime] prints are the hours, the minutes below 60 and the seconds
    below 60 of that time: they add up to it again. *)
Theorem formatTime_fields seconds :
  (0 ≤ seconds)%Z →
  (0 ≤ (time_fields seconds).1.1)%Z
  ∧ (0 ≤ (time_fields seconds).1.2 < 60)%Z
  ∧ (0 ≤ (time_fields seconds).2 < 60)%Z
  ∧ ((time_fields seconds).1.1 * 3600 + (time_fields seconds).1.2 * 60
     + (time_fields seconds).2 = seconds)%Z.
Proof. intros Hs. exact (time_fields_spec seconds Hs). Qed.

Lemma formatTime_fields_witness :
  (0 ≤ 3725)%Z
  ∧ (0 ≤ (time_fields 3725).1.1)%Z
  ∧ (0 ≤ (time_fields 3725).1.2 < 60)%Z
  ∧ (0 ≤ (time_fields 3725).2 < 60)%Z
  ∧ ((time_fields 3725).1.1 * 3600 + (time_fields 3725).1.2 * 60
     + (time_fields 3725).2 = 3725)%Z.
Proof. split; [lia|]. apply (formatTime_fields 3725). lia. Defined.

(** X2: below one hundred hours [formatTime] prints exactly eight
    characters, and two different times never print the same text. *)
Theorem formatTime_layout s1 s2 :
  (0 ≤ s1 < 360000)%Z → (0 ≤ s2 < 360000)%Z →
  String.length (formatTime s1) = 8
  ∧ (formatTime s1 = formatTime s2 → s1 = s2).
Proof.
  intros H1 H2.
  pose proof (time_fields_spec s1 ltac:(lia)) as F1.
  pose proof (time_fields_spec s2 ltac:(lia)) as F2.
  unfold formatTime.
  destruct (time_fields s1) as [[h1 m1] c1], (time_fields s2) as [[h2 m2] c2].
  assert (Hh1 : (0 ≤ h1 < 100)%Z) by lia.
  assert (Hh2 : (0 ≤ h2 < 100)%Z) by lia.
  pose proof (padded_width h1 Hh1). pose proof (padded_width h2 Hh2).
  pose proof (padded_width m1 ltac:(lia)).
  pose proof (padded_width m2 ltac:(lia)).
  pose proof (padded_width c1 ltac:(lia)).
  pose proof (padded_width c2 ltac:(lia)).
  split.
  - rewrite !string_app_length. cbn. lia.
  - intros Heq.
    apply string_app_split in Heq as [Eh Heq]; [|congruence].
    apply string_app_split in Heq as [_ Heq]; [|done].
    apply string_app_split in Heq as [Em Heq]; [|congruence].
    apply string_app_split in Heq as [_ Ec]; [|done].
    apply padded_inj in Eh, Em, Ec; lia.
Qed.

Lemma formatTime_layout_witness :
  ((0 ≤ 59 < 360000)%Z ∧ (0 ≤ 60 < 360000)%Z)
  ∧ String.length (formatTime 59) = 8
  ∧ (formatTime 59 = formatTime 60 → 59%Z = 60%Z).
Proof. split; [lia|]. apply (formatTime_layout 59 60); lia. Defined.

Example formatTime_one_minute : formatTime 60 = "00:01:00".
Proof. vm_compute. reflexivity. Qed.

End Display.

Section Counts.

Implicit Types (st : QuestionStatus) (l : list QuestionState).

Lemma with_status_cons st q l :
  with_status st (q :: l) =
    (if decide (status q = st) then 1 else 0) + with_status st l.
Proof.
  unfold with_status. rewrite filter_cons.
  by destruct (decide (status q = st)).
Qed.

Lemma foldl_count_status st acc l :
  count_of st (foldl count_status acc l) = count_of st acc + with_status st l.
Proof.
  revert acc. induction l as [|q l IH]; intros acc.
  - unfold with_status. cbn. lia.
  - cbn [foldl]. rewrite IH, with_status_cons. unfold count_status.
    destruct (status q), st; case_decide; try done; cbn; lia.
Qed.

Lemma with_status_total l :
  with_status notVisited l + with_status notAnswered l
  + with_status answered l + with_status marked l
  + with_status answeredMarked l = length l.
Proof.
  induction l as [|q l IH]; [done|].
  rewrite !with_status_cons. cbn [length].
  destruct (status q); repeat case_decide; try done; cbn; lia.
Qed.

Lemma statusCounts_count_of l st :
  count_of st (statusCounts l) = with_status st l.
Proof.
  unfold statusCounts. rewrite foldl_count_status. by destruct st.
Qed.

(** X3: each counter of [statusCounts] is the number of questions with that
    status, so the five counters add up to the number of questions. *)
Theorem statusCounts_counts l :
  (∀ st, count_of st (statusCounts l) = with_status st l)
  ∧ count_notVisited (statusCounts l) + count_notAnswered (statusCounts l)
    + count_answered (statusCounts l) + count_marked (statusCounts l)
    + count_answeredMarked (statusCounts l) = length l.
Proof.
  pose proof (statusCounts_count_of l) as H.
  split; [done|].
  rewrite <- (with_status_total l).
  rewrite <- (H notVisited), <- (H notAnswered), <- (H answered),
    <- (H marked), <- (H answeredMarked). done.
Qed.

Lemma initialState_cons q qs :
  initialState (q :: qs) =
    mkQuestionState None notAnswered
    :: ((λ _, mkQuestionState None notVisited) <$> qs).
Proof.
  unfold initialState. cbn. f_equal.
  rewrite <- (imap_const (λ _ : Question, mkQuestionState None notVisited)).
  by apply imap_ext.
Qed.

Lemma with_status_const st q0 (qs : list Question) :
  with_status st ((λ _, q0) <$> qs) =
    if decide (status q0 = st) then length qs else 0.
Proof.
  induction qs as [|q qs IH]; cbn [fmap list_fmap].
  - by destruct (decide _).
  - rewrite with_status_cons, IH. cbn. destruct (decide _); cbn; lia.
Qed.

(** X4: the palette built when the attempt starts has one entry per
    question and no selection; the first question counts as [notAnswered]
    and all the others as [notVisited]. *)
Theorem initialState_counts q qs :
  length (initialState (q :: qs)) = S (length qs)
  ∧ statusCounts (initialState (q :: qs))
    = mkStatusCounts (length qs) 1 0 0 0
  ∧ Forall (λ e, selectedOptionIndex e = None) (initialState (q :: qs))
  ∧ initialState [] = [].
Proof.
  rewrite initialState_cons. split; [|split; [|split]].
  - cbn. by rewrite length_fmap.
  - pose proof (statusCounts_count_of
                  (mkQuestionState None notAnswered
                   :: ((λ _, mkQuestionState None notVisited) <$> qs)))
      as H.
    pose proof (H notVisited) as H1. pose proof (H notAnswered) as H2.
    pose proof (H answered) as H3. pose proof (H marked) as H4.
    pose proof (H answeredMarked) as H5.
    rewrite with_status_cons, with_status_const in H1, H2, H3, H4, H5.
    clear H. set (c := statusCounts _) in *. clearbody c.
    cbn [status count_of] in *. repeat (case_decide; try done).
    destruct c as [a b c d e]. cbn in *. f_equal; lia.
  - constructor; [done|]. apply Forall_fmap, Forall_forall. done.
  - done.
Qed.

(** X5: the five statuses get five different palette classes, and a palette
    button whose question has no entry is drawn as not visited. *)
Theorem paletteClassForStatus_classes :
  (∀ a b, paletteClassForStatus (Some a) = paletteClassForStatus (Some b) →
          a = b)
  ∧ (∀ l index, length l ≤ index → palette_class l index = "not-visited")
  ∧ (∀ l index q, l !! index = Some q →
       (palette_class l index = "not-visited" ↔ status q = notVisited)).
Proof.
  split; [|split].
  - intros [] []; cbn; intros H; try done; discriminate H.
  - intros l index Hlen. unfold palette_class.
    by rewrite (lookup_ge_None_2 l index Hlen).
  - intros l index q Hq. unfold palette_class. rewrite Hq. cbn.
    destruct (status q); cbn; split; intros H; try done; discriminate H.
Qed.

End Counts.

Section Answers.

Implicit Types (qs : list Question) (st prev : list QuestionState).

Lemma build_answers_lookup qs st i :
  build_answers qs st !! i =
    (λ q, mkAnswer (question_ident q)
            ((λ k, k + 1) <$> (st !! i ≫= selectedOptionIndex))) <$> qs !! i.
Proof.
  unfold build_answers. rewrite list_lookup_imap.
  destruct (qs !! i) as [q|]; [|done]. cbn. f_equal. f_equal.
  destruct (st !! i) as [e|]; [|done]. cbn.
  by destruct (selectedOptionIndex e).
Qed.

Lemma build_answers_ids qs st :
  map question_id (build_answers qs st) = map question_ident qs.
Proof.
  apply list_eq. intros i.
  change (map question_id (build_answers qs st))
    with (question_id <$> build_answers qs st).
  change (map question_ident qs) with (question_ident <$> qs).
  rewrite !list_lookup_fmap, build_answers_lookup.
  by destruct (qs !! i).
Qed.

Lemma build_answers_from_one qs st :
  Forall (λ a, selected_option a ≠ Some 0) (build_answers qs st).
Proof.
  apply Forall_lookup. intros i a Ha.
  rewrite build_answers_lookup in Ha.
  destruct (qs !! i) as [q|]; [|done]. injection Ha as <-. cbn.
  destruct (st !! i ≫= selectedOptionIndex) as [k|]; cbn; [|done].
  intros [=]. lia.
Qed.

(** X6: the [answers] array of a submit request has one entry per question,
    in the order of the questions; an entry carries the selected option
    counted from 1 (the 0-based index plus one), or no option when the
    question has no selection, and never the option 0. *)
Theorem build_answers_entries qs st :
  length (build_answers qs st) = length qs
  ∧ map question_id (build_answers qs st) = map question_ident qs
  ∧ (∀ i q, qs !! i = Some q →
       build_answers qs st !! i =
         Some (mkAnswer (question_ident q)
                 ((λ k, k + 1) <$> (st !! i ≫= selectedOptionIndex))))
  ∧ Forall (λ a, selected_option a ≠ Some 0) (build_answers qs st).
Proof.
  split; [|split; [|split]].
  - unfold build_answers. apply length_imap.
  - apply build_answers_ids.
  - intros i q Hq. by rewrite build_answers_lookup, Hq.
  - apply build_answers_from_one.
Qed.

Lemma build_answers_selections qs st1 st2 :
  same_selections st1 st2 → build_answers qs st1 = build_answers qs st2.
Proof.
  intros Hsame. apply list_eq. intros i. rewrite !build_answers_lookup.
  destruct (qs !! i) as [q|]; [|done]. cbn. do 3 f_equal.
  specialize (Hsame i).
  destruct (st1 !! i) as [e1|], (st2 !! i) as [e2|]; cbn in *; congruence.
Qed.

Lemma same_selections_refl st : same_selections st st.
Proof. done. Qed.

Lemma same_selections_trans st1 st2 st3 :
  same_selections st1 st2 → same_selections st2 st3 →
  same_selections st1 st3.
Proof. intros H1 H2 i. by rewrite H1. Qed.

Lemma same_selections_insert prev i e new :
  prev !! i = Some e → selectedOptionIndex new = selectedOptionIndex e →
  same_selections (<[i := new]> prev) prev.
Proof.
  intros Hi Hsel j. destruct (decide (i = j)) as [->|Hne].
  - rewrite list_lookup_insert_eq by (eapply lookup_lt_Some; eassumption).
    rewrite Hi. cbn. by rewrite Hsel.
  - by rewrite list_lookup_insert_ne.
Qed.

Lemma seen_selections i prev : same_selections (seen i prev) prev.
Proof.
  unfold seen. destruct (prev !! i) as [e|] eqn:Hi; [|done].
  destruct (status e); try done. by apply same_selections_insert with e.
Qed.

Lemma markForReview_selections ci prev :
  same_selections (markForReview ci prev) prev.
Proof.
  unfold markForReview. destruct (prev !! ci) as [e|] eqn:Hi; [|done].
  apply same_selections_insert with e; [done|].
  by destruct (selectedOptionIndex e).
Qed.

Lemma handleSaveAndMarkForReview_selections ci prev :
  same_selections (handleSaveAndMarkForReview ci prev) prev.
Proof.
  unfold handleSaveAndMarkForReview.
  destruct (prev !! ci) as [e|] eqn:Hi; [|done].
  by apply same_selections_insert with e.
Qed.

Lemma moveToQuestion_selections ci index prev :
  same_selections (moveToQuestion ci index prev).2 prev.
Proof.
  cbn. eapply same_selections_trans; apply seen_selections.
Qed.

(** X7: only choosing an option and pressing Clear change a selection.
    Moving between questions and marking for review leave every selection,
    and therefore the answers that would be submitted, as they are. *)
Theorem navigation_keeps_answers n a ci prev qs :
  writes_selection a = false →
  same_selections (apply_action n a (ci, prev)).2 prev
  ∧ build_answers qs (apply_action n a (ci, prev)).2 = build_answers qs prev.
Proof.
  intros Ha.
  assert (H : same_selections (apply_action n a (ci, prev)).2 prev).
  { destruct a; try discriminate Ha; cbn;
      unfold handleSaveAndNext, handleMarkForReviewAndNext.
    - destruct (has_next ci n); [apply moveToQuestion_selections|done].
    - apply handleSaveAndMarkForReview_selections.
    - destruct (has_next ci n).
      + eapply same_selections_trans;
          [apply moveToQuestion_selections|apply markForReview_selections].
      + apply markForReview_selections.
    - apply moveToQuestion_selections.
    - apply moveToQuestion_selections.
    - apply moveToQuestion_selections. }
  split; [done|]. by apply build_answers_selections.
Qed.

Lemma navigation_keeps_answers_witness :
  writes_selection MarkForReviewAndNext = false
  ∧ same_selections
      (apply_action 2 MarkForReviewAndNext
         (0, [mkQuestionState (Some 2) answered;
              mkQuestionState None notVisited])).2
      [mkQuestionState (Some 2) answered; mkQuestionState None notVisited]
  ∧ build_answers sample_questions
      (apply_action 2 MarkForReviewAndNext
         (0, [mkQuestionState (Some 2) answered;
              mkQuestionState None notVisited])).2
    = build_answers sample_questions
        [mkQuestionState (Some 2) answered; mkQuestionState None notVisited].
Proof.
  split; [reflexivity|].
  apply (navigation_keeps_answers 2 MarkForReviewAndNext 0
           [mkQuestionState (Some 2) answered;
            mkQuestionState None notVisited] sample_questions).
  reflexivity.
Defined.

Lemma seen_length i prev : length (seen i prev) = length prev.
Proof.
  unfold seen. destruct (prev !! i) as [e|]; [|done].
  destruct (status e); try done. by rewrite length_insert.
Qed.

Lemma seen_lookup_ne i j prev : i ≠ j → seen i prev !! j = prev !! j.
Proof.
  intros Hne. unfold seen. destruct (prev !! i) as [e|]; [|done].
  destruct (status e); try done. by rewrite list_lookup_insert_ne.
Qed.

Lemma seen_lookup_visited i j prev q :
  prev !! j = Some q → status q ≠ notVisited → seen i prev !! j = Some q.
Proof.
  intros Hj Hq. destruct (decide (i = j)) as [->|Hne].
  - unfold seen. rewrite Hj. by destruct (status q).
  - by rewrite seen_lookup_ne.
Qed.

Lemma seen_lookup_eq i prev q :
  prev !! i = Some q →
  ∃ q', seen i prev !! i = Some q' ∧ status q' ≠ notVisited
        ∧ selectedOptionIndex q' = selectedOptionIndex q.
Proof.
  intros Hi. unfold seen. rewrite Hi.
  destruct (status q) eqn:Hst.
  - rewrite list_lookup_insert_eq by (eapply lookup_lt_Some; eassumption).
    eexists. split; [done|]. by cbn.
  - exists q. by rewrite Hst.
  - exists q. by rewrite Hst.
  - exists q. by rewrite Hst.
  - exists q. by rewrite Hst.
Qed.

(** X8: moving to a question makes it the current one and marks it as seen:
    afterwards its status is not [notVisited].  Questions other than the
    one left and the one entered are untouched, and so is every question
    that had been visited before; the palette keeps its length. *)
Theorem moveToQuestion_visits ci index prev :
  index < length prev →
  (moveToQuestion ci index prev).1 = index
  ∧ length (moveToQuestion ci index prev).2 = length prev
  ∧ (∃ q', (moveToQuestion ci index prev).2 !! index = Some q'
           ∧ status q' ≠ notVisited)
  ∧ (∀ j, j ≠ ci → j ≠ index →
       (moveToQuestion ci index prev).2 !! j = prev !! j)
  ∧ (∀ j q, prev !! j = Some q → status q ≠ notVisited →
       (moveToQuestion ci index prev).2 !! j = Some q).
Proof.
  intros Hlt. cbn. split; [done|]. split; [by rewrite !seen_length|].
  split; [|split].
  - assert (Hi : is_Some (seen ci prev !! index)).
    { apply lookup_lt_is_Some. by rewrite seen_length. }
    destruct Hi as [q Hq].
    destruct (seen_lookup_eq index _ q Hq) as (q' & ? & ? & _). eauto.
  - intros j Hci Hidx. by rewrite !seen_lookup_ne.
  - intros j q Hj Hq. apply seen_lookup_visited; [|done].
    by apply seen_lookup_visited.
Qed.

Lemma moveToQuestion_visits_witness :
  1 < length [mkQuestionState (Some 1) answered;
              mkQuestionState None notVisited]
  ∧ (moveToQuestion 0 1 [mkQuestionState (Some 1) answered;
                         mkQuestionState None notVisited]).1 = 1
  ∧ ∃ q', (moveToQuestion 0 1 [mkQuestionState (Some 1) answered;
                               mkQuestionState None notVisited]).2 !! 1
          = Some q' ∧ status q' ≠ notVisited.
Proof.
  split; [cbn; lia|].
  destruct (moveToQuestion_visits 0 1
              [mkQuestionState (Some 1) answered;
               mkQuestionState None notVisited]) as (H1 & _ & H3 & _);
    [cbn; lia|].
  split; [exact H1|exact H3].
Defined.

End Answers.

(** * Further properties of the session *)

Section Frames.

Lemma step_keeps e s :
  questions (step e s) = questions (handle e s)
  ∧ currentIndex (step e s) = currentIndex (handle e s)
  ∧ questionState (step e s) = questionState (handle e s)
  ∧ results (step e s) = results (handle e s)
  ∧ attemptId (step e s) = attemptId (handle e s)
  ∧ submitted (step e s) = submitted (handle e s)
  ∧ submitting (step e s) = submitting (handle e s)
  ∧ studentDetails (step e s) = studentDetails (handle e s)
  ∧ examId (step e s) = examId (handle e s).
Proof.
  unfold step.
  destruct (effects_pass_frame (handle e s) (effects_pass s (handle e s)))
    as (_ & -> & -> & -> & -> & -> & -> & -> & -> & ->).
  destruct (effects_pass_frame s (handle e s))
    as (_ & -> & -> & -> & -> & -> & -> & -> & -> & ->).
  done.
Qed.

(** An event that leaves the [examId] prop alone starts no loading. *)
Lemma step_loading e s :
  examId (handle e s) = examId s →
  loading (step e s) = loading (handle e s)
  ∧ error (step e s) = error (handle e s)
  ∧ loads (step e s) = loads (handle e s).
Proof.
  intros Hexam. unfold step.
  destruct (effects_pass_loading (handle e s) (effects_pass s (handle e s)))
    as (-> & -> & ->).
  { apply exam_deps_same.
    by destruct (effects_pass_frame s (handle e s))
      as (_ & _ & _ & _ & _ & _ & _ & _ & _ & ->). }
  by apply effects_pass_loading, exam_deps_same.
Qed.

(** What the continuation of a settled request leaves alone. *)
Lemma resume_frame k reply rest x :
  let y := resume k reply (set_pending rest x) in
  examId y = examId x ∧ questions y = questions x
  ∧ timeRemaining y = timeRemaining x ∧ loading y = loading x
  ∧ loads y = loads x ∧ isFullscreen y = isFullscreen x
  ∧ docFullscreen y = docFullscreen x ∧ timeOver y = timeOver x
  ∧ exit_reports y = exit_reports x.
Proof.
  cbv zeta.
  destruct k, reply as [m|d|[i|r|]]; cbn;
    unfold resume_create, resume_manual_submit, resume_manual_results,
      resume_auto_submit, store_results, resume_exit_report, fetch,
      exit_reports;
    case_ifs; cbn; rewrite ?count_app; cbn; rewrite ?Nat.add_0_r; done.
Qed.

(** Only a change of the address changes the [examId] prop. *)
Lemma handle_examId e s :
  is_reload e = false → examId (handle e s) = examId s.
Proof.
  intros He. destruct e; try discriminate He; cbn [handle].
  - by destruct (loads s).
  - by destruct (loads s).
  - by destruct (render s).
  - destruct (remove_first k (pending s)); [|done].
    by destruct (resume_frame k reply l s) as (-> & _).
  - by destruct (countdown_running s).
  - destruct (render s); try done. by destruct (action_enabled _ _ _).
  - destruct (render s); try done.
    destruct (submit_button_enabled s); [|done].
    unfold handleSubmit, fetch. by case_ifs.
  - done.
  - destruct (handle_detections_frame ds s)
      as (_ & _ & _ & _ & _ & _ & _ & _ & _ & _ & _ & _ & F & _).
    by cbn [handle] in F.
  - destruct (startTimer s); [|done]. by destruct granted.
  - destruct (retryTimers s); [done|]. by destruct granted.
Qed.

End Frames.

Section Persistence.

Lemma persists_refl s : persists s s.
Proof. by repeat split. Qed.

Lemma persists_trans s1 s2 s3 :
  persists s1 s2 → persists s2 s3 → persists s1 s3.
Proof.
  intros (A1 & A2 & A3) (B1 & B2 & B3). repeat split; auto.
Qed.

Lemma resume_persists k reply rest x :
  persists x (resume k reply (set_pending rest x)).
Proof.
  destruct k, reply as [m|d|[i|r|]]; cbn;
    unfold resume_create, resume_manual_submit, resume_manual_results,
      resume_auto_submit, store_results, resume_exit_report, fetch;
    cbn; try apply persists_refl;
    try (repeat split; cbn; by auto).
  destruct (truthy i) eqn:Hi; repeat split; cbn; rewrite ?Hi; auto.
Qed.

Lemma handle_persists e s : persists s (handle e s).
Proof.
  pose proof (persists_refl s) as Hold.
  destruct e; cbn [handle].
  - destruct (loads s); exact Hold.
  - destruct (loads s); exact Hold.
  - destruct (render s); exact Hold.
  - destruct (remove_first k (pending s)); [|exact Hold].
    apply resume_persists.
  - destruct (countdown_running s); exact Hold.
  - destruct (render s); try exact Hold.
    destruct (action_enabled _ _ _); exact Hold.
  - destruct (render s); try exact Hold.
    destruct (submit_button_enabled s); [|exact Hold].
    unfold handleSubmit. destruct (attemptId s) eqn:Hid; [|exact Hold].
    destruct (negb (truthy (Some z))), (submitted s) eqn:Hsub,
      (negb confirmed); exact Hold.
  - exact Hold.
  - destruct (handle_detections_frame ds s) as (_ & F2 & F3 & F4 & _).
    cbn [handle] in F2, F3, F4. unfold persists. by rewrite F2, F3, F4.
  - destruct (startTimer s); [|exact Hold]. destruct granted; exact Hold.
  - destruct (retryTimers s); [exact Hold|]. destruct granted; exact Hold.
  - exact Hold.
Qed.

Lemma effects_pass_persists old cur : persists cur (effects_pass old cur).
Proof.
  destruct (effects_pass_frame old cur) as (_ & Hid & Hsub & _).
  repeat split.
  - by rewrite Hsub.
  - apply timeOver_effects_pass.
  - by rewrite Hid.
Qed.

Lemma step_persists e s : persists s (step e s).
Proof.
  unfold step.
  eapply persists_trans; [apply handle_persists|].
  eapply persists_trans; apply effects_pass_persists.
Qed.

Lemma run_persists t s : persists s (run t s).
Proof.
  revert s. induction t as [|e t IH]; intros s; [apply persists_refl|].
  rewrite run_cons. eapply persists_trans; [apply step_persists|apply IH].
Qed.

(** X11: nothing undoes the progress of an attempt.  Whatever events
    follow, a new exam loaded over it included, a submitted session stays
    submitted, a session that ran out of time stays so, and an attempt id
    that was set stays set. *)
Theorem session_progress_is_kept t s :
  (submitted s = true → submitted (run t s) = true)
  ∧ (timeOver s = true → timeOver (run t s) = true)
  ∧ (truthy (attemptId s) = true → truthy (attemptId (run t s)) = true).
Proof. exact (run_persists t s). Qed.

Lemma run_no_submit t s :
  submitted s = true → submit_requests (run t s) = submit_requests s.
Proof.
  revert s. induction t as [|e t IH]; intros s Hsub; [done|].
  rewrite run_cons.
  destruct (no_submit_after_submitted e s Hsub) as [Hsub' Heq].
  by rewrite IH.
Qed.

(** X12: once a submit request was accepted, no later event, be it a click
    on Submit, a timer or a late reply, sends another submit request. *)
Theorem accepted_submit_is_last t s :
  submitted s = true →
  submitted (run t s) = true
  ∧ submit_requests (run t s) = submit_requests s.
Proof.
  intros Hsub. split; [by apply run_persists|by apply run_no_submit].
Qed.

End Persistence.

Section AfterTheEnd.

Lemma finished_persists t s : finished s = true → finished (run t s) = true.
Proof.
  unfold finished. intros H. destruct (run_persists t s) as (H1 & H2 & _).
  apply orb_true_iff in H as [H|H]; apply orb_true_iff; auto.
Qed.

Lemma finished_not_running s : finished s = true → attempt_running s = false.
Proof.
  unfold finished, attempt_running.
  destruct (submitted s), (timeOver s); cbn; intros H;
    rewrite ?andb_false_r; done.
Qed.

Lemma finished_no_exam_screen s : finished s = true → render s ≠ ExamScreen.
Proof.
  unfold finished, render. intros H.
  destruct (loading s); [done|]. destruct (negb _); [done|].
  destruct (_ !! _); [|done]. destruct (nonempty _); [done|].
  rewrite orb_comm, H. done.
Qed.

Lemma finished_no_expiry s : finished s = true → expiry_condition s = false.
Proof.
  unfold finished, expiry_condition.
  destruct (submitted s), (timeOver s); cbn; intros H;
    rewrite ?andb_false_r; done.
Qed.

Lemma effects_pass_sent_finished old cur :
  finished cur = true → sent (effects_pass old cur) = sent cur.
Proof.
  intros Hf.
  by destruct (effects_pass_expiry_fields old cur (finished_no_expiry cur Hf))
    as (_ & _ & -> & _).
Qed.

Lemma step_sent_finished e s :
  finished (handle e s) = true → sent (step e s) = sent (handle e s).
Proof.
  intros Hf. unfold step.
  rewrite effects_pass_sent_finished.
  - by apply effects_pass_sent_finished.
  - destruct (effects_pass_persists s (handle e s)) as (H1 & H2 & _).
    unfold finished in *. apply orb_true_iff in Hf as [H|H];
      apply orb_true_iff; auto.
Qed.

Lemma handle_reports_finished e s :
  finished s = true → exit_reports (handle e s) = exit_reports s.
Proof.
  intros Hf. pose proof (finished_not_running s Hf) as Hrun.
  destruct e; cbn [handle]; rewrite ?Hrun; try done.
  - by destruct (loads s).
  - by destruct (loads s).
  - destruct (render s); try done.
    unfold handleStudentDetailsSubmit, fetch, exit_reports. cbn.
    rewrite count_app. cbn. lia.
  - destruct (remove_first k (pending s)); [|done].
    by destruct (resume_frame k reply l s)
      as (_ & _ & _ & _ & _ & _ & _ & _ & ->).
  - by destruct (countdown_running s).
  - destruct (render s); try done. by destruct (action_enabled _ _ _).
  - pose proof (finished_no_exam_screen s Hf). by destruct (render s).
  - destruct (startTimer s); [|done]. by destruct granted.
  - destruct (retryTimers s); [done|]. by destruct granted.
Qed.

Lemma step_reports_finished e s :
  finished s = true → exit_reports (step e s) = exit_reports s.
Proof.
  intros Hf. rewrite <- (handle_reports_finished e s Hf).
  unfold exit_reports. f_equal. f_equal. apply step_sent_finished.
  destruct (handle_persists e s) as (H1 & H2 & _).
  unfold finished in *. apply orb_true_iff in Hf as [H|H];
    apply orb_true_iff; auto.
Qed.

(** X13: once the attempt is submitted or out of time, fullscreen losses are
    no longer reported: no later event sends a fullscreen-exit report. *)
Theorem no_exit_report_after_the_end t s :
  finished s = true → exit_reports (run t s) = exit_reports s.
Proof.
  revert s. induction t as [|e t IH]; intros s Hf; [done|].
  rewrite run_cons, IH; [by apply step_reports_finished|].
  by apply (finished_persists [e]).
Qed.

Lemma step_press_finished p s :
  finished s = true →
  questionState (step (press p) s) = questionState s
  ∧ currentIndex (step (press p) s) = currentIndex s
  ∧ sent (step (press p) s) = sent s.
Proof.
  intros Hf. pose proof (finished_no_exam_screen s Hf) as Hr.
  assert (Hh : handle (press p) s = s).
  { destruct p; cbn [press handle]; by destruct (render s). }
  destruct (step_keeps (press p) s) as (_ & -> & -> & _).
  rewrite step_sent_finished; rewrite Hh; done.
Qed.

(** X15: after the attempt is submitted or out of time the answers are
    locked: no click on a control or on Submit changes the palette or the
    current question, and none sends a request. *)
Theorem answers_locked_at_the_end ps s :
  finished s = true →
  questionState (run (map press ps) s) = questionState s
  ∧ currentIndex (run (map press ps) s) = currentIndex s
  ∧ sent (run (map press ps) s) = sent s.
Proof.
  revert s. induction ps as [|p ps IH]; intros s Hf; [done|].
  cbn [map]. rewrite run_cons.
  destruct (step_press_finished p s Hf) as (H1 & H2 & H3).
  destruct (IH (step (press p) s)) as (-> & -> & ->); [|done].
  by apply (finished_persists [press p]).
Qed.

End AfterTheEnd.

Section Release.






(** Later the fullscreen can come back: a request for fullscreen that was
    armed before the end is granted after it, and with [isFullscreen] left
    true by a release that failed, no dependency of the release effect
    changes. *)
Example fullscreen_after_the_end :
  let s := run late_grant_trace (init 1 false) in
  submitted s = true ∧ isFullscreen s = true ∧ docFullscreen s = true.
Proof. vm_compute. done. Qed.

End Release.

Section Countdown.

Lemma handle_countdown e s :
  is_load e = false →
  (timeRemaining s - (if is_tick e then 1 else 0)
   ≤ timeRemaining (handle e s) ≤ timeRemaining s)%Z.
Proof.
  intros He. destruct e; try discriminate He; cbn [handle is_tick]; try lia.
  - destruct (loads s); cbn; lia.
  - destruct (render s); cbn; lia.
  - destruct (remove_first k (pending s)); [|lia].
    rewrite resume_timeRemaining. lia.
  - unfold countdown_running.
    destruct (Z.leb_spec (timeRemaining s) 0); cbn; [lia|].
    destruct (timeOver s || submitted s); cbn; [lia|].
    rewrite tick_positive by done. lia.
  - destruct (render s); try lia. destruct (action_enabled _ _ _); cbn; lia.
  - destruct (render s); try lia.
    destruct (submit_button_enabled s); [|lia].
    unfold handleSubmit. destruct (attemptId s); cbn; [|lia].
    destruct (negb _), (submitted s), (negb confirmed); cbn; lia.
  - cbn. lia.
  - destruct (handle_detections_frame ds s) as (F1 & _).
    cbn [handle] in F1. rewrite F1. lia.
  - destruct (startTimer s); [|lia]. destruct granted; cbn; lia.
  - destruct (retryTimers s); [lia|]. destruct granted; cbn; lia.
  - cbn. lia.
Qed.

(** X16: between two exams that arrive the countdown only runs down, and
    only by the interval callback: after any run of events without a
    loaded exam the remaining time is at most what it was, and it has
    dropped by at most one second per callback. *)
Theorem countdown_only_runs_down t s :
  no_exam_arrives t = true →
  (timeRemaining s - Z.of_nat (ticks t) ≤ timeRemaining (run t s)
   ≤ timeRemaining s)%Z.
Proof.
  revert s. induction t as [|e t IH]; intros s Ht.
  - cbn. lia.
  - cbn in Ht. apply andb_prop in Ht as [He Ht].
    apply negb_true_iff in He. rewrite run_cons.
    pose proof (handle_countdown e s He) as Hh.
    rewrite <- step_timeRemaining in Hh.
    specialize (IH (step e s) Ht). unfold ticks in *. cbn [List.filter].
    destruct (is_tick e); cbn [length] in *; lia.
Qed.

(** An exam that arrives sets the countdown anew, over a running attempt
    as well. *)
Example second_exam_resets_the_countdown :
  timeRemaining (run sample_start (init 1 false)) = 60%Z
  ∧ timeRemaining (run second_exam_trace (init 1 false)) = 120%Z
  ∧ attemptId (run second_exam_trace (init 1 false)) = Some 7%Z.
Proof. vm_compute. done. Qed.

End Countdown.

Section Quiescent.

Lemma set_isHandlingExit_same x :
  isHandlingExit x = false → set_isHandlingExit false x = x.
Proof. destruct x. cbn. by intros ->. Qed.

(** Whatever makes the release effect run makes the tracking effect run. *)
Lemma release_deps_tracking old cur :
  release_deps_changed old cur = true →
  start_deps_changed old cur
  || negb (Bool.eqb (isFullscreen old) (isFullscreen cur)) = true.
Proof.
  unfold release_deps_changed, start_deps_changed.
  destruct (bool_decide _), (bool_decide _),
    (Bool.eqb (submitted old) (submitted cur)),
    (Bool.eqb (timeOver old) (timeOver cur)),
    (Bool.eqb (isFullscreen old) (isFullscreen cur)); done.
Qed.

(** A render that changed [isFullscreen] has re-created the tracking
    effect, and has left the release effect nothing to do. *)
Lemma pass_fullscreen old cur :
  expiry_condition cur = false →
  let y := effects_pass old cur in
  isFullscreen y = isFullscreen cur
  ∨ (isHandlingExit y = false
     ∧ (submitted y || timeOver y) && isFullscreen y = false).
Proof.
  intros Hexp. cbv zeta. unfold effects_pass. rewrite time_expiry_idle.
  2:{ by destruct (before_expiry_fields old cur cur) as (-> & _). }
  destruct (attempt_running cur) eqn:Hrun.
  - pose proof (running_not_finished cur Hrun) as Hnf.
    unfold fullscreen_release. rewrite Hnf, andb_false_r.
    unfold fullscreen_tracking, fullscreen_on_start, fetchExam.
    rewrite Hrun. case_ifs; cbn in *; try (by left); right; by rewrite ?Hnf.
  - unfold fullscreen_release.
    destruct (release_deps_changed old cur) eqn:Hdeps.
    + unfold fullscreen_tracking.
      rewrite (release_deps_tracking old cur Hdeps).
      unfold fullscreen_on_start, fetchExam, exitFullscreen. rewrite Hrun.
      case_ifs; cbn in *; try (by left); right;
        by rewrite ?andb_false_r.
    + cbn [andb]. unfold fullscreen_tracking, fullscreen_on_start, fetchExam.
      rewrite Hrun. case_ifs; by left.
Qed.

(** After a render in which the expiry effect had nothing to do, the next
    render has no effect to run. *)
Lemma pass_settled old cur :
  expiry_condition cur = false →
  effects_pass cur (effects_pass old cur) = effects_pass old cur.
Proof.
  intros Hexp. set (y := effects_pass old cur).
  destruct (effects_pass_frame old cur)
    as (_ & F2 & F3 & F4 & _ & _ & _ & _ & _ & F10).
  destruct (effects_pass_expiry_fields old cur Hexp) as (F5 & _).
  fold y in F2, F3, F4, F5, F10.
  pose proof (pass_fullscreen old cur Hexp) as Hfs. cbv zeta in Hfs.
  fold y in Hfs.
  unfold effects_pass at 1. rewrite time_expiry_idle.
  2:{ destruct (before_expiry_fields cur y y) as (-> & _).
      apply effects_pass_done. }
  unfold fetchExam, fullscreen_on_start.
  rewrite (exam_deps_same cur y), (start_deps_same cur y) by done.
  unfold fullscreen_release, fullscreen_tracking, release_deps_changed.
  rewrite (start_deps_same cur y) by done.
  rewrite F3, F5, !Bool.eqb_reflx. cbn [andb orb].
  destruct Hfs as [Hsame|[Hflag Hrel]].
  - rewrite Hsame, Bool.eqb_reflx. done.
  - rewrite F3, F5 in Hrel. rewrite Hrel, andb_false_r.
    destruct (negb _); [|done]. by apply set_isHandlingExit_same.
Qed.

(** X17: the effects settle within the two renders of a step: a third
    render, with the dependencies of every effect compared to those of the
    second, has no effect left to run and changes nothing. *)
Theorem effects_have_settled e s :
  effects_pass (effects_pass s (handle e s)) (step e s) = step e s.
Proof. unfold step. apply pass_settled, effects_pass_done. Qed.

End Quiescent.

Section Retry.

Lemma step_denied s :
  acknowledged s →
  acknowledged (step (RetryTimerFires false) s)
  ∧ exit_reports (step (RetryTimerFires false) s) = exit_reports s.
Proof.
  intros (Hrun & Hdoc & Hisf & Htr & Hflag & Htimer).
  destruct (retryTimers s) as [|n] eqn:Hn; [done|].
  assert (Hh : handle (RetryTimerFires false) s
               = set_retryTimers (S n) (set_retryTimers n s)).
  { cbn [handle]. by rewrite Hn. }
  destruct (step_running_fields (RetryTimerFires false) s)
    as (E1 & E2 & E3 & E4 & E5 & E6 & E7 & E8).
  - by rewrite Hh.
  - by rewrite Hh.
  - rewrite Hh. by apply start_deps_same.
  - rewrite Hh. by apply exam_deps_same.
  - rewrite Hh in *. unfold acknowledged.
    rewrite E1, E2, E3, E4, E5, E7, E8. cbn.
    rewrite Hisf, Hflag. cbn. repeat split; try done.
Qed.

Lemma run_denied n s :
  acknowledged s →
  acknowledged (run (replicate n (RetryTimerFires false)) s)
  ∧ exit_reports (run (replicate n (RetryTimerFires false)) s)
    = exit_reports s.
Proof.
  revert s. induction n as [|n IH]; intros s Hs; [done|].
  cbn [replicate]. rewrite run_cons.
  destruct (step_denied s Hs) as [Hs' Hr'].
  destruct (IH _ Hs') as [Hs'' Hr'']. split; [done|]. by rewrite Hr''.
Qed.

(** X18: when the platform refuses fullscreen, [requestFullscreen] arms
    itself again: after any number of refusals a request is still armed,
    no exit report was sent for them, and the first request that is granted
    puts the attempt back in fullscreen. *)
Theorem refused_fullscreen_is_retried n s :
  acknowledged s →
  acknowledged (run (replicate n (RetryTimerFires false)) s)
  ∧ in_fullscreen
      (run (replicate n (RetryTimerFires false) ++ [RetryTimerFires true]) s)
  ∧ exit_reports
      (run (replicate n (RetryTimerFires false) ++ [RetryTimerFires true]) s)
    = exit_reports s.
Proof.
  intros Hs. destruct (run_denied n s Hs) as [Hs' Hr'].
  split; [done|]. rewrite run_app. cbn [run foldl].
  destruct (step_regain _ Hs') as [Hs'' Hr''].
  split; [done|]. unfold run in *. by rewrite Hr'', Hr'.
Qed.

End Retry.

Section Start.

Lemma or_else_nonempty detail :
  nonempty (Some (or_else detail "Server error")) = true.
Proof. by destruct detail. Qed.

(** X19: when the create request fails (the service cannot be reached,
    answers with an error, or answers without an attempt id), the attempt
    does not start: no attempt id and no student details are stored, the
    palette stays empty and an error message is set.  The details form
    stays on screen, so that the student can send it again, unless another
    exam is being loaded, which shows the loading screen first. *)
Theorem failed_creation_keeps_the_form t exam fs details captured reply :
  let s := run t (init exam fs) in
  attemptId s = None →
  remove_first (AwaitCreate details captured) (pending s) ≠ None →
  creation_failed reply = true →
  let s' := step (Settle (AwaitCreate details captured) reply) s in
  attemptId s' = None ∧ studentDetails s' = None ∧ questionState s' = []
  ∧ nonempty (error s') = true
  ∧ render s' = (if loading s then LoadingScreen else DetailsForm).
Proof.
  intros s Hid Hpend Hfail s'.
  pose proof (reachable_sound t exam fs) as Hs. fold s in Hs.
  assert (Hidle : truthy (attemptId s) = false) by (by rewrite Hid).
  assert (Hsd : studentDetails s = None).
  { pose proof (snd_details s Hs) as H. rewrite Hidle in H.
    by destruct (studentDetails s). }
  destruct (snd_palette s Hs Hidle) as [Hqs _].
  set (e := Settle (AwaitCreate details captured) reply) in *.
  destruct (remove_first (AwaitCreate details captured) (pending s))
    as [rest|] eqn:Hrm; [|done].
  assert (Hh : attemptId (handle e s) = None
             ∧ studentDetails (handle e s) = None
             ∧ questionState (handle e s) = []
             ∧ nonempty (error (handle e s)) = true
             ∧ loading (handle e s) = loading s).
  { unfold e. cbn [handle]. rewrite Hrm. cbn [resume]. unfold resume_create.
    destruct reply as [m|d|[i|r|]].
    - done.
    - cbn [error set_error attemptId studentDetails questionState loading
           set_pending].
      by rewrite or_else_nonempty.
    - cbn in Hfail. apply negb_true_iff in Hfail. by rewrite Hfail.
    - done.
    - done. }
  destruct Hh as (H1 & H2 & H3 & H4 & H5).
  destruct (step_keeps e s) as (_ & _ & K3 & _ & K5 & _ & _ & K8 & _).
  destruct (step_loading e s) as (L1 & L2 & _).
  { by apply handle_examId. }
  fold s' in K3, K5, K8, L1, L2.
  rewrite H1 in K5. rewrite H2 in K8. rewrite H3 in K3. rewrite H5 in L1.
  repeat split; try done.
  - by rewrite L2.
  - unfold render. rewrite L1, K8. by destruct (loading s).
Qed.

(** With the address gone to another exam before the reply, the failed
    start ends on the loading screen. *)
Example failed_creation_while_loading :
  let s := run reloading_trace (init 1 false) in
  render (step (Settle (AwaitCreate sample_details sample_questions)
                  (HttpError "Exam not found")) s)
  = LoadingScreen.
Proof. vm_compute. done. Qed.

End Start.

Section Results.

Lemma time_expiry_results x :
  results_wait_for_submit x → results_wait_for_submit (time_expiry x).
Proof.
  intros Hx. unfold time_expiry.
  destruct (expiry_condition x); [|done].
  destruct (attemptId x); [|done].
  unfold results_wait_for_submit in *. cbn. intros Hsub.
  destruct (Hx Hsub) as (H1 & H2 & H3).
  rewrite forallb_app, count_app, H2, H3. done.
Qed.

Lemma effects_pass_results old cur :
  results_wait_for_submit cur →
  results_wait_for_submit (effects_pass old cur).
Proof.
  intros Hc. unfold effects_pass. apply time_expiry_results.
  destruct (before_expiry_fields old cur cur)
    as (_ & _ & _ & Y4 & Y5 & Y6 & Y7 & _).
  unfold results_wait_for_submit. by rewrite Y4, Y5, Y6, Y7.
Qed.

Lemma resume_results k reply rest x :
  results_wait_for_submit x → remove_first k (pending x) = Some rest →
  results_wait_for_submit (resume k reply (set_pending rest x)).
Proof.
  intros Hx Hrm. unfold results_wait_for_submit in *.
  destruct (submitted x) eqn:Hsub.
  - destruct k, reply as [m|d|[i|r|]]; cbn;
      unfold resume_create, resume_manual_submit, resume_manual_results,
        resume_auto_submit, store_results, resume_exit_report, fetch;
      cbn; rewrite ?Hsub; try done.
    destruct (truthy i); cbn; by rewrite Hsub.
  - destruct (Hx eq_refl) as (H1 & H2 & H3).
    destruct (remove_first_forallb _ k _ rest Hrm H2) as [Hk Hrest].
    destruct k; try discriminate Hk;
      destruct reply as [m|d|[i|r|]]; cbn;
      unfold resume_create, resume_manual_submit, resume_manual_results,
        resume_auto_submit, store_results, resume_exit_report, fetch;
      cbn; rewrite ?Hsub; try done.
    destruct (truthy i); cbn; by rewrite Hsub.
Qed.

Lemma forallb_exit_reports ks :
  Forall (λ k, k = AwaitExitReport) ks →
  forallb (λ k, negb (is_results_wait k)) ks = true.
Proof. induction 1 as [|k ks -> _ IH]; [done|]. cbn. exact IH. Qed.

Lemma handle_results e s :
  results_wait_for_submit s → results_wait_for_submit (handle e s).
Proof.
  intros Hold. destruct e; cbn [handle].
  - destruct (loads s); exact Hold.
  - destruct (loads s); exact Hold.
  - destruct (render s); try exact Hold.
    unfold results_wait_for_submit in *. cbn. intros Hsub.
    destruct (Hold Hsub) as (H1 & H2 & H3).
    rewrite forallb_app, count_app, H2, H3. done.
  - destruct (remove_first k (pending s)) eqn:Hrm; [|exact Hold].
    by apply resume_results.
  - destruct (countdown_running s); exact Hold.
  - destruct (render s); try exact Hold.
    destruct (action_enabled _ _ _); exact Hold.
  - destruct (render s); try exact Hold.
    destruct (submit_button_enabled s); [|exact Hold].
    unfold handleSubmit. destruct (attemptId s) eqn:Hid; [|exact Hold].
    destruct (negb (truthy (Some z))), (submitted s) eqn:Hsub',
      (negb confirmed); try exact Hold.
    unfold results_wait_for_submit in *. cbn. intros _.
    destruct (Hold Hsub') as (H1 & H2 & H3).
    rewrite forallb_app, count_app, H2, H3. done.
  - exact Hold.
  - destruct (handle_detections_sent ds s) as (rs & ks & Hs & Hp & Hrs & Hks).
    destruct (handle_detections_frame ds s)
      as (_ & _ & F3 & _ & _ & _ & _ & _ & F9 & _).
    cbn [handle] in Hs, Hp, F3, F9.
    unfold results_wait_for_submit in *. rewrite F3, F9, Hs, Hp.
    intros Hsub. destruct (Hold Hsub) as (H1 & H2 & H3).
    rewrite forallb_app, count_app, H2, H3, forallb_exit_reports by done.
    rewrite (exit_reports_only is_results_request rs); [done| |done].
    by intros [].
  - destruct (startTimer s); [|exact Hold]. destruct granted; exact Hold.
  - destruct (retryTimers s); [exact Hold|]. destruct granted; exact Hold.
  - exact Hold.
Qed.

Lemma run_results t s :
  results_wait_for_submit s → results_wait_for_submit (run t s).
Proof.
  revert s. induction t as [|e t IH]; intros s Hs; [done|].
  rewrite run_cons. apply IH. unfold step.
  by apply effects_pass_results, effects_pass_results, handle_results.
Qed.

(** X20: a result is fetched and shown only after a submit request was
    accepted.  In every reachable state that is not submitted no result is
    stored, no results request has been sent and none is awaited. *)
Theorem results_only_after_submit t exam fs :
  let s := run t (init exam fs) in
  submitted s = false →
  results s = None
  ∧ length (List.filter is_results_request (sent s)) = 0
  ∧ forallb (λ k, negb (is_results_wait k)) (pending s) = true.
Proof.
  intros s Hsub.
  destruct (run_results t (init exam fs)) as (H1 & H2 & H3); [done|done|].
  done.
Qed.

End Results.

Section DoubleClick.

Lemma render_exam_running s :
  render s = ExamScreen → submit_button_enabled s = true →
  attempt_running s = true ∧ submitting s = false.
Proof.
  unfold render, submit_button_enabled, attempt_running.
  destruct (loading s); [done|].
  destruct (is_some (studentDetails s)); [|done]. cbn.
  destruct (_ !! _); [|done]. destruct (nonempty _); [done|].
  destruct (timeOver s), (submitted s); cbn; try done.
  destruct (submitting s); [done|]. cbn.
  by destruct (truthy (attemptId s)).
Qed.

Lemma fullscreen_tracking_same x :
  fullscreen_tracking x x x = x.
Proof.
  unfold fullscreen_tracking.
  by rewrite (start_deps_same x x), Bool.eqb_reflx.
Qed.

Lemma step_press_while_submitting confirmed s :
  attempt_running s = true → timeRemaining s ≠ 0%Z → submitting s = true →
  step (ClickSubmit confirmed) s = s.
Proof.
  intros Hrun Htr Hsub.
  assert (Hh : handle (ClickSubmit confirmed) s = s).
  { cbn [handle]. destruct (render s); try done.
    unfold submit_button_enabled. rewrite Hsub.
    by rewrite orb_true_r. }
  rewrite step_running; rewrite Hh; try done.
  - apply fullscreen_tracking_same.
  - by apply start_deps_same.
  - by apply exam_deps_same.
Qed.

(** X21: however often the student presses Submit while the request is on
    its way, one submit request is sent: the first confirmed click sends
    it, and until the reply arrives further clicks do nothing. *)
Theorem repeated_clicks_send_one_request cs s :
  render s = ExamScreen → submit_button_enabled s = true →
  timeRemaining s ≠ 0%Z →
  submit_requests (run (ClickSubmit true :: map ClickSubmit cs) s)
  = submit_requests s + 1.
Proof.
  intros Hr Hb Htr.
  destruct (render_exam_running s Hr Hb) as [Hrun Hsub].
  destruct (running_fields s Hrun) as (d & z & Hsd & Hid & Hz & Hsb & Hto).
  assert (Hh : handle (ClickSubmit true) s
               = fetch (ReqSubmit z (build_answers (questions s)
                                       (questionState s)))
                   (AwaitManualSubmit z)
                   (set_error None (set_submitting true s))).
  { cbn [handle]. rewrite Hr, Hb. unfold handleSubmit.
    rewrite Hid, Hsb. cbn. by rewrite (proj2 (Z.eqb_neq z 0) Hz). }
  rewrite run_cons.
  assert (Hstep : step (ClickSubmit true) s
                  = fullscreen_tracking s (handle (ClickSubmit true) s)
                      (handle (ClickSubmit true) s)).
  { apply step_running; rewrite Hh; cbn; try done.
    - by apply start_deps_same.
    - by apply exam_deps_same. }
  set (s1 := step (ClickSubmit true) s) in *.
  assert (H1 : attempt_running s1 = true ∧ timeRemaining s1 ≠ 0%Z
               ∧ submitting s1 = true
               ∧ submit_requests s1 = submit_requests s + 1).
  { rewrite Hstep, Hh. unfold fullscreen_tracking, submit_requests.
    destruct (_ || _); cbn; rewrite count_app; cbn; repeat split; done. }
  destruct H1 as (R1 & R2 & R3 & <-). clearbody s1.
  clear -R1 R2 R3. induction cs as [|c cs IH]; [done|].
  cbn [map]. rewrite run_cons.
  by rewrite step_press_while_submitting.
Qed.

End DoubleClick.

Section Alignment.

Lemma handleClear_length ci prev : length (handleClear ci prev) = length prev.
Proof.
  unfold handleClear. destruct (prev !! ci); [|done]. by rewrite length_insert.
Qed.

Lemma handleSaveAndMarkForReview_length ci prev :
  length (handleSaveAndMarkForReview ci prev) = length prev.
Proof.
  unfold handleSaveAndMarkForReview. destruct (prev !! ci); [|done].
  by rewrite length_insert.
Qed.

Lemma markForReview_length ci prev :
  length (markForReview ci prev) = length prev.
Proof.
  unfold markForReview. destruct (prev !! ci); [|done].
  by rewrite length_insert.
Qed.

(** An enabled control keeps the length of the palette and leaves the
    current index on a question. *)
Lemma apply_action_aligned n a ci prev :
  ci < n → length prev = n → action_enabled n ci a = true →
  length (apply_action n a (ci, prev)).2 = n
  ∧ (apply_action n a (ci, prev)).1 < n.
Proof.
  intros Hci Hlen Hen.
  destruct a; cbn in *;
    unfold handleSaveAndNext, handleMarkForReviewAndNext, has_next;
    repeat match goal with
           | |- context [(?x <? ?y)%Z] => destruct (Z.ltb_spec x y)
           end;
    cbn;
    rewrite ?seen_length, ?handleSelectOption_length, ?handleClear_length,
      ?handleSaveAndMarkForReview_length, ?markForReview_length;
    try (split; [done|lia]).
  apply Nat.ltb_lt in Hen. done.
Qed.

Lemma render_exam_index s :
  render s = ExamScreen → currentIndex s < length (questions s).
Proof.
  unfold render. destruct (loading s); [done|].
  destruct (negb _); [done|].
  destruct (questions s !! currentIndex s) eqn:Hq; [|done].
  intros _. by eapply lookup_lt_Some.
Qed.

Lemma render_not_loading s sc :
  render s = sc → sc ≠ LoadingScreen → loading s = false.
Proof. unfold render. destruct (loading s); [|done]. by intros <-. Qed.

Lemma remove_first_Forall (P : Pending → Prop) k l rest :
  remove_first k l = Some rest → Forall P l → P k ∧ Forall P rest.
Proof.
  revert rest. induction l as [|x l IH]; intros rest; simpl; [done|].
  intros Hrm Hall. apply Forall_cons in Hall as [Hx Hl].
  destruct (decide (x = k)) as [->|Hne].
  - injection Hrm as <-. done.
  - destruct (remove_first k l) as [rest'|]; [|done]. injection Hrm as <-.
    destruct (IH rest' eq_refl Hl) as [Hk Hrest]. split; [done|].
    by constructor.
Qed.

(** A continuation parks no new create request. *)
Lemma resume_pending k reply rest x :
  ∃ ks, pending (resume k reply (set_pending rest x)) = rest ++ ks
        ∧ Forall (λ k, is_create k = false) ks.
Proof.
  destruct k, reply as [m|d|[i|r|]]; cbn;
    unfold resume_create, resume_manual_submit, resume_manual_results,
      resume_auto_submit, store_results, resume_exit_report, fetch;
    case_ifs; cbn;
    first [ by (exists []; rewrite app_nil_r)
          | (eexists [_]; split; [done|]; by repeat constructor) ].
Qed.

Lemma captures_other qs ks :
  Forall (λ k, is_create k = false) ks → Forall (captures qs) ks.
Proof. intros H. eapply Forall_impl; [exact H|]. by intros []. Qed.

Lemma captures_exit_reports qs ks :
  Forall (λ k, k = AwaitExitReport) ks → Forall (captures qs) ks.
Proof. intros H. eapply Forall_impl; [exact H|]. by intros ? ->. Qed.

Lemma resume_aligned k reply rest x :
  captures (questions x) k →
  palette_aligned x →
  palette_aligned (resume k reply (set_pending rest x)).
Proof.
  intros Hk Ha. unfold palette_aligned in *.
  destruct k, reply as [m|d|[i|r|]]; cbn;
    unfold resume_create, resume_manual_submit, resume_manual_results,
      resume_auto_submit, store_results, resume_exit_report, fetch in *;
    cbn; try exact Ha.
  destruct (truthy i); cbn; [|exact Ha].
  intros _. cbn in Hk. subst captured.
  unfold initialState. rewrite length_imap. auto.
Qed.

Lemma handle_single e s :
  is_reload e = false →
  single_load s → palette_aligned s →
  single_load (handle e s) ∧ palette_aligned (handle e s).
Proof.
  intros He [Hl Hc] Ha.
  assert (Hold : single_load s ∧ palette_aligned s) by done.
  destruct e; try discriminate He; cbn [handle].
  - destruct (loads s) as [|n] eqn:Hn; [exact Hold|].
    destruct Hl as [Hl|(Hl & _ & Hid & Hp)]; [done|].
    injection Hl as ->. unfold single_load, palette_aligned. cbn.
    rewrite Hid, Hp. cbn. split; [split; [by left|done]|done].
  - destruct (loads s) as [|n] eqn:Hn; [exact Hold|].
    destruct Hl as [Hl|(Hl & _ & Hid & Hp)]; [done|].
    injection Hl as ->. unfold single_load, palette_aligned. cbn.
    rewrite Hid, Hp. cbn. split; [split; [by left|done]|done].
  - destruct (render s) eqn:Hr; try exact Hold.
    pose proof (render_not_loading s _ Hr) as Hld.
    destruct Hl as [Hl|(_ & Hl & _)]; [|by rewrite Hld in Hl].
    split; [|exact Ha]. unfold single_load. cbn. split; [by left|].
    apply Forall_app. split; [done|]. by repeat constructor.
  - destruct (remove_first k (pending s)) as [rest|] eqn:Hrm; [|exact Hold].
    destruct Hl as [Hl|(_ & _ & _ & Hp)]; [|by rewrite Hp in Hrm].
    destruct (remove_first_Forall _ _ _ _ Hrm Hc) as [Hk Hrest].
    destruct (resume_frame k reply rest s) as (_ & Fq & _ & _ & Fl & _).
    destruct (resume_pending k reply rest s) as (ks & Hp & Hks).
    split; [|by apply resume_aligned]. unfold single_load.
    rewrite Fl, Fq, Hp. split; [by left|].
    apply Forall_app. split; [done|]. by apply captures_other.
  - destruct (countdown_running s); exact Hold.
  - destruct (render s) eqn:Hr; try exact Hold.
    destruct (action_enabled _ _ _) eqn:Hen; [|exact Hold].
    split; [exact (conj Hl Hc)|].
    pose proof (render_exam_index s Hr) as Hci.
    pose proof (apply_action_aligned _ a _ (questionState s) Hci) as Hm.
    set (m := apply_action _ _ _) in *. clearbody m.
    unfold palette_aligned in *. cbn. intros Hid.
    destruct (Ha Hid) as [Hlen _]. destruct (Hm Hlen Hen).
    split; [done|]. by right.
  - destruct (render s) eqn:Hr; try exact Hold.
    pose proof (render_not_loading s _ Hr) as Hld.
    destruct Hl as [Hl|(_ & Hl & _)]; [|by rewrite Hld in Hl].
    destruct (submit_button_enabled s); [|exact Hold].
    unfold handleSubmit. destruct (attemptId s) eqn:Hid; [|exact Hold].
    destruct (negb (truthy (Some z))), (submitted s), (negb confirmed);
      try exact Hold.
    split; [|exact Ha]. unfold single_load, fetch. cbn. split; [by left|].
    apply Forall_app. split; [done|]. by repeat constructor.
  - exact Hold.
  - destruct (attempt_running s) eqn:Hrun; [|exact Hold].
    destruct (running_fields s Hrun) as (? & ? & _ & Hz & _).
    destruct Hl as [Hl|(_ & _ & Hid & _)]; [|by rewrite Hid in Hz].
    destruct (detections_sent s ds s) as (rs & ks & _ & Hp & _ & Hks).
    destruct (detections_frame s ds s)
      as (_ & F2 & _ & _ & _ & F6 & F7 & F8 & _ & _ & F11 & _ & _ & F14 & _).
    unfold single_load, palette_aligned in *.
    rewrite F2, F6, F7, F8, F14, Hp. split; [split; [by left|]|exact Ha].
    apply Forall_app. split; [done|]. by apply captures_exit_reports.
  - destruct (startTimer s); [|exact Hold]. destruct granted; exact Hold.
  - destruct (retryTimers s); [exact Hold|]. destruct granted; exact Hold.
Qed.

Lemma time_expiry_pending x :
  ∃ ks, pending (time_expiry x) = pending x ++ ks
        ∧ Forall (λ k, is_create k = false) ks
        ∧ (attemptId x = None → ks = []).
Proof.
  unfold time_expiry. destruct (expiry_condition x) eqn:Hc.
  - destruct (attemptId x) eqn:Hid.
    + exists [AwaitAutoSubmit z]. cbn. by repeat constructor.
    + exists []. by rewrite app_nil_r.
  - exists []. by rewrite app_nil_r.
Qed.

Lemma effects_pass_single old cur :
  exam_deps_changed old cur = false →
  single_load cur → palette_aligned cur →
  single_load (effects_pass old cur) ∧ palette_aligned (effects_pass old cur).
Proof.
  intros Hdeps [Hl Hc] Ha.
  destruct (effects_pass_frame old cur)
    as (_ & F2 & _ & _ & F5 & F6 & F7 & _).
  destruct (effects_pass_loading old cur Hdeps) as (L1 & _ & L3).
  split; [|unfold palette_aligned; by rewrite F2, F5, F6, F7].
  unfold single_load. rewrite F2, F5, L1, L3.
  unfold effects_pass.
  destruct (time_expiry_pending
              (fullscreen_release old cur
                 (fullscreen_tracking old cur
                    (fullscreen_on_start old cur (fetchExam old cur cur)))))
    as (ks & -> & Hks & Hnone).
  destruct (before_expiry_fields old cur cur)
    as (_ & _ & _ & _ & -> & _ & _ & Y8 & _).
  rewrite Y8 in Hnone. split.
  - destruct Hl as [Hl|(Hl1 & Hl2 & Hid & Hp)]; [by left|right].
    rewrite (Hnone Hid), app_nil_r. done.
  - apply Forall_app. split; [done|]. by apply captures_other.
Qed.

Lemma step_single e s :
  is_reload e = false →
  single_load s → palette_aligned s →
  single_load (step e s) ∧ palette_aligned (step e s).
Proof.
  intros He Hl Ha. unfold step.
  destruct (handle_single e s He Hl Ha) as [Hl1 Ha1].
  pose proof (handle_examId e s He) as Hexam.
  destruct (effects_pass_single s (handle e s)) as [Hl2 Ha2]; try done.
  { by apply exam_deps_same. }
  apply effects_pass_single; try done.
  apply exam_deps_same.
  by destruct (effects_pass_frame s (handle e s))
    as (_ & _ & _ & _ & _ & _ & _ & _ & _ & ->).
Qed.

Lemma run_single t s :
  one_exam t = true → single_load s → palette_aligned s →
  single_load (run t s) ∧ palette_aligned (run t s).
Proof.
  revert s. induction t as [|e t IH]; intros s Ht Hl Ha; [done|].
  cbn in Ht. apply andb_prop in Ht as [He Ht]. apply negb_true_iff in He.
  rewrite run_cons. destruct (step_single e s He Hl Ha). by apply IH.
Qed.

(** X9: as long as the screen stays on the exam it was opened for, the
    palette has, from the moment the attempt exists, exactly one entry per
    question of the exam, and the current index addresses one of the
    questions (it is 0 for an exam without questions): the handlers never
    index outside the palette. *)
Theorem palette_matches_questions t exam fs :
  let s := run t (init exam fs) in
  one_exam t = true → attemptId s ≠ None →
  length (questionState s) = length (questions s)
  ∧ (currentIndex s = 0 ∨ currentIndex s < length (questions s)).
Proof.
  intros s Ht Hid.
  pose proof (reachable_sound t exam fs) as Hs. fold s in Hs.
  destruct (run_single t (init exam fs) Ht) as [_ Ha].
  - split; [right|]; done.
  - intros [=].
  - apply Ha. fold s. destruct (snd_id s Hs); done.
Qed.

(** A second exam loaded over the attempt leaves the palette as it was: it
    has two entries for three questions. *)
Example second_exam_keeps_the_palette :
  let s := run second_exam_trace (init 1 false) in
  attemptId s = Some 7%Z ∧ length (questionState s) = 2
  ∧ length (questions s) = 3.
Proof. vm_compute. done. Qed.

End Alignment.

Section SubmitLog.

Lemma extends_log_refl qs l : extends_log qs l l.
Proof. exists []. by rewrite app_nil_r. Qed.

Lemma extends_log_trans qs l1 l2 l3 :
  extends_log qs l1 l2 → extends_log qs l2 l3 → extends_log qs l1 l3.
Proof.
  intros (r1 & -> & H1) (r2 & -> & H2). exists (r1 ++ r2).
  split; [by rewrite app_assoc|]. by apply Forall_app.
Qed.

Lemma extends_log_one qs l r :
  answers_match qs r → extends_log qs l (l ++ [r]).
Proof. intros Hr. exists [r]. split; [done|]. by constructor. Qed.

Lemma build_answers_match qs st attempt :
  answers_match qs (ReqSubmit attempt (build_answers qs st)).
Proof.
  split; [apply build_answers_ids | apply build_answers_from_one].
Qed.

Lemma exit_reports_match qs rs :
  Forall (λ r, is_exit_report r = true) rs → Forall (answers_match qs) rs.
Proof. intros H. eapply Forall_impl; [exact H|]. by intros []. Qed.

Lemma time_expiry_log x :
  extends_log (questions x) (sent x) (sent (time_expiry x)).
Proof.
  unfold time_expiry.
  destruct (expiry_condition x); [|apply extends_log_refl].
  destruct (attemptId x); [|apply extends_log_refl].
  cbn. apply extends_log_one, build_answers_match.
Qed.

Lemma effects_pass_log old cur :
  extends_log (questions cur) (sent cur) (sent (effects_pass old cur)).
Proof.
  unfold effects_pass.
  destruct (before_expiry_fields old cur cur)
    as (_ & Hq & _ & Hsent & _).
  rewrite <- Hq, <- Hsent. apply time_expiry_log.
Qed.

Lemma resume_log k reply rest x :
  extends_log (questions x) (sent x)
    (sent (resume k reply (set_pending rest x))).
Proof.
  destruct k, reply as [m|d|[i|r|]]; cbn;
    unfold resume_create, resume_manual_submit, resume_manual_results,
      resume_auto_submit, store_results, resume_exit_report, fetch;
    cbn;
    repeat match goal with
           | |- context [if ?c then _ else _] => destruct c; cbn
           end;
    first [apply extends_log_refl | by apply extends_log_one].
Qed.

(** What a handler sends lists the questions on screen when it is done. *)
Lemma handle_log e s :
  extends_log (questions (handle e s)) (sent s) (sent (handle e s)).
Proof.
  destruct e; cbn [handle].
  - destruct (loads s); apply extends_log_refl.
  - destruct (loads s); apply extends_log_refl.
  - destruct (render s); try apply extends_log_refl.
    by apply extends_log_one.
  - destruct (remove_first k (pending s)); [|apply extends_log_refl].
    destruct (resume_frame k reply l s) as (_ & -> & _).
    apply resume_log.
  - destruct (countdown_running s); apply extends_log_refl.
  - destruct (render s); try apply extends_log_refl.
    destruct (action_enabled _ _ _); apply extends_log_refl.
  - destruct (render s); try apply extends_log_refl.
    destruct (submit_button_enabled s); [|apply extends_log_refl].
    unfold handleSubmit. destruct (attemptId s) eqn:Hid;
      [|apply extends_log_refl].
    destruct (negb (truthy (Some z))), (submitted s), (negb confirmed);
      try apply extends_log_refl.
    cbn. apply extends_log_one, build_answers_match.
  - apply extends_log_refl.
  - destruct (handle_detections_sent ds s) as (rs & ks & Hs & _ & Hrs & _).
    cbn [handle] in Hs. rewrite Hs. exists rs. split; [done|].
    by apply exit_reports_match.
  - destruct (startTimer s); [|apply extends_log_refl].
    destruct granted; apply extends_log_refl.
  - destruct (retryTimers s); [apply extends_log_refl|].
    destruct granted; apply extends_log_refl.
  - apply extends_log_refl.
Qed.

Lemma step_log e s :
  extends_log (questions (step e s)) (sent s) (sent (step e s)).
Proof.
  destruct (step_keeps e s) as (-> & _).
  pose proof (handle_log e s) as H0.
  unfold step. set (cur := handle e s) in *.
  pose proof (effects_pass_log s cur) as H1.
  set (cur' := effects_pass s cur) in *.
  pose proof (effects_pass_log cur cur') as H2.
  destruct (effects_pass_frame s cur) as (_ & _ & _ & _ & Hq & _).
  fold cur' in Hq. rewrite Hq in H2.
  eapply extends_log_trans; [exact H0|].
  eapply extends_log_trans; [exact H1|exact H2].
Qed.

(** Every request in the log was sent by one of the events, and matches
    the questions that were on screen when that event was done. *)
Lemma run_log t s r :
  r ∈ sent (run t s) →
  r ∈ sent s
  ∨ ∃ t1 e t2 rs,
      t = t1 ++ e :: t2
      ∧ sent (step e (run t1 s)) = sent (run t1 s) ++ rs
      ∧ r ∈ rs
      ∧ answers_match (questions (step e (run t1 s))) r.
Proof.
  induction t as [|e t IH] using rev_ind; [by left|].
  rewrite run_app. cbn [run foldl].
  destruct (step_log e (run t s)) as (rs & Hsent & Hrs). rewrite Hsent.
  intros [Hin|Hin]%elem_of_app.
  - destruct (IH Hin) as [?|(t1 & e1 & t2 & rs1 & -> & H1 & H2 & H3)];
      [by left|right].
    exists t1, e1, (t2 ++ [e]), rs1. by rewrite <- app_assoc.
  - right. exists t, e, [], rs. repeat split; try done.
    rewrite Forall_forall in Hrs. by apply Hrs.
Qed.

(** X10: every submit request that leaves the screen, whether the student
    or the timer sent it, lists the questions that were on screen when it
    was sent: it was sent by one of the events of the run, and it has one
    answer for each of the questions loaded when that event was done, in
    their order, and names options counted from 1 only. *)
Theorem submit_requests_match_exam t exam fs attempt answers :
  ReqSubmit attempt answers ∈ sent (run t (init exam fs)) →
  ∃ t1 e t2 rs,
    t = t1 ++ e :: t2
    ∧ sent (step e (run t1 (init exam fs)))
      = sent (run t1 (init exam fs)) ++ rs
    ∧ ReqSubmit attempt answers ∈ rs
    ∧ map question_id answers
      = map question_ident (questions (step e (run t1 (init exam fs))))
    ∧ length answers
      = length (questions (step e (run t1 (init exam fs))))
    ∧ Forall (λ a, selected_option a ≠ Some 0) answers.
Proof.
  intros Hin.
  destruct (run_log t (init exam fs) _ Hin)
    as [H|(t1 & e & t2 & rs & Ht & Hs & Hr & Hm)].
  - cbn in H. by apply elem_of_nil in H.
  - exists t1, e, t2, rs. destruct Hm as [Hids Hopts].
    repeat split; try done.
    rewrite <- (length_map question_id answers), Hids. apply length_map.
Qed.

(** Once a second exam is loaded the log still holds the requests that
    list the questions of the first. *)
Example earlier_request_lists_the_first_exam :
  let s := run (sample_start
                ++ [ClickSubmit true; ExamIdChanged 2;
                    ExamLoaded [mkQuestion 21 "other" ["a"; "b"]] 5])
             (init 1 false) in
  sent s = [ReqCreateAttempt 1 sample_details;
            ReqSubmit 7 [mkAnswer 11 None; mkAnswer 12 None]]
  ∧ map question_ident (questions s) = [21%Z].
Proof. vm_compute. done. Qed.

End SubmitLog.

Section SecondExam.

Lemma exam_deps_differ x y :
  examId x ≠ examId y → exam_deps_changed x y = true.
Proof.
  unfold exam_deps_changed. intros H.
  by destruct (Z.eqb_spec (examId x) (examId y)).
Qed.

(** The render after the [examId] prop changed starts [fetchExam]. *)
Lemma pass_starts_loading old cur :
  exam_deps_changed old cur = true →
  let y := effects_pass old cur in
  loading y = true ∧ error y = None ∧ loads y = S (loads cur).
Proof.
  intros Hdeps. cbv zeta. unfold effects_pass.
  assert (H0 : loading (fetchExam old cur cur) = true
               ∧ error (fetchExam old cur cur) = None
               ∧ loads (fetchExam old cur cur) = S (loads cur)).
  { unfold fetchExam. by rewrite Hdeps. }
  revert H0. generalize (fetchExam old cur cur). intros x Hx.
  unfold fullscreen_on_start, fullscreen_tracking, fullscreen_release,
    exitFullscreen, time_expiry, fetch.
  case_ifs; exact Hx.
Qed.

(** X22: when the address goes from one exam to another the screen loads
    an exam over the attempt on the first.  The loading screen is shown;
    once a response of [fetchExam] has arrived, its questions and its
    duration have replaced those of the first exam, while the attempt id,
    the student details, the palette with its answers, the current index
    and [submitted] are those of the attempt on the first exam. *)
Theorem second_exam_over_the_attempt exam qs duration_minutes s :
  exam ≠ examId s →
  let s1 := step (ExamIdChanged exam) s in
  let s2 := step (ExamLoaded qs duration_minutes) s1 in
  render s1 = LoadingScreen
  ∧ questions s2 = qs ∧ timeRemaining s2 = (duration_minutes * 60)%Z
  ∧ loading s2 = false
  ∧ attemptId s2 = attemptId s ∧ studentDetails s2 = studentDetails s
  ∧ questionState s2 = questionState s ∧ currentIndex s2 = currentIndex s
  ∧ submitted s2 = submitted s.
Proof.
  intros Hne s1 s2.
  assert (H1 : loading s1 = true ∧ loads s1 = S (loads s)).
  { unfold s1, step. set (cur := handle (ExamIdChanged exam) s).
    destruct (pass_starts_loading s cur) as (L1 & _ & L3).
    { apply exam_deps_differ. cbn. congruence. }
    destruct (effects_pass_loading cur (effects_pass s cur)) as (-> & _ & ->).
    { apply exam_deps_same.
      by destruct (effects_pass_frame s cur)
        as (_ & _ & _ & _ & _ & _ & _ & _ & _ & ->). }
    done. }
  destruct H1 as [Hld Hloads].
  destruct (step_keeps (ExamIdChanged exam) s)
    as (_ & K2 & K3 & _ & K5 & K6 & _ & K8 & _).
  fold s1 in K2, K3, K5, K6, K8. cbn [handle] in K2, K3, K5, K6, K8.
  assert (Hh : handle (ExamLoaded qs duration_minutes) s1
               = set_loads (loads s)
                   (set_loading false
                      (set_timeRemaining (duration_minutes * 60)%Z
                         (set_questions qs s1)))).
  { cbn [handle]. by rewrite Hloads. }
  destruct (step_keeps (ExamLoaded qs duration_minutes) s1)
    as (J1 & J2 & J3 & _ & J5 & J6 & _ & J8 & _).
  destruct (step_loading (ExamLoaded qs duration_minutes) s1) as (L1 & _).
  { by apply handle_examId. }
  pose proof (step_timeRemaining (ExamLoaded qs duration_minutes) s1) as T.
  fold s2 in J1, J2, J3, J5, J6, J8, L1, T. rewrite Hh in *. cbn in *.
  split; [unfold render; by rewrite Hld|].
  repeat split; congruence.
Qed.

End SecondExam.

Section Coalesced.

(** X23: detections that come one render at a time are coalesced.  When
    React has rendered again before the next detection is dispatched, [n]
    losses of fullscreen, each noticed any number of times by change events
    and 500 ms checks, before and after the warning is dismissed and after
    fullscreen is granted again, send exactly [n] reports. *)
Theorem losses_noticed_render_by_render eps s :
  in_fullscreen s →
  in_fullscreen (run (concat (map episode_events eps)) s)
  ∧ exit_reports (run (concat (map episode_events eps)) s)
    = exit_reports s + length eps
  ∧ losses (concat (map episode_events eps)) s = length eps.
Proof. apply run_episodes. Qed.

End Coalesced.

(** * The further properties on the sample session *)

Section Samples.

Lemma palette_matches_questions_witness :
  one_exam (sample_start ++ [Click Next; Click Next; Click Back]) = true
  ∧ attemptId (run (sample_start ++ [Click Next; Click Next; Click Back])
                 (init 1 false)) ≠ None
  ∧ length (questionState
              (run (sample_start ++ [Click Next; Click Next; Click Back])
                 (init 1 false)))
    = length (questions
                (run (sample_start ++ [Click Next; Click Next; Click Back])
                   (init 1 false)))
  ∧ (currentIndex
       (run (sample_start ++ [Click Next; Click Next; Click Back])
          (init 1 false)) = 0
     ∨ currentIndex
         (run (sample_start ++ [Click Next; Click Next; Click Back])
            (init 1 false))
       < length (questions
                   (run (sample_start ++ [Click Next; Click Next; Click Back])
                      (init 1 false)))).
Proof.
  assert (H : attemptId
                (run (sample_start ++ [Click Next; Click Next; Click Back])
                   (init 1 false)) ≠ None) by (vm_compute; discriminate).
  split; [reflexivity|]. split; [exact H|].
  exact (palette_matches_questions
           (sample_start ++ [Click Next; Click Next; Click Back]) 1 false
           eq_refl H).
Defined.

Lemma submit_requests_match_exam_witness :
  ReqSubmit 7 [mkAnswer 11 None; mkAnswer 12 None]
    ∈ sent (run race_trace (init 1 false))
  ∧ ∃ t1 e t2 rs,
      race_trace = t1 ++ e :: t2
      ∧ sent (step e (run t1 (init 1 false)))
        = sent (run t1 (init 1 false)) ++ rs
      ∧ ReqSubmit 7 [mkAnswer 11 None; mkAnswer 12 None] ∈ rs
      ∧ map question_id [mkAnswer 11 None; mkAnswer 12 None]
        = map question_ident (questions (step e (run t1 (init 1 false))))
      ∧ length [mkAnswer 11 None; mkAnswer 12 None]
        = length (questions (step e (run t1 (init 1 false))))
      ∧ Forall (λ a, selected_option a ≠ Some 0)
          [mkAnswer 11 None; mkAnswer 12 None].
Proof.
  assert (H : ReqSubmit 7 [mkAnswer 11 None; mkAnswer 12 None]
                ∈ sent (run race_trace (init 1 false))).
  { vm_compute. apply list_elem_of_In. cbn. auto. }
  split; [exact H|].
  exact (submit_requests_match_exam race_trace 1 false 7 _ H).
Defined.

Lemma session_progress_is_kept_witness :
  truthy (attemptId started_state) = true
  ∧ truthy (attemptId
              (run [ExamIdChanged 2; ExamLoaded sample_questions 2;
                    IntervalTick; ClickSubmit true] started_state)) = true.
Proof.
  assert (truthy (attemptId started_state) = true) as H
    by (vm_compute; reflexivity).
  split; [exact H|].
  exact (proj2 (proj2 (session_progress_is_kept
                         [ExamIdChanged 2; ExamLoaded sample_questions 2;
                          IntervalTick; ClickSubmit true]
                         started_state)) H).
Defined.

Lemma accepted_submit_is_last_witness :
  submitted submitted_state = true
  ∧ submitted (run [ClickSubmit true; IntervalTick] submitted_state) = true
  ∧ submit_requests (run [ClickSubmit true; IntervalTick] submitted_state)
    = submit_requests submitted_state.
Proof.
  split; [vm_compute; reflexivity|].
  apply (accepted_submit_is_last [ClickSubmit true; IntervalTick]).
  vm_compute. reflexivity.
Defined.

Lemma no_exit_report_after_the_end_witness :
  finished submitted_state = true
  ∧ exit_reports (run [FullscreenLost; Detections [ByEvent; ByPoll]]
                    submitted_state)
    = exit_reports submitted_state.
Proof.
  split; [vm_compute; reflexivity|].
  apply (no_exit_report_after_the_end
           [FullscreenLost; Detections [ByEvent; ByPoll]]).
  vm_compute. reflexivity.
Defined.


Lemma answers_locked_at_the_end_witness :
  finished submitted_state = true
  ∧ questionState
      (run (map press [PressControl (SelectOption 1); PressSubmit true])
         submitted_state) = questionState submitted_state
  ∧ currentIndex
      (run (map press [PressControl (SelectOption 1); PressSubmit true])
         submitted_state) = currentIndex submitted_state
  ∧ sent
      (run (map press [PressControl (SelectOption 1); PressSubmit true])
         submitted_state) = sent submitted_state.
Proof.
  split; [vm_compute; reflexivity|].
  apply (answers_locked_at_the_end
           [PressControl (SelectOption 1); PressSubmit true]).
  vm_compute. reflexivity.
Defined.

Lemma countdown_only_runs_down_witness :
  no_exam_arrives [IntervalTick; Click Next; ExamIdChanged 2; IntervalTick]
  = true
  ∧ (timeRemaining started_state
     - Z.of_nat
         (ticks [IntervalTick; Click Next; ExamIdChanged 2; IntervalTick])
     ≤ timeRemaining
         (run [IntervalTick; Click Next; ExamIdChanged 2; IntervalTick]
            started_state)
     ≤ timeRemaining started_state)%Z.
Proof.
  split; [reflexivity|].
  apply (countdown_only_runs_down
           [IntervalTick; Click Next; ExamIdChanged 2; IntervalTick]).
  reflexivity.
Defined.

Lemma refused_fullscreen_is_retried_witness :
  acknowledged acknowledged_state
  ∧ acknowledged (run (replicate 3 (RetryTimerFires false)) acknowledged_state)
  ∧ in_fullscreen
      (run (replicate 3 (RetryTimerFires false) ++ [RetryTimerFires true])
         acknowledged_state)
  ∧ exit_reports
      (run (replicate 3 (RetryTimerFires false) ++ [RetryTimerFires true])
         acknowledged_state)
    = exit_reports acknowledged_state.
Proof.
  assert (H : acknowledged acknowledged_state).
  { unfold acknowledged. vm_compute. repeat split; discriminate. }
  split; [exact H|].
  exact (refused_fullscreen_is_retried 3 acknowledged_state H).
Defined.

Lemma failed_creation_keeps_the_form_witness :
  attemptId (run creating_trace (init 1 false)) = None
  ∧ remove_first (AwaitCreate sample_details sample_questions)
      (pending (run creating_trace (init 1 false))) ≠ None
  ∧ creation_failed (HttpError "Exam not found") = true
  ∧ let s' := step (Settle (AwaitCreate sample_details sample_questions)
                      (HttpError "Exam not found"))
                (run creating_trace (init 1 false)) in
    attemptId s' = None ∧ studentDetails s' = None ∧ questionState s' = []
    ∧ nonempty (error s') = true
    ∧ render s' = (if loading (run creating_trace (init 1 false))
                   then LoadingScreen else DetailsForm).
Proof.
  assert (H1 : attemptId (run creating_trace (init 1 false)) = None)
    by (vm_compute; reflexivity).
  assert (H2 : remove_first (AwaitCreate sample_details sample_questions)
                 (pending (run creating_trace (init 1 false))) ≠ None)
    by (vm_compute; discriminate).
  split; [exact H1|]. split; [exact H2|]. split; [reflexivity|].
  exact (failed_creation_keeps_the_form creating_trace 1 false
           sample_details sample_questions (HttpError "Exam not found")
           H1 H2 eq_refl).
Defined.

Lemma results_only_after_submit_witness :
  submitted (run race_trace (init 1 false)) = false
  ∧ results (run race_trace (init 1 false)) = None
  ∧ length (List.filter is_results_request
              (sent (run race_trace (init 1 false)))) = 0
  ∧ forallb (λ k, negb (is_results_wait k))
      (pending (run race_trace (init 1 false))) = true.
Proof.
  assert (H : submitted (run race_trace (init 1 false)) = false)
    by (vm_compute; reflexivity).
  split; [exact H|].
  exact (results_only_after_submit race_trace 1 false H).
Defined.

Lemma repeated_clicks_send_one_request_witness :
  render started_state = ExamScreen
  ∧ submit_button_enabled started_state = true
  ∧ timeRemaining started_state ≠ 0%Z
  ∧ submit_requests
      (run (ClickSubmit true :: map ClickSubmit [true; false; true])
         started_state)
    = submit_requests started_state + 1.
Proof.
  assert (H1 : render started_state = ExamScreen)
    by (vm_compute; reflexivity).
  assert (H2 : submit_button_enabled started_state = true)
    by (vm_compute; reflexivity).
  assert (H3 : timeRemaining started_state ≠ 0%Z)
    by (vm_compute; discriminate).
  split; [exact H1|]. split; [exact H2|]. split; [exact H3|].
  exact (repeated_clicks_send_one_request [true; false; true]
           started_state H1 H2 H3).
Defined.

Lemma second_exam_over_the_attempt_witness :
  2%Z ≠ examId started_state
  ∧ let s1 := step (ExamIdChanged 2) started_state in
    let s2 := step (ExamLoaded [mkQuestion 21 "other" ["a"; "b"]] 5) s1 in
    render s1 = LoadingScreen
    ∧ questions s2 = [mkQuestion 21 "other" ["a"; "b"]]
    ∧ timeRemaining s2 = (5 * 60)%Z
    ∧ loading s2 = false
    ∧ attemptId s2 = attemptId started_state
    ∧ studentDetails s2 = studentDetails started_state
    ∧ questionState s2 = questionState started_state
    ∧ currentIndex s2 = currentIndex started_state
    ∧ submitted s2 = submitted started_state.
Proof.
  assert (H : 2%Z ≠ examId started_state) by (vm_compute; discriminate).
  split; [exact H|].
  exact (second_exam_over_the_attempt 2 [mkQuestion 21 "other" ["a"; "b"]] 5
           started_state H).
Defined.

Lemma losses_noticed_render_by_render_witness :
  in_fullscreen (run (sample_start ++ [StartTimerFires true]) (init 1 false))
  ∧ in_fullscreen
      (run (concat (map episode_events sample_episodes))
         (run (sample_start ++ [StartTimerFires true]) (init 1 false)))
  ∧ exit_reports
      (run (concat (map episode_events sample_episodes))
         (run (sample_start ++ [StartTimerFires true]) (init 1 false)))
    = exit_reports
        (run (sample_start ++ [StartTimerFires true]) (init 1 false))
      + length sample_episodes
  ∧ losses (concat (map episode_events sample_episodes))
      (run (sample_start ++ [StartTimerFires true]) (init 1 false))
    = length sample_episodes.
Proof.
  assert (H : in_fullscreen
                (run (sample_start ++ [StartTimerFires true]) (init 1 false))).
  { unfold in_fullscreen. vm_compute. repeat split; discriminate. }
  split; [exact H|].
  exact (losses_noticed_render_by_render sample_episodes _ H).
Defined.

End Samples.
